(** * ReDerma backend: consent, retention, billing and submission workflows

    A shallow embedding of the Express/Sequelize backend
    (src/models, src/services, src/middleware, src/routes) and the
    properties its specification states about it.

    Conventions of the embedding
    - The relational store is three tables kept as lists of rows, in
      insertion order; [findOne] returns the first matching row.
    - Third-party calls (Stripe, Cloudinary, OpenAI, bcrypt, jsonwebtoken,
      express-validator, sharp) are fields of an environment record [Env];
      each call the code issues is appended to the world's [calls] trace.
      What the database reads off a text for a typed column (a UUID, a
      boolean, a timestamp within its range) is a field of [Env] as well.
    - What the body parsers mounted in front of the routes refuse in a
      request is part of the request ([body_error]).
    - The limiters count in the default store of express-rate-limit,
      [MemoryStore].
    - [console.error] appends to the world's [log].
    - A thrown JavaScript exception is the [Throw] result of the monad [M];
      the world reached before the throw is kept, as in JavaScript.
    - Clock readings are inputs of a request, in milliseconds since the
      epoch. What its handler reads ([Date.now()], [new Date()]) is the
      instant [now]; the reading the ORM takes afterwards to stamp the
      analysis a submission creates is the separate instant [created].
      The ORM's stamps of accounts and consent records are taken at
      [now]. *)

From Stdlib Require Import String Ascii List ZArith Bool Lia DecimalString
  DecimalNat.
Import ListNotations.

Local Open Scope string_scope.
Local Open Scope list_scope.
Local Open Scope Z_scope.

(* ================================================================== *)
(** * JavaScript values of request bodies *)
(* ================================================================== *)

Module Js.

(** A JSON request-body field.  [VObject] stands for any object or array. *)
Inductive value : Type :=
| VUndefined
| VNull
| VBool (b : bool)
| VNum (n : Z)
| VStr (s : string)
| VObject.

(** JavaScript truthiness, as used by [if (x)], [x ? a : b] and [x || y]. *)
Definition truthy (v : value) : bool :=
  match v with
  | VUndefined | VNull => false
  | VBool b => b
  | VNum n => negb (n =? 0)
  | VStr s => negb (s =? "")%string
  | VObject => true
  end.

(** [v === s] for a string literal [s]. *)
Definition strict_eq_str (v : value) (s : string) : bool :=
  match v with
  | VStr t => (t =? s)%string
  | _ => false
  end.

(** [arr.includes(v)] for an array literal of strings. *)
Definition includes (arr : list string) (v : value) : bool :=
  existsb (strict_eq_str v) arr.

(** The string express-validator validates: strings as they are, missing
    values as the empty string, other primitives through [String(v)]. *)
Definition toString (v : value) : string :=
  match v with
  | VUndefined | VNull => ""
  | VBool true => "true"
  | VBool false => "false"
  | VNum n => NilZero.string_of_int (Z.to_int n)
  | VStr s => s
  | VObject => "[object Object]"
  end.

(** Template-literal interpolation of an environment variable:
    an unset variable prints as [undefined]. *)
Definition interpolate (o : option string) : string :=
  match o with Some s => s | None => "undefined" end.

(** [str.startsWith(prefix)] *)
Definition startsWith (s p : string) : bool := String.prefix p s.

(** [header?.split(' ')[1]]: the second of the space-separated pieces. *)
Fixpoint upto_space (s : string) : string :=
  match s with
  | EmptyString => EmptyString
  | String c r => if Ascii.eqb c " "%char then EmptyString else String c (upto_space r)
  end.

Fixpoint after_space (s : string) : option string :=
  match s with
  | EmptyString => None
  | String c r => if Ascii.eqb c " "%char then Some r else after_space r
  end.

Definition split_space_1 (header : option string) : option string :=
  match header with
  | None => None
  | Some h => option_map upto_space (after_space h)
  end.

(** ** parseInt *)

Definition is_ws (c : ascii) : bool :=
  let n := nat_of_ascii c in
  ((n =? 32) || ((9 <=? n) && (n <=? 13)))%nat.

Fixpoint skip_ws (s : string) : string :=
  match s with
  | String c r => if is_ws c then skip_ws r else s
  | EmptyString => s
  end.

Definition digit_val (radix : Z) (c : ascii) : option Z :=
  let n := Z.of_nat (nat_of_ascii c) in
  let d :=
    if (48 <=? n) && (n <=? 57) then Some (n - 48)
    else if (97 <=? n) && (n <=? 122) then Some (n - 87)
    else if (65 <=? n) && (n <=? 90) then Some (n - 55)
    else None in
  match d with
  | Some k => if k <? radix then Some k else None
  | None => None
  end.

(** The longest prefix of digits, read in [radix]; [None] (NaN) when the
    prefix is empty. *)
Fixpoint digits (radix : Z) (s : string) (acc : option Z) : option Z :=
  match s with
  | EmptyString => acc
  | String c r =>
      match digit_val radix c with
      | Some d =>
          digits radix r
            (Some (radix * (match acc with Some a => a | None => 0 end) + d))
      | None => acc
      end
  end.

Definition unsigned_int (s : string) : option Z :=
  match s with
  | String "0" (String "x" r) | String "0" (String "X" r) => digits 16 r None
  | _ => digits 10 s None
  end.

(** [parseInt(s)] with no radix argument; [None] is NaN. *)
Definition parseInt (s : string) : option Z :=
  match skip_ws s with
  | String "-" r => option_map Z.opp (unsigned_int r)
  | String "+" r => unsigned_int r
  | r => unsigned_int r
  end.

(** ** Dates *)

(** A JavaScript [Date]: a time value in milliseconds since the epoch, or
    the Invalid Date. *)
Inductive Date : Type :=
| ValidDate (t : Z)
| InvalidDate.

Definition maxTime : Z := 8640000000000000.

(** [new Date(n)] for a number [n] ([None] is NaN): TimeClip. *)
Definition newDate (n : option Z) : Date :=
  match n with
  | Some t => if Z.abs t <=? maxTime then ValidDate t else InvalidDate
  | None => InvalidDate
  end.

Definition msPerDay : Z := 24 * 60 * 60 * 1000.

(** [d.setDate(d.getDate() + n)]: the same wall-clock time [n] calendar
    days later.  The server's zone is taken without daylight-saving shifts
    (the container runs in UTC), so a calendar day is [msPerDay]. *)
Definition addDays (d : Date) (n : Z) : Date :=
  match d with
  | ValidDate t => newDate (Some (t + n * msPerDay))
  | InvalidDate => InvalidDate
  end.

End Js.
Import Js.

(* ================================================================== *)
(** * Data model (src/models) *)
(* ================================================================== *)

(** JSONB payloads (questionnaire, analysis result) in serialised form. *)
Definition Json : Type := string.

(** src/models/User.js *)
Module User.

Record t : Type := mk {
  id : string;
  email : string;
  password : string;
  isPremium : bool;
  stripeCustomerId : option string;
  stripeSubscriptionId : option string;
  subscriptionStatus : string;
  language : string;
  country : option string;
  age : option Z;
  sex : option string;
  gdprConsentDate : option Date;
  marketingConsent : option bool;
  dataRetentionConsent : option bool;
  lastLogin : option Date;
  accountDeletionScheduled : option Date;
  createdAt : Z
}.

(** [DataTypes.ENUM('active', 'canceled', 'past_due', 'inactive')] *)
Definition subscriptionStatus_enum : list string :=
  ["active"; "canceled"; "past_due"; "inactive"].

(** The partial object handed to [user.update({...})]: the columns that
    are present are written, the others are left alone. *)
Record changes : Type := mkChanges {
  set_stripeCustomerId : option string;
  set_stripeSubscriptionId : option string;
  set_subscriptionStatus : option string;
  set_isPremium : option bool;
  set_marketingConsent : option (option bool);
  set_dataRetentionConsent : option (option bool);
  set_lastLogin : option Date;
  set_accountDeletionScheduled : option (option Date)
}.

Definition no_changes : changes :=
  mkChanges None None None None None None None None.

Definition or_else {A} (o : option A) (d : A) : A :=
  match o with Some a => a | None => d end.

Definition or_keep {A} (o : option A) (d : option A) : option A :=
  match o with Some a => Some a | None => d end.

Definition apply (c : changes) (u : t) : t :=
  {| id := id u;
     email := email u;
     password := password u;
     isPremium := or_else (set_isPremium c) (isPremium u);
     stripeCustomerId := or_keep (set_stripeCustomerId c) (stripeCustomerId u);
     stripeSubscriptionId :=
       or_keep (set_stripeSubscriptionId c) (stripeSubscriptionId u);
     subscriptionStatus :=
       or_else (set_subscriptionStatus c) (subscriptionStatus u);
     language := language u;
     country := country u;
     age := age u;
     sex := sex u;
     gdprConsentDate := gdprConsentDate u;
     marketingConsent := or_else (set_marketingConsent c) (marketingConsent u);
     dataRetentionConsent :=
       or_else (set_dataRetentionConsent c) (dataRetentionConsent u);
     lastLogin := or_keep (set_lastLogin c) (lastLogin u);
     accountDeletionScheduled :=
       or_else (set_accountDeletionScheduled c) (accountDeletionScheduled u);
     createdAt := createdAt u |}.

(** The row with another value in the [password] column. *)
Definition with_password (p : string) (u : t) : t :=
  {| id := id u; email := email u; password := p; isPremium := isPremium u;
     stripeCustomerId := stripeCustomerId u;
     stripeSubscriptionId := stripeSubscriptionId u;
     subscriptionStatus := subscriptionStatus u; language := language u;
     country := country u; age := age u; sex := sex u;
     gdprConsentDate := gdprConsentDate u;
     marketingConsent := marketingConsent u;
     dataRetentionConsent := dataRetentionConsent u;
     lastLogin := lastLogin u;
     accountDeletionScheduled := accountDeletionScheduled u;
     createdAt := createdAt u |}.

End User.

(** src/models/Analysis.js *)
Module Analysis.

Record t : Type := mk {
  id : string;
  userId : string;
  imageUrl : string;
  imagePublicId : string;
  affectedArea : string;
  questionnaire : Json;
  aiResult : Json;
  isPremiumAnalysis : bool;
  scheduledDeletion : option Date;
  createdAt : Z
}.

End Analysis.

(** src/models/Consent.js *)
Module Consent.

Record t : Type := mk {
  id : string;
  userId : string;
  consentType : string;
  consentGiven : bool;
  ipAddress : string;
  userAgent : option string;
  version : string;
  createdAt : Z
}.

(** [DataTypes.ENUM('gdpr', 'marketing', 'data_retention', 'cookies')] *)
Definition consentType_enum : list string :=
  ["gdpr"; "marketing"; "data_retention"; "cookies"].

End Consent.

(* ================================================================== *)
(** * The world: tables, outgoing calls, console *)
(* ================================================================== *)

(** A call the backend issues to a third party. *)
Inductive ExtCall : Type :=
| StripeCustomersCreate (email userId : string)
| StripeCheckoutSessionsCreate (customerId : string)
| StripeSubscriptionsCancel (subscriptionId : string)
| CloudinaryUpload (folder : string)
| CloudinaryDestroy (publicId : string)
| CloudinaryDeleteResourcesByPrefix (prefix : string)
| CloudinaryDeleteFolder (folder : string)
| OpenAIAnalyze (imageUrl : string).

(** A JavaScript [Error]; [err_status] is its [status] property, which the
    errors of the body parsers carry (http-errors) and the others lack. *)
Record Error : Type := mkHttpError {
  name : string;
  message : string;
  err_status : option Z
}.

Definition mkError (name message : string) : Error :=
  mkHttpError name message None.

Definition newError (msg : string) : Error := mkError "Error" msg.

Record World : Type := mkWorld {
  users : list User.t;
  analyses : list Analysis.t;
  consents : list Consent.t;
  calls : list ExtCall;
  (** [console.error(label, error)]: the label and the error's message *)
  log : list (string * string);
  (** how many UUIDs the ORM has drawn *)
  uuids : nat
}.

Definition with_users (f : list User.t -> list User.t) (w : World) : World :=
  mkWorld (f (users w)) (analyses w) (consents w) (calls w) (log w) (uuids w).

Definition with_analyses (f : list Analysis.t -> list Analysis.t) (w : World)
  : World :=
  mkWorld (users w) (f (analyses w)) (consents w) (calls w) (log w) (uuids w).

Definition with_consents (f : list Consent.t -> list Consent.t) (w : World)
  : World :=
  mkWorld (users w) (analyses w) (f (consents w)) (calls w) (log w) (uuids w).

(* ================================================================== *)
(** * The environment: configuration and third-party libraries *)
(* ================================================================== *)

(** [process.env] (.env.example) *)
Record ProcessEnv : Type := mkProcessEnv {
  NODE_ENV : option string;
  JWT_SECRET : option string;
  JWT_REFRESH_SECRET : option string;
  JWT_EXPIRES_IN : option string;
  JWT_REFRESH_EXPIRES_IN : option string;
  CLOUDINARY_FOLDER : option string;
  STRIPE_WEBHOOK_SECRET : option string;
  STRIPE_PREMIUM_PRICE_ID : option string;
  DATA_RETENTION_DAYS : option string
}.

(** What [jwt.verify] does: the decoded [userId], or one of its errors. *)
Inductive JwtVerify : Type :=
| Decoded (userId : string)
| TokenExpiredError
| JsonWebTokenError.

(** The fields of a Stripe event the handlers read:
    [event.type], [event.data.object.{id, customer, status}]. *)
Record StripeEvent : Type := mkStripeEvent {
  ev_type : string;
  ev_id : string;
  ev_customer : string;
  ev_status : string
}.

(** The third-party functions the backend calls.  A call that can throw
    returns an [option]; [None] is the throw. *)
Record Env : Type := mkEnv {
  processEnv : ProcessEnv;
  uuidv4 : nat -> string;
  (** the database's input syntax of the column types: the UUID it reads
      a text as, in the canonical text it stores and compares ([None]: the
      text is no UUID); the boolean it reads a text as; whether its [DATE]
      takes an instant (its range is narrower than JavaScript's). A
      generated UUID is in canonical text. *)
  pg_uuid_in : string -> option string;
  uuidv4_uuid : forall n, pg_uuid_in (uuidv4 n) = Some (uuidv4 n);
  pg_bool_in : string -> option bool;
  pg_timestamptz_in : Z -> bool;
  (** [bcrypt.hash(data, rounds)], the salt drawn by the library *)
  bcrypt_hash : string -> Z -> string;
  bcrypt_compare : string -> string -> bool;
  (** [jwt.sign({ userId }, secret, { expiresIn })] at an instant *)
  jwt_sign : string -> option string -> option string -> Z -> string;
  (** [jwt.verify(token, secret)] at an instant *)
  jwt_verify : string -> option string -> Z -> JwtVerify;
  isEmail : string -> bool;
  normalizeEmail : string -> string;
  isJSON : string -> bool;
  JSON_parse : string -> option Json;
  (** the sharp pipeline of [uploadImage], on the uploaded bytes *)
  sharp : string -> option string;
  (** [cloudinary.uploader.upload_stream]: [secure_url] and [public_id] *)
  cloudinary_upload : string -> string -> option (string * string);
  cloudinary_destroy : string -> bool;
  cloudinary_delete_resources_by_prefix : string -> bool;
  cloudinary_delete_folder : string -> bool;
  (** the two OpenAI completions of [analyzeImage] and the formatting of
      their result, for [(url, questionnaire, area, isPremium)] *)
  openai_completions : string -> Json -> string -> bool -> Z -> option Json;
  stripe_customers_create : string -> string -> option string;
  (** [stripe.checkout.sessions.create]: session [id] and [url] *)
  stripe_checkout_sessions_create :
    string -> option string -> string -> option (string * string);
  stripe_subscriptions_cancel : string -> bool;
  (** [stripe.webhooks.constructEvent(payload, signature, secret)] *)
  stripe_webhooks_constructEvent :
    string -> option string -> option string -> Z -> option StripeEvent
}.

(* ================================================================== *)
(** * The monad of handlers: world passing with exceptions *)
(* ================================================================== *)

Inductive Result (A : Type) : Type :=
| Ok (a : A)
| Throw (e : Error).
Arguments Ok {A} a.
Arguments Throw {A} e.

Definition M (A : Type) : Type := World -> World * Result A.

Definition ret {A} (a : A) : M A := fun w => (w, Ok a).

Definition throw {A} (e : Error) : M A := fun w => (w, Throw e).

Definition bind {A B} (m : M A) (k : A -> M B) : M B :=
  fun w =>
    match m w with
    | (w', Ok a) => k a w'
    | (w', Throw e) => (w', Throw e)
    end.

(** [try { body } catch (error) { handler }] *)
Definition try_catch {A} (body : M A) (handler : Error -> M A) : M A :=
  fun w =>
    match body w with
    | (w', Ok a) => (w', Ok a)
    | (w', Throw e) => handler e w'
    end.

Declare Scope js_scope.
Delimit Scope js_scope with js.
Notation "x <- m ;; k" := (bind m (fun x => k))
  (at level 61, m at next level, right associativity) : js_scope.
Notation "m ;; k" := (bind m (fun _ => k))
  (at level 61, right associativity) : js_scope.
Local Open Scope js_scope.

Definition get : M World := fun w => (w, Ok w).

Definition modify (f : World -> World) : M unit := fun w => (f w, Ok tt).

Definition console_error (label : string) (e : Error) : M unit :=
  modify (fun w =>
    mkWorld (users w) (analyses w) (consents w) (calls w)
            (log w ++ [(label, message e)]) (uuids w)).

(** Issue a third-party call: it is recorded whether or not it succeeds. *)
Definition issue (c : ExtCall) : M unit :=
  modify (fun w =>
    mkWorld (users w) (analyses w) (consents w) (calls w ++ [c])
            (log w) (uuids w)).

Definition external {A} (c : ExtCall) (outcome : option A) (failure : Error)
  : M A :=
  issue c ;;
  match outcome with
  | Some a => ret a
  | None => throw failure
  end.

Definition succeeded (b : bool) : option unit :=
  if b then Some tt else None.

(** The ORM draws a fresh UUID for a new row. *)
Definition fresh_uuid (uuid : nat -> string) : M string :=
  fun w =>
    (mkWorld (users w) (analyses w) (consents w) (calls w) (log w)
             (S (uuids w)),
     Ok (uuid (uuids w))).

(* ================================================================== *)
(** * Requests and responses *)
(* ================================================================== *)

(** [req.file], as multer's memory storage builds it. *)
Record File : Type := mkFile {
  mimetype : string;
  size : Z;
  buffer : string
}.

(** What the body parsers refuse, by the status their error carries: a
    body that does not parse or is cut short (400), a body over the limit
    (413), an encoding or character set they do not read (415). *)
Inductive BodyError : Type :=
| Malformed (message : string)
| TooLarge (message : string)
| Unsupported (message : string).

Definition body_parser_error (b : BodyError) : Error :=
  match b with
  | Malformed m => mkHttpError "BadRequestError" m (Some 400)
  | TooLarge m => mkHttpError "PayloadTooLargeError" m (Some 413)
  | Unsupported m => mkHttpError "UnsupportedMediaTypeError" m (Some 415)
  end.

Record Request : Type := mkRequest {
  (** the instant the request is served: what its handler reads from the
      clock ([Date.now()], [new Date()]) *)
  now : Z;
  (** the instant the ORM reads from the clock, after the handler has read
      [now], when it stamps the analysis the request creates *)
  created : Z;
  (** what the body parsers mounted in front of the routes refuse in the
      request, if anything *)
  body_error : option BodyError;
  ip : string;
  user_agent : option string;
  authorization : option string;
  cookie_token : option string;
  stripe_signature : option string;
  (** [req.body[field]] of a JSON or multipart body *)
  body : string -> value;
  (** [req.body] of the raw webhook route *)
  raw_body : string;
  (** the multipart part named [image] *)
  image : option File;
  (** [req.params.id] *)
  param_id : string;
  (** [req.query.page], [req.query.limit], when numeric *)
  query_page : option Z;
  query_limit : option Z
}.

(** The columns [attributes: [...]] keeps in the library listing. *)
Definition LibraryRow : Type := (string * string * Json * Z * bool)%type.

(** A row without its [userId] ([attributes: { exclude: ['userId'] }]). *)
Definition ExportedAnalysis : Type :=
  (string * string * string * string * Json * Json * bool * option Date * Z)%type.
Definition ExportedConsent : Type :=
  (string * string * bool * string * option string * string * Z)%type.
(** [id, email, language, country, age, sex, isPremium, createdAt] *)
Definition ExportedUser : Type :=
  (string * string * string * option string * option Z * option string
   * bool * Z)%type.

Inductive Body : Type :=
| BError (error : string)
| BErrors (errors : list string)
| BText (text : string)
| BMessage (message : string)
| BConsentRequired (error : string)
| BPremiumRequired (error upgradeUrl : string)
| BSession (message id email : string) (isPremium : bool)
    (language : option string) (accessToken refreshToken : string)
| BTokens (accessToken refreshToken : string)
| BMe (id email : string) (isPremium : bool) (language : string)
    (country : option string)
| BCreated (id : string) (aiResult : Json) (createdAt : Z)
| BLibrary (rows : list LibraryRow) (total page : Z) (pages : option Z)
| BAnalysis (a : Analysis.t)
| BCheckout (sessionId url : string)
| BSubscription (isPremium : bool) (status : string)
    (stripeCustomerId : option string)
| BReceived
| BConsents (rows : list Consent.t)
| BExport (user : ExportedUser) (analyses : list ExportedAnalysis)
    (consents : list ExportedConsent)
| BScheduled (message : string) (deletionDate : Date)
| BHealth (timestamp : Z).

Record Response : Type := mkResponse {
  status : Z;
  payload : Body
}.

(** [res.status(code).json(body)] and [res.json(body)] *)
Definition res_status_json (code : Z) (b : Body) : Response := mkResponse code b.
Definition res_json (b : Body) : Response := mkResponse 200 b.

(** What a middleware does with a request: calls [next()], answers it, or
    calls [next(err)]. *)
Inductive Outcome (A : Type) : Type :=
| Next (a : A)
| Respond (r : Response)
| NextError (e : Error).
Arguments Next {A} a.
Arguments Respond {A} r.
Arguments NextError {A} e.

(* ================================================================== *)
(** * The rate limiter's store (express-rate-limit) *)
(* ================================================================== *)

(** The store interface of the limiter: [increment] counts one more
    request of a key and reports the total counted in the key's current
    window; [hits] is the total already counted there. *)
Class RateStore (Store : Type) : Type := {
  hits : Z -> Store -> string -> Z -> nat;
  increment : Z -> Store -> string -> Z -> Store * nat;
  increment_totalHits :
    forall windowMs st key t,
      snd (increment windowMs st key t) = S (hits windowMs st key t)
}.

(** The options object handed to [rateLimit({...})]. *)
Record LimiterOptions : Type := mkLimiterOptions {
  windowMs : Z;
  max : option User.t -> nat;
  limit_message : string;
  keyGenerator : option User.t -> Request -> string
}.

(** The middleware [rateLimit(options)] returns: count the request under
    its key, answer 429 with the message once the count exceeds [max]. *)
Definition rateLimit {Store} `{RateStore Store} (o : LimiterOptions)
  (st : Store) (user : option User.t) (req : Request)
  : Store * Outcome unit :=
  let key := keyGenerator o user req in
  let '(st', totalHits) := increment (windowMs o) st key (now req) in
  if (max o user <? totalHits)%nat
  then (st', Respond (mkResponse 429 (BText (limit_message o))))
  else (st', Next tt).

(** The limiter's default store, [MemoryStore] of express-rate-limit 7
    (the version package.json asks for; the package's code is not part of
    the repository): per key, the hits counted in the key's current window
    and the instant that window ends. A window is fixed: it opens at the
    first request counted for the key and a new one opens at the first
    request at or after its end. *)
Record Client : Type := mkClient {
  totalHits : nat;
  resetTime : Z
}.

Definition MemoryStore : Type := list (string * Client).

Definition getClient (st : MemoryStore) (key : string) : option Client :=
  option_map snd (find (fun e => (fst e =? key)%string) st).

(** The client [increment] works on at the instant [t]: the stored one, or
    a fresh one when there is none or its window has ended
    ([resetTime <= now]). *)
Definition currentClient (windowMs : Z) (st : MemoryStore) (key : string)
  (t : Z) : Client :=
  match getClient st key with
  | Some client =>
      if resetTime client <=? t then mkClient 0 (t + windowMs) else client
  | None => mkClient 0 (t + windowMs)
  end.

Definition memory_hits (windowMs : Z) (st : MemoryStore) (key : string)
  (t : Z) : nat :=
  totalHits (currentClient windowMs st key t).

Definition memory_increment (windowMs : Z) (st : MemoryStore) (key : string)
  (t : Z) : MemoryStore * nat :=
  let client := currentClient windowMs st key t in
  ((key, mkClient (S (totalHits client)) (resetTime client))
     :: filter (fun e => negb (fst e =? key)%string) st,
   S (totalHits client)).

#[export] Instance MemoryStore_RateStore : RateStore MemoryStore := {
  hits := memory_hits;
  increment := memory_increment;
  increment_totalHits := fun _ _ _ _ => eq_refl
}.

(* ================================================================== *)
(** * The application's routes and server state (src/app.js) *)
(* ================================================================== *)

(** What a request asks for: one of the routes the application mounts,
    anything with the method OPTIONS, or something else that matches no
    route. *)
Inductive Route : Type :=
| GET_health
| POST_auth_register
| POST_auth_login
| POST_auth_refresh
| POST_auth_logout
| GET_auth_me
| POST_analysis
| GET_analysis
| GET_analysis_id
| DELETE_analysis_id
| POST_subscription_create_checkout
| GET_subscription_status
| POST_subscription_cancel
| POST_subscription_webhook
| POST_gdpr_consent
| GET_gdpr_consents
| POST_gdpr_export
| POST_gdpr_delete_account
| POST_gdpr_schedule_deletion
| POST_gdpr_cancel_deletion
| OPTIONS_any
| Unknown_route.

(** The server: the tables and the three limiters' stores. *)
Record Server (Store : Type) : Type := mkServer {
  world : World;
  generalStore : Store;
  authStore : Store;
  analysisStore : Store
}.
Arguments mkServer {Store} world generalStore authStore analysisStore.
Arguments world {Store} s.
Arguments generalStore {Store} s.
Arguments authStore {Store} s.
Arguments analysisStore {Store} s.

(* ================================================================== *)
(** * The backend *)
(* ================================================================== *)

Section Backend.

Variable env : Env.

(** ** The ORM (Sequelize) over the three tables *)

Definition User_findOne (where_ : User.t -> bool) : M (option User.t) :=
  w <- get ;; ret (find where_ (users w)).

(** The boolean a [BOOLEAN] column stores for a value that is present.
    The ORM maps the strings [true] and [false] and the numbers 1 and 0 to
    booleans; every other string or number reaches the database as text,
    whose boolean input syntax decides. The text of an object or array
    is no boolean. [None]: the database refuses the value. *)
Definition boolean_sanitize (v : value) : option bool :=
  match v with
  | VBool b => Some b
  | VStr s =>
      if (s =? "true")%string then Some true
      else if (s =? "false")%string then Some false
      else pg_bool_in env s
  | VNum n =>
      if n =? 1 then Some true
      else if n =? 0 then Some false
      else pg_bool_in env (toString v)
  | VUndefined | VNull | VObject => None
  end.

(** What [update] does with a value for a nullable [BOOLEAN] column: an
    undefined value is left out of the statement, [null] is written as
    NULL, anything else is written as the column stores it or refused. *)
Inductive ColumnWrite : Type :=
| LeftOut
| Written (b : option bool)
| Refused.

Definition boolean_column (v : value) : ColumnWrite :=
  match v with
  | VUndefined => LeftOut
  | VNull => Written None
  | _ =>
      match boolean_sanitize v with
      | Some b => Written (Some b)
      | None => Refused
      end
  end.

Definition validationError (msg : string) : Error :=
  mkError "SequelizeValidationError" msg.

Definition databaseError (msg : string) : Error :=
  mkError "SequelizeDatabaseError" msg.

(** The database's message for a text it cannot read as a value of a
    column's type: the type, then the text between double quotes. *)
Definition invalid_input_syntax (type text : string) : string :=
  "invalid input syntax for type " ++ type ++ ": "
  ++ String (ascii_of_nat 34) (text ++ String (ascii_of_nat 34) EmptyString).

(** The [beforeCreate] hook of the User model. *)
Definition beforeCreate (plain : string) : string :=
  if negb (plain =? "")%string then bcrypt_hash env plain 12 else plain.

(** [User.create({ email, password, language, country, gdprConsentDate,
    dataRetentionConsent })]: validation ([isEmail], string password), the
    [beforeCreate] hook, the unique index on [email], then the insert with
    the column defaults. *)
Definition User_create (email : string) (password : value) (language : string)
  (country : option string) (gdprConsentDate : option Date)
  (dataRetentionConsent : bool) (t : Z) : M User.t :=
  if negb (isEmail env email) then
    throw (validationError "Validation isEmail on email failed")
  else
    match password with
    | VStr plain =>
        w <- get ;;
        if existsb (fun u => (User.email u =? email)%string) (users w) then
          throw (mkError "SequelizeUniqueConstraintError" "email must be unique")
        else
          id <- fresh_uuid (uuidv4 env) ;;
          let user :=
            User.mk id email (beforeCreate plain) false None None "inactive"
                    language country None None gdprConsentDate (Some false)
                    (Some dataRetentionConsent) None None t in
          modify (with_users (fun us => us ++ [user])) ;;
          ret user
    | _ => throw (validationError "password must be a string")
    end.

(** [user.update(changes)]: the [subscriptionStatus] enum is checked, then
    the listed columns of the row with the user's primary key are written.
    (No route changes [password], so [beforeUpdate] never rehashes.) *)
Definition User_update (user : User.t) (c : User.changes) : M User.t :=
  let allowed :=
    match User.set_subscriptionStatus c with
    | Some s => existsb (String.eqb s) User.subscriptionStatus_enum
    | None => true
    end in
  if allowed then
    modify (with_users (map (fun r =>
      if (User.id r =? User.id user)%string then User.apply c r else r))) ;;
    ret (User.apply c user)
  else
    throw (databaseError "invalid input value for enum subscriptionStatus").

(** [user.destroy()]: the row goes, and with it (ON DELETE CASCADE) the
    analyses and consents that reference it. *)
Definition User_destroy (user : User.t) : M unit :=
  modify (fun w =>
    mkWorld
      (filter (fun r => negb (User.id r =? User.id user)%string) (users w))
      (filter (fun a => negb (Analysis.userId a =? User.id user)%string)
              (analyses w))
      (filter (fun c => negb (Consent.userId c =? User.id user)%string)
              (consents w))
      (calls w) (log w) (uuids w)).

(** [Analysis.create({...})]: the row is built with a fresh UUID, then
    inserted. The [DATE] column takes no Invalid Date and no instant
    outside the database's range: the insert fails and nothing is
    stored. *)
Definition Analysis_create (userId imageUrl imagePublicId affectedArea : string)
  (questionnaire aiResult : Json) (isPremiumAnalysis : bool)
  (scheduledDeletion : Date) (t : Z) : M Analysis.t :=
  id <- fresh_uuid (uuidv4 env) ;;
  match scheduledDeletion with
  | InvalidDate =>
      throw (databaseError
               (invalid_input_syntax "timestamp with time zone"
                  "Invalid date"))
  | ValidDate expiry =>
      if negb (pg_timestamptz_in env expiry) then
        throw (databaseError "timestamp out of range")
      else
        let analysis :=
          Analysis.mk id userId imageUrl imagePublicId affectedArea
                      questionnaire aiResult isPremiumAnalysis
                      (Some scheduledDeletion) t in
        modify (with_analyses (fun l => l ++ [analysis])) ;;
        ret analysis
  end.

Definition Analysis_findOne (where_ : Analysis.t -> bool)
  : M (option Analysis.t) :=
  w <- get ;; ret (find where_ (analyses w)).

Definition Analysis_findAll (where_ : Analysis.t -> bool)
  : M (list Analysis.t) :=
  w <- get ;; ret (filter where_ (analyses w)).

(** [Analysis.destroy({ where })] *)
Definition Analysis_destroy_where (where_ : Analysis.t -> bool) : M unit :=
  modify (with_analyses (filter (fun a => negb (where_ a)))).

(** [analysis.destroy()] *)
Definition Analysis_destroy (analysis : Analysis.t) : M unit :=
  Analysis_destroy_where
    (fun a => (Analysis.id a =? Analysis.id analysis)%string).

(** [Consent.create({ userId, consentType, consentGiven, ipAddress,
    userAgent })]: the ORM refuses a missing [consentGiven]
    ([allowNull: false]), the database a type outside the enum and a value
    that is no boolean. *)
Definition Consent_create (userId consentType : string) (consentGiven : value)
  (ipAddress : string) (userAgent : option string) (t : Z) : M Consent.t :=
  match consentGiven with
  | VUndefined | VNull =>
      throw (validationError "Consent.consentGiven cannot be null")
  | _ =>
      if negb (existsb (String.eqb consentType) Consent.consentType_enum) then
        throw (databaseError "invalid input value for enum consentType")
      else
        match boolean_sanitize consentGiven with
        | Some given =>
            id <- fresh_uuid (uuidv4 env) ;;
            let consent :=
              Consent.mk id userId consentType given ipAddress userAgent
                         "1.0" t in
            modify (with_consents (fun l => l ++ [consent])) ;;
            ret consent
        | None =>
            throw (databaseError
                     (invalid_input_syntax "boolean" (toString consentGiven)))
        end
  end.

Definition Consent_findAll (where_ : Consent.t -> bool) : M (list Consent.t) :=
  w <- get ;; ret (filter where_ (consents w)).

Definition Consent_destroy_where (where_ : Consent.t -> bool) : M unit :=
  modify (with_consents (filter (fun c => negb (where_ c)))).

(** ** src/services/imageService.js *)

Definition user_folder (userId : string) : string :=
  interpolate (CLOUDINARY_FOLDER (processEnv env)) ++ "/" ++ userId.

Definition uploadImage (imageBuffer userId : string) : M (string * string) :=
  try_catch
    (processedImage <-
       match sharp env imageBuffer with
       | Some p => ret p
       | None => throw (newError "Input buffer contains unsupported image format")
       end ;;
     external (CloudinaryUpload (user_folder userId))
              (cloudinary_upload env (user_folder userId) processedImage)
              (newError "cloudinary upload failed"))
    (fun error =>
       console_error "Image upload error:" error ;;
       throw (newError "Failed to upload image")).

Definition deleteImage (publicId : string) : M unit :=
  try_catch
    (external (CloudinaryDestroy publicId)
              (succeeded (cloudinary_destroy env publicId))
              (newError "cloudinary destroy failed"))
    (fun error => console_error "Image deletion error:" error).

Definition deleteUserImages (userId : string) : M unit :=
  try_catch
    (external (CloudinaryDeleteResourcesByPrefix (user_folder userId))
              (succeeded
                 (cloudinary_delete_resources_by_prefix env (user_folder userId)))
              (newError "cloudinary delete_resources_by_prefix failed") ;;
     external (CloudinaryDeleteFolder (user_folder userId))
              (succeeded (cloudinary_delete_folder env (user_folder userId)))
              (newError "cloudinary delete_folder failed"))
    (fun error => console_error "Bulk image deletion error:" error).

Definition allowedTypes : list string :=
  ["image/jpeg"; "image/png"; "image/jpg"].

Definition maxSize : Z := 10 * 1024 * 1024.

Definition validateImage (file : File) : M bool :=
  if negb (existsb (String.eqb (mimetype file)) allowedTypes) then
    throw (newError "Invalid file type. Only JPG and PNG are allowed.")
  else if maxSize <? size file then
    throw (newError "File too large. Maximum size is 10MB.")
  else ret true.

(** ** src/services/aiService.js

    The prompts [analyzeImage] builds and the formatting of the result are
    text exchanged with OpenAI; the two completions and [formatResult]
    together are the environment's [openai_completions]. *)

Definition analyzeImage (imageUrl : string) (questionnaire : Json)
  (area : string) (isPremium : bool) (t : Z) : M Json :=
  try_catch
    (external (OpenAIAnalyze imageUrl)
       (openai_completions env imageUrl questionnaire area isPremium t)
       (newError "openai request failed"))
    (fun error =>
       console_error "AI Analysis Error:" error ;;
       throw (newError "Failed to analyze image. Please try again.")).

(** ** src/services/stripeService.js

    [createSubscription] is called by no route and is left out. *)

Definition stripeError : Error := mkError "StripeError" "stripe request failed".

Definition createCustomer (email userId : string) : M string :=
  try_catch
    (external (StripeCustomersCreate email userId)
              (stripe_customers_create env email userId) stripeError)
    (fun error =>
       console_error "Stripe customer creation error:" error ;; throw error).

Definition createCheckoutSession (customerId : string)
  (priceId : option string) (userId : string) : M (string * string) :=
  try_catch
    (external (StripeCheckoutSessionsCreate customerId)
              (stripe_checkout_sessions_create env customerId priceId userId)
              stripeError)
    (fun error =>
       console_error "Stripe checkout session error:" error ;; throw error).

Definition cancelSubscription (subscriptionId : string) : M unit :=
  try_catch
    (external (StripeSubscriptionsCancel subscriptionId)
              (succeeded (stripe_subscriptions_cancel env subscriptionId))
              stripeError)
    (fun error =>
       console_error "Stripe subscription cancellation error:" error ;;
       throw error).

Definition updateSubscriptionStatus (subscription : StripeEvent) : M unit :=
  user <- User_findOne (fun u =>
            match User.stripeCustomerId u with
            | Some c => (c =? ev_customer subscription)%string
            | None => false
            end) ;;
  match user with
  | Some user =>
      User_update user
        (User.mkChanges None (Some (ev_id subscription))
           (Some (ev_status subscription))
           (Some (ev_status subscription =? "active")%string)
           None None None None) ;;
      ret tt
  | None => ret tt
  end.

Definition handleSubscriptionDeleted (subscription : StripeEvent) : M unit :=
  user <- User_findOne (fun u =>
            match User.stripeSubscriptionId u with
            | Some s => (s =? ev_id subscription)%string
            | None => false
            end) ;;
  match user with
  | Some user =>
      User_update user
        (User.mkChanges None None (Some "inactive") (Some false)
           None None None None) ;;
      ret tt
  | None => ret tt
  end.

Definition handlePaymentFailed (invoice : StripeEvent) : M unit :=
  user <- User_findOne (fun u =>
            match User.stripeCustomerId u with
            | Some c => (c =? ev_customer invoice)%string
            | None => false
            end) ;;
  match user with
  | Some user =>
      User_update user
        (User.mkChanges None None (Some "past_due") None None None None None) ;;
      ret tt
  | None => ret tt
  end.

(** The [switch (event.type)] of [handleWebhook]. *)
Definition dispatch (event : StripeEvent) : M unit :=
  if ((ev_type event =? "customer.subscription.created")
      || (ev_type event =? "customer.subscription.updated"))%string
  then updateSubscriptionStatus event
  else if (ev_type event =? "customer.subscription.deleted")%string
  then handleSubscriptionDeleted event
  else if (ev_type event =? "invoice.payment_failed")%string
  then handlePaymentFailed event
  else ret tt.

Definition handleWebhook (payload : string) (signature : option string)
  (t : Z) : M unit :=
  try_catch
    (event <-
       match stripe_webhooks_constructEvent env payload signature
               (STRIPE_WEBHOOK_SECRET (processEnv env)) t with
       | Some event => ret event
       | None =>
           throw (mkError "StripeSignatureVerificationError"
                          "No signatures found matching the expected signature")
       end ;;
     dispatch event)
    (fun error => console_error "Webhook error:" error ;; throw error).

(** ** src/middleware/auth.js *)

(** [a || b] on optional strings *)
Definition or_string (a b : option string) : option string :=
  match a with
  | Some s => if (s =? "")%string then b else Some s
  | None => b
  end.

(** [!x] on an optional string *)
Definition falsy (x : option string) : bool :=
  match x with
  | Some s => (s =? "")%string
  | None => true
  end.

(** [authenticate]: the bearer token of the header, else the cookie's, is
    verified and its user looked up by primary key ([User.findByPk]); the
    middleware only reads the world. *)
Definition authenticate (req : Request) (w : World) : Outcome User.t :=
  let token := or_string (split_space_1 (authorization req)) (cookie_token req) in
  match token with
  | None => Respond (res_status_json 401 (BError "Authentication required"))
  | Some tok =>
      if falsy token then
        Respond (res_status_json 401 (BError "Authentication required"))
      else
        match jwt_verify env tok (JWT_SECRET (processEnv env)) (now req) with
        | Decoded userId =>
            match find (fun u => (User.id u =? userId)%string) (users w) with
            | Some user => Next user
            | None => Respond (res_status_json 401 (BError "User not found"))
            end
        | TokenExpiredError =>
            Respond (res_status_json 401 (BError "Token expired"))
        | JsonWebTokenError =>
            Respond (res_status_json 401 (BError "Invalid token"))
        end
  end.

Definition requirePremium (user : User.t) : Outcome unit :=
  if negb (User.isPremium user) then
    Respond (res_status_json 403
      (BPremiumRequired "Premium subscription required" "/subscription/upgrade"))
  else Next tt.

Definition generateTokens (userId : string) (t : Z) : string * string :=
  (jwt_sign env userId (JWT_SECRET (processEnv env))
            (JWT_EXPIRES_IN (processEnv env)) t,
   jwt_sign env userId (JWT_REFRESH_SECRET (processEnv env))
            (JWT_REFRESH_EXPIRES_IN (processEnv env)) t).

(** ** src/middleware/rateLimit.js *)

Definition generalLimiter : LimiterOptions :=
  mkLimiterOptions (15 * 60 * 1000) (fun _ => 100%nat)
    "Too many requests, please try again later."
    (fun _ req => ip req).

Definition authLimiter : LimiterOptions :=
  mkLimiterOptions (15 * 60 * 1000) (fun _ => 5%nat)
    "Too many login attempts, please try again later."
    (fun _ req => ip req).

Definition analysisLimiter : LimiterOptions :=
  mkLimiterOptions (60 * 60 * 1000)
    (fun user =>
       match user with
       | Some u => if User.isPremium u then 50%nat else 5%nat
       | None => 5%nat
       end)
    "Analysis limit reached. Upgrade to Premium for more analyses."
    (fun user req =>
       match user with
       | Some u => if (User.id u =? "")%string then ip req else User.id u
       | None => ip req
       end).

(** ** src/middleware/gdpr.js *)

Definition requireGDPRConsent (user : User.t) : Outcome unit :=
  match User.gdprConsentDate user with
  | None =>
      Respond (res_status_json 403 (BConsentRequired "GDPR consent required"))
  | Some _ => Next tt
  end.

Definition logConsent (userId consentType : string) (consentGiven : value)
  (req : Request) : M unit :=
  try_catch
    (Consent_create userId consentType consentGiven (ip req) (user_agent req)
                    (now req) ;;
     ret tt)
    (fun error => console_error "Consent logging error:" error).

(** ** Express plumbing *)

(** [err.status || 500] *)
Definition status_or_500 (err : Error) : Z :=
  match err_status err with
  | Some code => if code =? 0 then 500 else code
  | None => 500
  end.

(** The error-handling middleware of src/app.js. *)
Definition errorHandler (err : Error) : M Response :=
  console_error "stack" err ;;
  ret (res_status_json (status_or_500 err)
         (BError
            (match NODE_ENV (processEnv env) with
             | Some mode =>
                 if (mode =? "production")%string
                 then "Internal server error" else message err
             | None => message err
             end))).

(** Run a route: an exception that escapes it reaches [errorHandler]. *)
Definition run (route : M Response) (w : World) : World * Response :=
  match route w with
  | (w', Ok r) => (w', r)
  | (w', Throw e) =>
      match errorHandler e w' with
      | (w'', Ok r) => (w'', r)
      | (w'', Throw e') => (w'', res_status_json 500 (BError (message e')))
      end
  end.

(** A route behind [authenticate]. *)
Definition authenticated (req : Request) (handler : User.t -> M Response)
  : M Response :=
  fun w =>
    match authenticate req w with
    | Next user => handler user w
    | Respond r => (w, Ok r)
    | NextError e => (w, Throw e)
    end.

(** express-validator chains: the fields that fail. *)
Definition check (field : string) (ok : bool) : list string :=
  if ok then [] else [field].

(** [.optional().isString()] *)
Definition optional_isString (v : value) : bool :=
  match v with
  | VUndefined | VStr _ => true
  | _ => false
  end.

(** [x || fallback] for a body field holding a string *)
Definition or_default (v : value) (fallback : string) : string :=
  match v with
  | VStr s => if (s =? "")%string then fallback else s
  | _ => fallback
  end.

Definition string_field (v : value) : option string :=
  match v with
  | VStr s => Some s
  | _ => None
  end.

(** ** src/routes/auth.js *)

Definition register_validators (req : Request) : list string :=
  check "email" (isEmail env (toString (body req "email")))
  ++ check "password" (8 <=? Z.of_nat (String.length (toString (body req "password"))))
  ++ check "gdprConsent" (toString (body req "gdprConsent") =? "true")%string
  ++ check "language" (optional_isString (body req "language"))
  ++ check "country" (optional_isString (body req "country")).

(** The handler of [POST /auth/register], after the validation chain
    (whose [normalizeEmail] has rewritten [req.body.email]). *)
Definition register_handler (req : Request) : M Response :=
  try_catch
    (let errors := register_validators req in
     if negb (length errors =? 0)%nat then
       ret (res_status_json 400 (BErrors errors))
     else
       let email := normalizeEmail env (toString (body req "email")) in
       let password := body req "password" in
       let gdprConsent := body req "gdprConsent" in
       existingUser <- User_findOne (fun u => (User.email u =? email)%string) ;;
       match existingUser with
       | Some _ => ret (res_status_json 400 (BError "Email already registered"))
       | None =>
           user <- User_create email password
                     (or_default (body req "language") "English")
                     (string_field (body req "country"))
                     (if truthy gdprConsent then Some (ValidDate (now req))
                      else None)
                     true (now req) ;;
           logConsent (User.id user) "gdpr" (VBool true) req ;;
           let tokens := generateTokens (User.id user) (now req) in
           ret (res_status_json 201
                  (BSession "Registration successful" (User.id user)
                     (User.email user) (User.isPremium user) None
                     (fst tokens) (snd tokens)))
       end)
    (fun error =>
       console_error "Registration error:" error ;;
       ret (res_status_json 500 (BError "Registration failed"))).

Definition login_validators (req : Request) : list string :=
  check "email" (isEmail env (toString (body req "email")))
  ++ check "password" (negb (toString (body req "password") =? "")%string).

(** [user.comparePassword(candidatePassword)] *)
Definition comparePassword (user : User.t) (candidatePassword : value)
  : M bool :=
  match candidatePassword with
  | VStr plain => ret (bcrypt_compare env plain (User.password user))
  | _ => throw (newError "data and hash must be strings")
  end.

(** The handler of [POST /auth/login]; the [token] cookie it also sets
    carries the access token of the body. *)
Definition login_handler (req : Request) : M Response :=
  try_catch
    (let errors := login_validators req in
     if negb (length errors =? 0)%nat then
       ret (res_status_json 400 (BErrors errors))
     else
       let email := normalizeEmail env (toString (body req "email")) in
       let password := body req "password" in
       found <- User_findOne (fun u => (User.email u =? email)%string) ;;
       match found with
       | None => ret (res_status_json 401 (BError "Invalid credentials"))
       | Some user =>
           matches <- comparePassword user password ;;
           if negb matches then
             ret (res_status_json 401 (BError "Invalid credentials"))
           else
             User_update user
               (User.mkChanges None None None None None None
                  (Some (ValidDate (now req))) None) ;;
             let tokens := generateTokens (User.id user) (now req) in
             ret (res_json
                    (BSession "Login successful" (User.id user)
                       (User.email user) (User.isPremium user)
                       (Some (User.language user)) (fst tokens) (snd tokens)))
       end)
    (fun error =>
       console_error "Login error:" error ;;
       ret (res_status_json 500 (BError "Login failed"))).

(** [POST /auth/refresh].  The module never imports [jwt], so the
    [jwt.verify] of the handler raises a ReferenceError, which its own
    [catch] answers. *)
Definition post_auth_refresh (req : Request) : M Response :=
  try_catch
    (if negb (truthy (body req "refreshToken")) then
       ret (res_status_json 401 (BError "Refresh token required"))
     else
       throw (mkError "ReferenceError" "jwt is not defined"))
    (fun _ => ret (res_status_json 401 (BError "Invalid refresh token"))).

Definition post_auth_logout (req : Request) : M Response :=
  authenticated req (fun _ => ret (res_json (BMessage "Logout successful"))).

Definition get_auth_me (req : Request) : M Response :=
  authenticated req (fun user =>
    ret (res_json (BMe (User.id user) (User.email user) (User.isPremium user)
                       (User.language user) (User.country user)))).

(** A route behind a rate limiter that runs before anything else. *)
Definition limited {Store} `{RateStore Store} (o : LimiterOptions)
  (route : M Response) (req : Request) (st : Store) (w : World)
  : Store * (World * Response) :=
  match rateLimit o st None req with
  | (st', Next _) => (st', run route w)
  | (st', Respond r) => (st', (w, r))
  | (st', NextError e) => (st', run (throw e) w)
  end.

Definition post_auth_register {Store} `{RateStore Store} (req : Request)
  : Store -> World -> Store * (World * Response) :=
  limited authLimiter (register_handler req) req.

Definition post_auth_login {Store} `{RateStore Store} (req : Request)
  : Store -> World -> Store * (World * Response) :=
  limited authLimiter (login_handler req) req.

(** ** src/routes/analysis.js *)

(** [limits.fileSize] of the multer configuration *)
Definition fileSize : Z := 10 * 1024 * 1024.

(** [fileFilter] of the multer configuration *)
Definition fileFilter (file : File) : option Error :=
  if startsWith (mimetype file) "image/" then None
  else Some (newError "Only image files are allowed").

(** [upload.single('image')]: the filter sees the part first; a part
    that reaches [fileSize] is refused (the parser raises its limit as soon
    as the bytes read equal it, so a file of exactly [fileSize] bytes is
    refused too); otherwise it becomes [req.file]. *)
Definition upload_single (req : Request) : Outcome (option File) :=
  match image req with
  | None => Next None
  | Some file =>
      match fileFilter file with
      | Some err => NextError err
      | None =>
          if fileSize <=? size file
          then NextError (mkError "MulterError" "File too large")
          else Next (Some file)
      end
  end.

Definition analysis_validators (req : Request) : list string :=
  check "questionnaire" (isJSON env (toString (body req "questionnaire")))
  ++ check "area" (optional_isString (body req "area"))
  ++ check "language" (optional_isString (body req "language")).

(** [error.message || fallback] *)
Definition message_or (e : Error) (fallback : string) : string :=
  if (message e =? "")%string then fallback else message e.

(** The retention window added to [Date.now()]:
    [parseInt(process.env.DATA_RETENTION_DAYS) * 24 * 60 * 60 * 1000] *)
Definition retention_ms : option Z :=
  option_map (fun days => days * 24 * 60 * 60 * 1000)
    (parseInt (interpolate (DATA_RETENTION_DAYS (processEnv env)))).

(** The handler of [POST /analysis], with [req.user] and [req.file]. *)
Definition create_analysis_handler (req : Request) (user : User.t)
  (file : option File) : M Response :=
  try_catch
    (let errors := analysis_validators req in
     if negb (length errors =? 0)%nat then
       ret (res_status_json 400 (BErrors errors))
     else
       match file with
       | None => ret (res_status_json 400 (BError "Image is required"))
       | Some file =>
           validateImage file ;;
           uploaded <- uploadImage (buffer file) (User.id user) ;;
           let '(url, publicId) := uploaded in
           questionnaire <-
             match JSON_parse env (toString (body req "questionnaire")) with
             | Some q => ret q
             | None => throw (mkError "SyntaxError" "Unexpected token in JSON")
             end ;;
           let area := or_default (body req "area") "unknown" in
           aiResult <-
             analyzeImage url questionnaire area (User.isPremium user)
                          (now req) ;;
           analysis <-
             Analysis_create (User.id user) url publicId area questionnaire
               aiResult (User.isPremium user)
               (newDate (option_map (Z.add (now req)) retention_ms))
               (created req) ;;
           ret (res_status_json 201
                  (BCreated (Analysis.id analysis) (Analysis.aiResult analysis)
                            (Analysis.createdAt analysis)))
       end)
    (fun error =>
       console_error "Analysis error:" error ;;
       ret (res_status_json 500 (BError (message_or error "Analysis failed")))).

(** [POST /analysis]: authenticate, requireGDPRConsent, analysisLimiter,
    upload.single('image'), the validation chain, the handler. *)
Definition post_analysis {Store} `{RateStore Store} (req : Request)
  (st : Store) (w : World) : Store * (World * Response) :=
  match authenticate req w with
  | Respond r => (st, (w, r))
  | NextError e => (st, run (throw e) w)
  | Next user =>
      match requireGDPRConsent user with
      | Respond r => (st, (w, r))
      | NextError e => (st, run (throw e) w)
      | Next _ =>
          match rateLimit analysisLimiter st (Some user) req with
          | (st', Respond r) => (st', (w, r))
          | (st', NextError e) => (st', run (throw e) w)
          | (st', Next _) =>
              match upload_single req with
              | Respond r => (st', (w, r))
              | NextError e => (st', run (throw e) w)
              | Next file => (st', run (create_analysis_handler req user file) w)
              end
          end
      end
  end.

(** Rows by [createdAt], latest first ([order: [['createdAt', 'DESC']]]). *)
Fixpoint insert_desc (a : Analysis.t) (l : list Analysis.t) : list Analysis.t :=
  match l with
  | [] => [a]
  | b :: r =>
      if Analysis.createdAt b <? Analysis.createdAt a then a :: l
      else b :: insert_desc a r
  end.

Definition order_createdAt_desc (l : list Analysis.t) : list Analysis.t :=
  fold_right insert_desc [] l.

Definition library_row (a : Analysis.t) : LibraryRow :=
  (Analysis.id a, Analysis.affectedArea a, Analysis.aiResult a,
   Analysis.createdAt a, Analysis.isPremiumAnalysis a).

Definition get_analyses (req : Request) : M Response :=
  authenticated req (fun user =>
    try_catch
      (let page := match query_page req with Some p => p | None => 1 end in
       let limit := match query_limit req with Some l => l | None => 10 end in
       let offset := (page - 1) * limit in
       if (limit <? 0) || (offset <? 0) then
         throw (databaseError "LIMIT and OFFSET must not be negative")
       else
         rows <- Analysis_findAll
                   (fun a => (Analysis.userId a =? User.id user)%string) ;;
         let count := Z.of_nat (length rows) in
         let window :=
           firstn (Z.to_nat limit)
                  (skipn (Z.to_nat offset) (order_createdAt_desc rows)) in
         ret (res_json
                (BLibrary (map library_row window) count page
                   (if limit =? 0 then None
                    else Some ((count + limit - 1) / limit)))))
      (fun error =>
         console_error "Get analyses error:" error ;;
         ret (res_status_json 500 (BError "Failed to fetch analyses")))).

Definition owned_by (id : string) (user : User.t) (a : Analysis.t) : bool :=
  ((Analysis.id a =? id) && (Analysis.userId a =? User.id user))%string.

(** [Analysis.findOne({ where: { id: req.params.id, userId: req.user.id } })]:
    [id] is a [UUID] column, so the database first reads [req.params.id] as
    a UUID, fails when it is none, and compares the column with the UUID it
    read. *)
Definition Analysis_findOne_owned (req : Request) (user : User.t)
  : M (option Analysis.t) :=
  match pg_uuid_in env (param_id req) with
  | None => throw (databaseError (invalid_input_syntax "uuid" (param_id req)))
  | Some id => Analysis_findOne (owned_by id user)
  end.

Definition get_analysis (req : Request) : M Response :=
  authenticated req (fun user =>
    try_catch
      (analysis <- Analysis_findOne_owned req user ;;
       match analysis with
       | None => ret (res_status_json 404 (BError "Analysis not found"))
       | Some analysis => ret (res_json (BAnalysis analysis))
       end)
      (fun error =>
         console_error "Get analysis error:" error ;;
         ret (res_status_json 500 (BError "Failed to fetch analysis")))).

Definition delete_analysis (req : Request) : M Response :=
  authenticated req (fun user =>
    try_catch
      (analysis <- Analysis_findOne_owned req user ;;
       match analysis with
       | None => ret (res_status_json 404 (BError "Analysis not found"))
       | Some analysis =>
           deleteImage (Analysis.imagePublicId analysis) ;;
           Analysis_destroy analysis ;;
           ret (res_json (BMessage "Analysis deleted successfully"))
       end)
      (fun error =>
         console_error "Delete analysis error:" error ;;
         ret (res_status_json 500 (BError "Failed to delete analysis")))).

(** ** src/routes/subscription.js *)

Definition post_subscription_create_checkout (req : Request) : M Response :=
  authenticated req (fun user =>
    try_catch
      (customerId <-
         (if falsy (User.stripeCustomerId user) then
            customerId <- createCustomer (User.email user) (User.id user) ;;
            User_update user
              (User.mkChanges (Some customerId) None None None None None
                 None None) ;;
            ret customerId
          else ret (User.or_else (User.stripeCustomerId user) "")) ;;
       session <- createCheckoutSession customerId
                    (STRIPE_PREMIUM_PRICE_ID (processEnv env)) (User.id user) ;;
       ret (res_json (BCheckout (fst session) (snd session))))
      (fun error =>
         console_error "Checkout error:" error ;;
         ret (res_status_json 500 (BError "Failed to create checkout session")))).

Definition get_subscription_status (req : Request) : M Response :=
  authenticated req (fun user =>
    ret (res_json (BSubscription (User.isPremium user)
                     (User.subscriptionStatus user)
                     (User.stripeCustomerId user)))).

Definition post_subscription_cancel (req : Request) : M Response :=
  authenticated req (fun user =>
    try_catch
      (if falsy (User.stripeSubscriptionId user) then
         ret (res_status_json 400 (BError "No active subscription"))
       else
         cancelSubscription (User.or_else (User.stripeSubscriptionId user) "") ;;
         ret (res_json (BMessage "Subscription canceled successfully")))
      (fun error =>
         console_error "Cancel subscription error:" error ;;
         ret (res_status_json 500 (BError "Failed to cancel subscription")))).

Definition post_subscription_webhook (req : Request) : M Response :=
  try_catch
    (handleWebhook (raw_body req) (stripe_signature req) (now req) ;;
     ret (res_json BReceived))
    (fun error =>
       console_error "Webhook error:" error ;;
       ret (res_status_json 400 (BError "Webhook processing failed"))).

(** ** src/routes/gdpr.js *)

Definition consent_types : list string :=
  ["marketing"; "data_retention"; "cookies"].

(** [req.user.update({ column: consentGiven })] on a nullable BOOLEAN *)
Definition update_consent_column (user : User.t) (consentGiven : value)
  (c : option bool -> User.changes) : M unit :=
  match boolean_column consentGiven with
  | LeftOut => ret tt
  | Written b => User_update user (c b) ;; ret tt
  | Refused =>
      throw (databaseError
               (invalid_input_syntax "boolean" (toString consentGiven)))
  end.

Definition post_gdpr_consent (req : Request) : M Response :=
  authenticated req (fun user =>
    try_catch
      (let consentType := body req "consentType" in
       let consentGiven := body req "consentGiven" in
       if negb (includes consent_types consentType) then
         ret (res_status_json 400 (BError "Invalid consent type"))
       else
         logConsent (User.id user) (toString consentType) consentGiven req ;;
         (if strict_eq_str consentType "marketing" then
            update_consent_column user consentGiven (fun b =>
              User.mkChanges None None None None (Some b) None None None)
          else if strict_eq_str consentType "data_retention" then
            update_consent_column user consentGiven (fun b =>
              User.mkChanges None None None None None (Some b) None None)
          else ret tt) ;;
         ret (res_json (BMessage "Consent updated successfully")))
      (fun error =>
         console_error "Consent update error:" error ;;
         ret (res_status_json 500 (BError "Failed to update consent")))).

(** Consent rows, latest first. *)
Fixpoint insert_consent_desc (a : Consent.t) (l : list Consent.t)
  : list Consent.t :=
  match l with
  | [] => [a]
  | b :: r =>
      if Consent.createdAt b <? Consent.createdAt a then a :: l
      else b :: insert_consent_desc a r
  end.

Definition get_gdpr_consents (req : Request) : M Response :=
  authenticated req (fun user =>
    try_catch
      (rows <- Consent_findAll
                 (fun c => (Consent.userId c =? User.id user)%string) ;;
       ret (res_json (BConsents (fold_right insert_consent_desc [] rows))))
      (fun _ => ret (res_status_json 500 (BError "Failed to fetch consents")))).

Definition exported_analysis (a : Analysis.t) : ExportedAnalysis :=
  (Analysis.id a, Analysis.imageUrl a, Analysis.imagePublicId a,
   Analysis.affectedArea a, Analysis.questionnaire a, Analysis.aiResult a,
   Analysis.isPremiumAnalysis a, Analysis.scheduledDeletion a,
   Analysis.createdAt a).

Definition exported_consent (c : Consent.t) : ExportedConsent :=
  (Consent.id c, Consent.consentType c, Consent.consentGiven c,
   Consent.ipAddress c, Consent.userAgent c, Consent.version c,
   Consent.createdAt c).

Definition post_gdpr_export (req : Request) : M Response :=
  authenticated req (fun user =>
    try_catch
      (analyses <- Analysis_findAll
                     (fun a => (Analysis.userId a =? User.id user)%string) ;;
       consents <- Consent_findAll
                     (fun c => (Consent.userId c =? User.id user)%string) ;;
       ret (res_json
              (BExport
                 (User.id user, User.email user, User.language user,
                  User.country user, User.age user, User.sex user,
                  User.isPremium user, User.createdAt user)
                 (map exported_analysis analyses)
                 (map exported_consent consents))))
      (fun error =>
         console_error "Data export error:" error ;;
         ret (res_status_json 500 (BError "Failed to export data")))).

(** The phrase [DELETE] between double quotes, as the error message of
    the deletion route spells it. *)
Definition quoted_DELETE : string :=
  String (ascii_of_nat 34) (String.append "DELETE" (String (ascii_of_nat 34) EmptyString)).

(** The handler of [POST /gdpr/delete-account], with [req.user]. *)
Definition delete_account_handler (req : Request) (user : User.t)
  : M Response :=
  try_catch
    (let confirmation := body req "confirmation" in
     if negb (strict_eq_str confirmation "DELETE") then
       ret (res_status_json 400
              (BError (String.append "Please confirm deletion by sending "
                                       quoted_DELETE)))
     else
       (if negb (falsy (User.stripeSubscriptionId user)) then
          cancelSubscription (User.or_else (User.stripeSubscriptionId user) "")
        else ret tt) ;;
       deleteUserImages (User.id user) ;;
       Analysis_destroy_where
         (fun a => (Analysis.userId a =? User.id user)%string) ;;
       Consent_destroy_where
         (fun c => (Consent.userId c =? User.id user)%string) ;;
       User_destroy user ;;
       ret (res_json
              (BMessage "Account and all associated data deleted successfully")))
    (fun error =>
       console_error "Account deletion error:" error ;;
       ret (res_status_json 500 (BError "Failed to delete account"))).

Definition post_gdpr_delete_account (req : Request) : M Response :=
  authenticated req (delete_account_handler req).

Definition schedule_deletion_handler (req : Request) (user : User.t)
  : M Response :=
  try_catch
    (let deletionDate := addDays (ValidDate (now req)) 30 in
     User_update user
       (User.mkChanges None None None None None None None
          (Some (Some deletionDate))) ;;
     ret (res_json (BScheduled "Account deletion scheduled" deletionDate)))
    (fun _ => ret (res_status_json 500 (BError "Failed to schedule deletion"))).

Definition post_gdpr_schedule_deletion (req : Request) : M Response :=
  authenticated req (schedule_deletion_handler req).

Definition cancel_deletion_handler (req : Request) (user : User.t)
  : M Response :=
  try_catch
    (User_update user
       (User.mkChanges None None None None None None None (Some None)) ;;
     ret (res_json (BMessage "Account deletion canceled")))
    (fun _ => ret (res_status_json 500 (BError "Failed to cancel deletion"))).

Definition post_gdpr_cancel_deletion (req : Request) : M Response :=
  authenticated req (cancel_deletion_handler req).

(** ** src/app.js *)

Definition get_health (req : Request) : M Response :=
  ret (res_json (BHealth (now req))).

Definition not_found : M Response :=
  ret (res_status_json 404 (BError "Route not found")).

(** The application behind [cors], its body parsers and the cookie
    parser: the general limiter, then the route (or the 404 handler,
    which is also where a request of method OPTIONS would end, did [cors]
    let one through). *)
Definition mounted {Store} `{RateStore Store} (route : Route) (req : Request)
  (s : Server Store) : Server Store * Response :=
  match rateLimit generalLimiter (generalStore s) None req with
  | (g, Respond r) => (mkServer (world s) g (authStore s) (analysisStore s), r)
  | (g, NextError e) =>
      let '(w, r) := run (throw e) (world s) in
      (mkServer w g (authStore s) (analysisStore s), r)
  | (g, Next _) =>
      let plain (m : M Response) :=
        let '(w, r) := run m (world s) in
        (mkServer w g (authStore s) (analysisStore s), r) in
      match route with
      | GET_health => plain (get_health req)
      | POST_auth_register =>
          let '(a, (w, r)) := post_auth_register req (authStore s) (world s) in
          (mkServer w g a (analysisStore s), r)
      | POST_auth_login =>
          let '(a, (w, r)) := post_auth_login req (authStore s) (world s) in
          (mkServer w g a (analysisStore s), r)
      | POST_auth_refresh => plain (post_auth_refresh req)
      | POST_auth_logout => plain (post_auth_logout req)
      | GET_auth_me => plain (get_auth_me req)
      | POST_analysis =>
          let '(a, (w, r)) := post_analysis req (analysisStore s) (world s) in
          (mkServer w g (authStore s) a, r)
      | GET_analysis => plain (get_analyses req)
      | GET_analysis_id => plain (get_analysis req)
      | DELETE_analysis_id => plain (delete_analysis req)
      | POST_subscription_create_checkout =>
          plain (post_subscription_create_checkout req)
      | GET_subscription_status => plain (get_subscription_status req)
      | POST_subscription_cancel => plain (post_subscription_cancel req)
      | POST_subscription_webhook => plain (post_subscription_webhook req)
      | POST_gdpr_consent => plain (post_gdpr_consent req)
      | GET_gdpr_consents => plain (get_gdpr_consents req)
      | POST_gdpr_export => plain (post_gdpr_export req)
      | POST_gdpr_delete_account => plain (post_gdpr_delete_account req)
      | POST_gdpr_schedule_deletion => plain (post_gdpr_schedule_deletion req)
      | POST_gdpr_cancel_deletion => plain (post_gdpr_cancel_deletion req)
      | OPTIONS_any | Unknown_route => plain not_found
      end
  end.

(** What [cors] answers to a request of method OPTIONS: 204, no body. *)
Definition no_content : Response := mkResponse 204 (BText EmptyString).

(** One request through the application. [cors] comes first and answers
    every request of method OPTIONS itself. The body parsers ([express.raw]
    on the webhook path, [express.json], [express.urlencoded]) are mounted
    before the general limiter: a request whose body they refuse goes
    straight to the error handler, uncounted. *)
Definition app {Store} `{RateStore Store} (route : Route) (req : Request)
  (s : Server Store) : Server Store * Response :=
  match route with
  | OPTIONS_any => (s, no_content)
  | _ =>
      match body_error req with
      | Some refused =>
          let '(w, r) := run (throw (body_parser_error refused)) (world s) in
          (mkServer w (generalStore s) (authStore s) (analysisStore s), r)
      | None => mounted route req s
      end
  end.

End Backend.

Arguments rateLimit {Store _} o st user req.
Arguments limited env {Store _} o route req st w.
Arguments post_auth_register env {Store _} req st w.
Arguments post_auth_login env {Store _} req st w.
Arguments post_analysis env {Store _} req st w.
Arguments mounted env {Store _} route req s.
Arguments app env {Store _} route req s.

(* ================================================================== *)
(** * The client's interceptors (frontend/src/services/api.js) *)
(* ================================================================== *)

(** The request interceptor: when local storage holds an access token,
    the [Authorization] header of the outgoing request is set to the token
    behind [Bearer]; otherwise the header is left as it is. *)
Definition request_interceptor (accessToken : option string)
  (authorization : option string) : option string :=
  match accessToken with
  | Some token =>
      if (token =? "")%string then authorization
      else Some (String.append "Bearer " token)
  | None => authorization
  end.

(** [response.data.accessToken] of an answer. *)
Definition access_token (r : Response) : option string :=
  match payload r with
  | BSession _ _ _ _ _ accessToken _ => Some accessToken
  | BTokens accessToken _ => Some accessToken
  | _ => None
  end.

(** The two keys of local storage the client uses, and the address the
    browser shows. *)
Record LocalStorage : Type := mkLocalStorage {
  accessToken : option string;
  refreshToken : option string
}.

Record Browser : Type := mkBrowser {
  localStorage : LocalStorage;
  location_href : string
}.

(** How a request of axios settles: fulfilled with a response, or
    rejected with [error.response] (absent when no answer came). *)
Inductive Settled : Type :=
| Fulfilled (response : Response)
| Rejected (response : option Response).

(** axios fulfils an answer whose status is 2xx and rejects the others
    (the default [validateStatus]). *)
Definition settle (r : Response) : Settled :=
  if (200 <=? status r) && (status r <? 300) then Fulfilled r
  else Rejected (Some r).

(** [localStorage.getItem(key)] as it goes into a JSON body. *)
Definition getItem (item : option string) : value :=
  match item with
  | Some s => VStr s
  | None => VNull
  end.

(** The rejection handler of the response interceptor, for an error
    whose [error.response] is [error_response], on a request whose
    [_retry] flag is [retried]. [post_refresh] is the [axios.post] to the
    refresh address with the body [{ refreshToken }]; [resend] is
    [api(originalRequest)] with the new [Authorization] header, whose
    outcome is returned as it settles. *)
Definition response_rejected (b : Browser) (error_response : option Response)
  (retried : bool) (post_refresh : value -> Settled)
  (resend : string -> Settled) : Browser * Settled :=
  match error_response with
  | Some answer =>
      if (status answer =? 401) && negb retried then
        match post_refresh (getItem (refreshToken (localStorage b))) with
        | Fulfilled response =>
            let token :=
              match access_token response with
              | Some a => a
              | None => "undefined"
              end in
            (mkBrowser
               (mkLocalStorage (Some token) (refreshToken (localStorage b)))
               (location_href b),
             resend (String.append "Bearer " token))
        | Rejected refreshError =>
            (mkBrowser (mkLocalStorage None None) "/login",
             Rejected refreshError)
        end
      else (b, Rejected error_response)
  | None => (b, Rejected None)
  end.

(* ================================================================== *)
(** * A concrete deployment, for running the model *)
(* ================================================================== *)

Module Demo.

(** The shipped .env.example, with stand-in secrets. *)
Definition processEnv : ProcessEnv :=
  mkProcessEnv (Some "production") (Some "jwt-secret") (Some "refresh-secret")
    (Some "15m") (Some "7d") (Some "ai-derma") (Some "whsec") (Some "price_1")
    (Some "365").

(** The canonical text of a UUID: groups of 8, 4, 4, 4 and 12
    hexadecimal digits between hyphens. *)
Definition is_hex (c : ascii) : bool :=
  let n := nat_of_ascii c in
  (((48 <=? n) && (n <=? 57)) || ((97 <=? n) && (n <=? 102))
   || ((65 <=? n) && (n <=? 70)))%nat.

Fixpoint hex_run (k : nat) (o : option string) : option string :=
  match k with
  | O => o
  | S k' =>
      match o with
      | Some (String c r) => if is_hex c then hex_run k' (Some r) else None
      | _ => None
      end
  end.

Definition hyphen (o : option string) : option string :=
  match o with
  | Some (String "-" r) => Some r
  | _ => None
  end.

Definition is_uuid (s : string) : bool :=
  match hex_run 12 (hyphen (hex_run 4 (hyphen (hex_run 4 (hyphen
          (hex_run 4 (hyphen (hex_run 8 (Some s))))))))) with
  | Some EmptyString => true
  | _ => false
  end.

(** The last [k] decimal digits of [z], most significant first. *)
Fixpoint decimal (k : nat) (z : Z) : string :=
  match k with
  | O => EmptyString
  | S k' =>
      String (ascii_of_nat (48 + Z.to_nat ((z / 10 ^ Z.of_nat k') mod 10)))
             (decimal k' z)
  end.

(** The [n]-th UUID the demo draws. *)
Definition uuid (n : nat) : string :=
  String.append "00000000-0000-4000-8000-" (decimal 12 (Z.of_nat n)).

Lemma is_hex_digit (z : Z) :
  is_hex (ascii_of_nat (48 + Z.to_nat (z mod 10))) = true.
Proof.
  assert (B : 0 <= z mod 10 < 10) by (apply Z.mod_pos_bound; lia).
  remember (Z.to_nat (z mod 10)) as m eqn:E.
  assert (Hm : (m < 10)%nat) by lia. clear E B.
  do 10 (destruct m as [|m]; [reflexivity|]). lia.
Qed.

Lemma hex_run_decimal (k : nat) (z : Z) :
  hex_run k (Some (decimal k z)) = Some EmptyString.
Proof.
  induction k as [|k IH]; [reflexivity|].
  cbn [decimal hex_run]. rewrite is_hex_digit. exact IH.
Qed.

Lemma uuid_well_formed (n : nat) : is_uuid (uuid n) = true.
Proof.
  unfold uuid. generalize (hex_run_decimal 12 (Z.of_nat n)).
  generalize (decimal 12 (Z.of_nat n)). intros d H.
  change (match hex_run 12 (Some d) with
          | Some EmptyString => true
          | _ => false
          end = true).
  now rewrite H.
Qed.

(** The UUID the demo database reads a text as: the text in lower case,
    when it has the canonical shape. *)
Definition lower (c : ascii) : ascii :=
  let n := nat_of_ascii c in
  if ((65 <=? n) && (n <=? 70))%nat then ascii_of_nat (n + 32) else c.

Fixpoint lowercase (s : string) : string :=
  match s with
  | EmptyString => EmptyString
  | String c r => String (lower c) (lowercase r)
  end.

Definition uuid_in (s : string) : option string :=
  if is_uuid s then Some (lowercase s) else None.

Lemma lower_digit (z : Z) :
  lower (ascii_of_nat (48 + Z.to_nat (z mod 10)))
  = ascii_of_nat (48 + Z.to_nat (z mod 10)).
Proof.
  assert (B : 0 <= z mod 10 < 10) by (apply Z.mod_pos_bound; lia).
  remember (Z.to_nat (z mod 10)) as m eqn:E.
  assert (Hm : (m < 10)%nat) by lia. clear E B.
  do 10 (destruct m as [|m]; [reflexivity|]). lia.
Qed.

Lemma lowercase_decimal (k : nat) (z : Z) :
  lowercase (decimal k z) = decimal k z.
Proof.
  induction k as [|k IH]; [reflexivity|].
  cbn [decimal lowercase]. now rewrite lower_digit, IH.
Qed.

Lemma uuid_in_uuid (n : nat) : uuid_in (uuid n) = Some (uuid n).
Proof.
  unfold uuid_in. rewrite uuid_well_formed. f_equal.
  unfold uuid. generalize (lowercase_decimal 12 (Z.of_nat n)).
  generalize (decimal 12 (Z.of_nat n)). intros d H.
  change (String.append "00000000-0000-4000-8000-" (lowercase d)
          = String.append "00000000-0000-4000-8000-" d).
  now rewrite H.
Qed.

(** The boolean input syntax the demo database reads. *)
Definition bool_in (s : string) : option bool :=
  if existsb (String.eqb s) ["t"; "true"; "y"; "yes"; "on"; "1"] then Some true
  else if existsb (String.eqb s) ["f"; "false"; "n"; "no"; "off"; "0"]
  then Some false
  else None.

(** Its timestamps start in 4713 BC. *)
Definition timestamptz_in (t : Z) : bool := -210866803200000 <=? t.

(** Tokens are the user id behind a fixed prefix. *)
Definition verify (token : string) : JwtVerify :=
  if String.prefix "jwt." token
  then Decoded (String.substring 4 (String.length token - 4) token)
  else JsonWebTokenError.

(** The events the demo webhook payloads decode to. *)
Definition constructEvent (payload : string) : option StripeEvent :=
  if (payload =? "payment_failed cus_1")%string then
    Some (mkStripeEvent "invoice.payment_failed" "in_1" "cus_1" "open")
  else if (payload =? "updated cus_1 active")%string then
    Some (mkStripeEvent "customer.subscription.updated" "sub_1" "cus_1" "active")
  else if (payload =? "updated cus_1 past_due")%string then
    Some (mkStripeEvent "customer.subscription.updated" "sub_1" "cus_1" "past_due")
  else if (payload =? "deleted sub_1")%string then
    Some (mkStripeEvent "customer.subscription.deleted" "sub_1" "cus_1" "canceled")
  else None.

Definition has_at (s : string) : bool :=
  match String.index 0 "@" s with Some _ => true | None => false end.

(** An environment whose Stripe cancellation and Cloudinary deletions
    succeed or fail as asked; everything else succeeds. *)
Definition env (stripe_ok cloudinary_ok : bool) : Env :=
  mkEnv processEnv uuid uuid_in uuid_in_uuid bool_in timestamptz_in
    (fun plain _ => String.append "$2b$12$" plain)
    (fun plain hash => (hash =? String.append "$2b$12$" plain)%string)
    (fun userId _ _ _ => String.append "jwt." userId)
    (fun token _ _ => verify token)
    has_at
    (fun s => s)
    (fun s => String.prefix "{" s)
    (fun s => Some s)
    (fun bytes => Some bytes)
    (fun folder _ =>
       Some (String.append "https://res.cloudinary.com/" folder,
             String.append folder "/img"))
    (fun _ => cloudinary_ok)
    (fun _ => cloudinary_ok)
    (fun _ => cloudinary_ok)
    (fun _ _ _ _ _ => Some "{}")
    (fun _ _ => Some "cus_new")
    (fun _ _ _ => Some ("cs_1", "https://checkout.stripe.com/cs_1"))
    (fun _ => stripe_ok)
    (fun payload _ _ _ => constructEvent payload).

Definition fields (l : list (string * value)) (field : string) : value :=
  match find (fun kv => (fst kv =? field)%string) l with
  | Some kv => snd kv
  | None => VUndefined
  end.

(** A request of user [userId] at instant [t] with a JSON body. *)
Definition request (userId : string) (t : Z) (l : list (string * value))
  : Request :=
  mkRequest t t None "203.0.113.7" (Some "demo-agent")
    (Some (String.append "Bearer jwt." userId)) None None
    (fields l) EmptyString None EmptyString None None.

Definition with_image (f : File) (r : Request) : Request :=
  mkRequest (now r) (created r) (body_error r) (ip r) (user_agent r) (authorization r)
    (cookie_token r)
    (stripe_signature r) (body r) (raw_body r) (Some f) (param_id r)
    (query_page r) (query_limit r).

Definition with_raw_body (payload : string) (r : Request) : Request :=
  mkRequest (now r) (created r) (body_error r) (ip r) (user_agent r) (authorization r)
    (cookie_token r)
    (Some "t=1,v1=sig") (body r) payload (image r) (param_id r)
    (query_page r) (query_limit r).

(** A premium subscriber with one analysis and one consent record. *)
Definition alice : User.t :=
  User.mk "a11ce000-0000-4000-8000-000000000001" "alice@example.com" "$2b$12$correct horse" true
    (Some "cus_1") (Some "sub_1") "active" "English" (Some "Lithuania")
    None None (Some (ValidDate 1700000000000)) (Some false) (Some true)
    None None 1700000000000.

(** A free account. *)
Definition bob : User.t :=
  User.mk "b0b00000-0000-4000-8000-000000000002" "bob@example.com" "$2b$12$battery staple" false
    None None "inactive" "English" None
    None None (Some (ValidDate 1700000001000)) (Some false) (Some true)
    None None 1700000001000.

Definition alice_analysis : Analysis.t :=
  Analysis.mk "aaaaaaaa-0000-4000-8000-000000000001" "a11ce000-0000-4000-8000-000000000001" "https://res.cloudinary.com/ai-derma/a11ce000-0000-4000-8000-000000000001"
    "ai-derma/a11ce000-0000-4000-8000-000000000001/img" "Face" "{}" "{}" true
    (Some (ValidDate (1700000002000 + 365 * msPerDay))) 1700000002000.

Definition alice_consent : Consent.t :=
  Consent.mk "cccccccc-0000-4000-8000-000000000001" "a11ce000-0000-4000-8000-000000000001" "gdpr" true "203.0.113.7" (Some "demo-agent")
    "1.0" 1700000000000.

Definition world : World :=
  mkWorld [alice; bob] [alice_analysis] [alice_consent] [] [] 10.

Definition server : Server MemoryStore := mkServer world [] [] [].

(** Alice asks for deletion with the phrase in the wrong case. *)
Definition wrong_phrase : Request :=
  request "a11ce000-0000-4000-8000-000000000001" 1700000100000 [("confirmation", VStr "delete")].

(** Alice schedules her deletion, and asks again a day later. *)
Definition schedule_first : Request := request "a11ce000-0000-4000-8000-000000000001" 1700000100000 [].
Definition schedule_second : Request := request "a11ce000-0000-4000-8000-000000000001" 1700086500000 [].

(** Bob submits a GIF with a well-formed questionnaire. *)
Definition gif : File := mkFile "image/gif" 1000 "GIF89a".
Definition gif_submission : Request :=
  with_image gif (request "b0b00000-0000-4000-8000-000000000002" 1700000100000 [("questionnaire", VStr "{}")]).

(** Bob submits a small PNG with a well-formed questionnaire. *)
Definition png : File := mkFile "image/png" 2048 "PNG".
Definition png_submission : Request :=
  with_image png (request "b0b00000-0000-4000-8000-000000000002" 1700000100000 [("questionnaire", VStr "{}")]).

(** Stripe deliveries about Alice's customer [cus_1]. *)
Definition payment_failed_delivery : Request :=
  with_raw_body "payment_failed cus_1" (request EmptyString 1700000200000 []).
Definition past_due_delivery : Request :=
  with_raw_body "updated cus_1 past_due" (request EmptyString 1700000200000 []).

(** The store after five submissions of Bob in the window that opened at
    1699998000000. *)
Definition bob_hits : MemoryStore :=
  [("b0b00000-0000-4000-8000-000000000002", mkClient 5 1700001600000)].

(** Carol registers, and then registers again. *)
Definition registration : Request :=
  mkRequest 1700000300000 1700000300000 None "198.51.100.4" (Some "demo-agent") None None None
    (fields [("email", VStr "carol@example.com");
             ("password", VStr "SecurePass123!");
             ("gdprConsent", VStr "true");
             ("language", VStr "English");
             ("country", VStr "Lithuania")])
    EmptyString None EmptyString None None.

(** Alice tries to record the essential consent again. *)
Definition essential_consent : Request :=
  request "a11ce000-0000-4000-8000-000000000001" 1700000100000
    [("consentType", VStr "gdpr"); ("consentGiven", VBool true)].

(** Alice asks for deletion with the right phrase. *)
Definition right_phrase : Request :=
  request "a11ce000-0000-4000-8000-000000000001" 1700000100000 [("confirmation", VStr "DELETE")].

(** A request that carries no token at all. *)
Definition anonymous : Request :=
  mkRequest 1700000400000 1700000400000 None "198.51.100.9" (Some "demo-agent") None None None
    (fields [("confirmation", VStr "DELETE")]) EmptyString (Some png)
    "aaaaaaaa-0000-4000-8000-000000000001" None None.

(** Carol's next request, carrying the token her registration returned. *)
Definition carol_session : Request := request (uuid 10) 1700000400000 [].

(** A login request, and a world in which Bob has no account. *)
Definition login (email password : string) (t : Z) : Request :=
  mkRequest t t None "198.51.100.4" (Some "demo-agent") None None None
    (fields [("email", VStr email); ("password", VStr password)])
    EmptyString None EmptyString None None.

Definition world_without_bob : World :=
  mkWorld [alice] [alice_analysis] [alice_consent] [] [] 10.

Definition with_param (id : string) (r : Request) : Request :=
  mkRequest (now r) (created r) (body_error r) (ip r) (user_agent r) (authorization r)
    (cookie_token r)
    (stripe_signature r) (body r) (raw_body r) (image r) id
    (query_page r) (query_limit r).

(** Alice and Bob each ask for Alice's analysis. *)
Definition alice_reads : Request :=
  with_param "aaaaaaaa-0000-4000-8000-000000000001" (request "a11ce000-0000-4000-8000-000000000001" 1700000100000 []).
Definition bob_reads : Request :=
  with_param "aaaaaaaa-0000-4000-8000-000000000001" (request "b0b00000-0000-4000-8000-000000000002" 1700000100000 []).

(** Alice opts into marketing. *)
Definition marketing_consent : Request :=
  request "a11ce000-0000-4000-8000-000000000001" 1700000100000
    [("consentType", VStr "marketing"); ("consentGiven", VBool true)].

(** Bob reads the analysis his submission created. *)
Definition bob_reads_new : Request :=
  with_param (uuid 10) (request "b0b00000-0000-4000-8000-000000000002" 1700000200000 []).

(** Bob asks for a checkout session, twice. *)
Definition bob_checkout : Request := request "b0b00000-0000-4000-8000-000000000002" 1700000100000 [].
Definition bob_checkout_again : Request := request "b0b00000-0000-4000-8000-000000000002" 1700000160000 [].


(** The same deployment while OpenAI is down. *)
Definition env_openai_down : Env :=
  mkEnv processEnv uuid uuid_in uuid_in_uuid bool_in timestamptz_in
    (bcrypt_hash (env true true)) (bcrypt_compare (env true true))
    (jwt_sign (env true true)) (jwt_verify (env true true))
    has_at (fun s => s) (isJSON (env true true)) (JSON_parse (env true true))
    (sharp (env true true)) (cloudinary_upload (env true true))
    (fun _ => true) (fun _ => true) (fun _ => true)
    (fun _ _ _ _ _ => None)
    (stripe_customers_create (env true true))
    (stripe_checkout_sessions_create (env true true))
    (fun _ => true)
    (stripe_webhooks_constructEvent (env true true)).

(** Bob's PNG submission served at another instant. *)
Definition png_submission_at (t : Z) : Request :=
  with_image png
    (request "b0b00000-0000-4000-8000-000000000002" t
       [("questionnaire", VStr "{}")]).

(** Minutes after the instant 1700000100000, in milliseconds since the
    epoch. *)
Definition minute (m : Z) : Z := 1700000100000 + m * 60000.

(** Bob's submissions within one window: the one that opens it and four
    more, ten minutes apart, with a look at his library in between. *)
Definition bob_opens : Request := png_submission_at (minute 0).
Definition bob_same_window : list (Route * Request) :=
  [(POST_analysis, png_submission_at (minute 10));
   (POST_analysis, png_submission_at (minute 20));
   (GET_analysis,
    request "b0b00000-0000-4000-8000-000000000002" (minute 25) []);
   (POST_analysis, png_submission_at (minute 30));
   (POST_analysis, png_submission_at (minute 40))].

(** Bob's submissions across the end of a window: four near the end of
    the window [bob_opens] opened, and one just after it. *)
Definition bob_recent : list (Route * Request) :=
  map (fun m => (POST_analysis, png_submission_at (minute m)))
      [56; 57; 58; 59; 61].

(** Bob's PNG submission when the clock ticks between the handler's
    reading and the ORM's. *)
Definition png_submission_stamped_late : Request :=
  mkRequest (now png_submission) (now png_submission + 1)
    (body_error png_submission) (ip png_submission)
    (user_agent png_submission) (authorization png_submission)
    (cookie_token png_submission) (stripe_signature png_submission)
    (body png_submission) (raw_body png_submission) (image png_submission)
    (param_id png_submission) (query_page png_submission)
    (query_limit png_submission).

End Demo.

(* ================================================================== *)
(** * Vocabulary of the properties *)
(* ================================================================== *)

(** A handler preserves a relation between worlds when every run of it
    relates the world it starts in to the world it ends in, whether it
    returns or throws. *)
Definition preserves {A} (R : World -> World -> Prop) (m : M A) : Prop :=
  forall w, R w (fst (m w)).

(** Every consent row of the later world is a row of the earlier one or
    satisfies [P]. *)
Definition consents_extended_by (P : Consent.t -> Prop) (w w' : World) : Prop :=
  forall c, In c (consents w') -> In c (consents w) \/ P c.

(** The row update [user.update(c)] performs on the table. *)
Definition updated (k : string) (c : User.changes) (r : User.t) : User.t :=
  if (User.id r =? k)%string then User.apply c r else r.

(** The changes the two scheduling routes write. *)
Definition schedule_changes (t : Z) : User.changes :=
  User.mkChanges None None None None None None None
    (Some (Some (addDays (ValidDate t) 30))).

Definition cancel_changes : User.changes :=
  User.mkChanges None None None None None None None (Some None).

(** The [accountDeletionScheduled] column of the account [k], when the
    account exists. *)
Definition deletion_scheduled (k : string) (w : World) : option (option Date) :=
  option_map User.accountDeletionScheduled
    (find (fun r => (User.id r =? k)%string) (users w)).

(** Whether the deletion route's Stripe cancellation is issued and fails,
    and whether one of its Cloudinary deletions fails. *)
Definition billing_cancellation_fails (env : Env) (user : User.t) : bool :=
  negb (falsy (User.stripeSubscriptionId user))
  && negb (stripe_subscriptions_cancel env
             (User.or_else (User.stripeSubscriptionId user) EmptyString)).

Definition blob_deletion_fails (env : Env) (user : User.t) : bool :=
  negb (cloudinary_delete_resources_by_prefix env (user_folder env (User.id user))
        && cloudinary_delete_folder env (user_folder env (User.id user))).

(** The rows of the three tables that do not belong to the account [k]. *)
Definition other_users (k : string) (l : list User.t) : list User.t :=
  filter (fun r => negb (User.id r =? k)%string) l.
Definition other_analyses (k : string) (l : list Analysis.t) : list Analysis.t :=
  filter (fun a => negb (Analysis.userId a =? k)%string) l.
Definition other_consents (k : string) (l : list Consent.t) : list Consent.t :=
  filter (fun c => negb (Consent.userId c =? k)%string) l.

(** An image whose media type is outside the allowed ones or whose size
    is above 10 MiB. *)
Definition image_rejected (f : File) : bool :=
  negb (existsb (String.eqb (mimetype f)) allowedTypes) || (maxSize <? size f).

(** What a find-then-update handler does to the users table: the first
    row matching [p] is looked up and, when the enum admits the new status,
    the rows with its primary key are updated. *)
Definition changes_allowed (c : User.changes) : bool :=
  match User.set_subscriptionStatus c with
  | Some s => existsb (String.eqb s) User.subscriptionStatus_enum
  | None => true
  end.

Definition sync (p : User.t -> bool) (c : User.changes) (l : list User.t)
  : list User.t :=
  match find p l with
  | Some u => if changes_allowed c then map (updated (User.id u) c) l else l
  | None => l
  end.

Definition has_customer (customer : string) (u : User.t) : bool :=
  match User.stripeCustomerId u with
  | Some c => (c =? customer)%string
  | None => false
  end.

Definition has_subscription (subscription : string) (u : User.t) : bool :=
  match User.stripeSubscriptionId u with
  | Some s => (s =? subscription)%string
  | None => false
  end.

Definition subscription_changes (ev : StripeEvent) : User.changes :=
  User.mkChanges None (Some (ev_id ev)) (Some (ev_status ev))
    (Some (ev_status ev =? "active")%string) None None None None.

Definition deleted_changes : User.changes :=
  User.mkChanges None None (Some "inactive") (Some false) None None None None.

Definition payment_failed_changes : User.changes :=
  User.mkChanges None None (Some "past_due") None None None None None.

(** The users table after [dispatch]. *)
Definition dispatch_users (ev : StripeEvent) (l : list User.t) : list User.t :=
  if ((ev_type ev =? "customer.subscription.created")
      || (ev_type ev =? "customer.subscription.updated"))%string
  then sync (has_customer (ev_customer ev)) (subscription_changes ev) l
  else if (ev_type ev =? "customer.subscription.deleted")%string
  then sync (has_subscription (ev_id ev)) deleted_changes l
  else if (ev_type ev =? "invoice.payment_failed")%string
  then sync (has_customer (ev_customer ev)) payment_failed_changes l
  else l.

(** The invariant of the Account: premium exactly when the subscription
    status is [active]. *)
Definition premium_iff_active (u : User.t) : Prop :=
  User.isPremium u = (User.subscriptionStatus u =? "active")%string.

(** The hourly quota of an account's tier. *)
Definition quota (user : User.t) : nat :=
  if User.isPremium user then 50%nat else 5%nat.

(** The analyses of the later world are analyses of the earlier one,
    unchanged and in the same order: rows may only have been deleted. *)
Definition analyses_only_deleted (w w' : World) : Prop :=
  exists keep, analyses w' = filter keep (analyses w).

(** The row [POST /auth/register] inserts for a request whose password is
    the string [plain], in a world that has drawn [n] UUIDs: the password
    column holds the bcrypt hash. *)
Definition registered_user (env : Env) (req : Request) (plain : string)
  (n : nat) : User.t :=
  User.mk (uuidv4 env n)
    (normalizeEmail env (toString (body req "email")))
    (bcrypt_hash env plain 12) false None None "inactive"
    (or_default (body req "language") "English")
    (string_field (body req "country")) None None
    (if truthy (body req "gdprConsent") then Some (ValidDate (now req))
     else None)
    (Some false) (Some true) None None (now req).

(** The answer to a successful registration: identifier, email, premium
    flag and the two tokens signed over the identifier. *)
Definition registered_response (env : Env) (req : Request) (n : nat)
  : Response :=
  res_status_json 201
    (BSession "Registration successful" (uuidv4 env n)
       (normalizeEmail env (toString (body req "email"))) false None
       (fst (generateTokens env (uuidv4 env n) (now req)))
       (snd (generateTokens env (uuidv4 env n) (now req)))).

(** The changes a client route writes to an account: none of the billing
    columns (premium flag, subscription status, subscription reference). *)
Definition client_changes (c : User.changes) : Prop :=
  User.set_isPremium c = None
  /\ User.set_subscriptionStatus c = None
  /\ User.set_stripeSubscriptionId c = None.

(** Every account of the later world carries the projection [proj] of an
    account of the earlier one, or a projection that satisfies [P] (a new
    account). *)
Definition users_extended {A} (proj : User.t -> A) (P : A -> Prop)
  (w w' : World) : Prop :=
  forall u', In u' (users w') ->
    (exists u, In u (users w) /\ proj u = proj u') \/ P (proj u').

(** Identifier, email and password column of an account. *)
Definition credentials (u : User.t) : string * string * string :=
  (User.id u, User.email u, User.password u).

(** The billing columns of an account: identifier, premium flag,
    subscription status and subscription reference. *)
Definition billing (u : User.t) : string * bool * string * option string :=
  (User.id u, User.isPremium u, User.subscriptionStatus u,
   User.stripeSubscriptionId u).

(** The billing columns of a new account. *)
Definition unsubscribed (b : string * bool * string * option string) : Prop :=
  let '(_, premium, status, subscription) := b in
  premium = false /\ status = "inactive" /\ subscription = None.

(** A password column written by registration: the bcrypt hash, cost 12,
    of a password of at least eight characters. *)
Definition hashed (env : Env) (c : string * string * string) : Prop :=
  exists plain,
    8 <= Z.of_nat (String.length plain)
    /\ snd c = bcrypt_hash env plain 12.

(** Every account has recorded the essential consent; no two accounts
    share an email. *)
Definition accounts_consented (w : World) : Prop :=
  Forall (fun u => User.gdprConsentDate u <> None) (users w).

Definition emails_unique (w : World) : Prop :=
  NoDup (map User.email (users w)).

(** The later world satisfies [I] when the earlier one does. *)
Definition keeps (I : World -> Prop) (w w' : World) : Prop := I w -> I w'.

(** The routes behind [authenticate] that run no other middleware. *)
Definition protected_routes (env : Env) (req : Request) : list (M Response) :=
  [post_auth_logout env req; get_auth_me env req; get_analyses env req;
   get_analysis env req; delete_analysis env req;
   post_subscription_create_checkout env req; get_subscription_status env req;
   post_subscription_cancel env req; post_gdpr_consent env req;
   get_gdpr_consents env req; post_gdpr_export env req;
   post_gdpr_delete_account env req; post_gdpr_schedule_deletion env req;
   post_gdpr_cancel_deletion env req].

(** A string without a space: what a signed token is. *)
Definition no_space (s : string) : Prop :=
  ~ In " "%char (list_ascii_of_string s).

(** What [authenticate] does with a token once it has one. *)
Definition verify_token (env : Env) (tok : string) (t : Z) (w : World)
  : Outcome User.t :=
  match jwt_verify env tok (JWT_SECRET (processEnv env)) t with
  | Decoded userId =>
      match find (fun u => (User.id u =? userId)%string) (users w) with
      | Some user => Next user
      | None => Respond (res_status_json 401 (BError "User not found"))
      end
  | TokenExpiredError => Respond (res_status_json 401 (BError "Token expired"))
  | JsonWebTokenError => Respond (res_status_json 401 (BError "Invalid token"))
  end.

(** The change a login writes, and the answer to a successful login of
    the account [user] at the instant [t]. *)
Definition login_changes (t : Z) : User.changes :=
  User.mkChanges None None None None None None (Some (ValidDate t)) None.

Definition login_response (env : Env) (user : User.t) (t : Z) : Response :=
  res_json
    (BSession "Login successful" (User.id user) (User.email user)
       (User.isPremium user) (Some (User.language user))
       (fst (generateTokens env (User.id user) t))
       (snd (generateTokens env (User.id user) t))).

Definition invalid_credentials : Response :=
  res_status_json 401 (BError "Invalid credentials").

(** The account a login request names, and whether bcrypt accepts the
    submitted password for a stored hash. *)
Definition named_account (env : Env) (req : Request) (w : World)
  : option User.t :=
  find (fun u => (User.email u
                  =? normalizeEmail env (toString (body req "email")))%string)
       (users w).

Definition password_accepted (env : Env) (req : Request) (user : User.t)
  : Prop :=
  exists plain,
    body req "password" = VStr plain
    /\ bcrypt_compare env plain (User.password user) = true.

(** The three tables of two worlds agree. *)
Definition same_tables (w w' : World) : Prop :=
  users w' = users w /\ analyses w' = analyses w /\ consents w' = consents w.

(** The world with [l] appended to the console: what a route that only
    logged has left. *)
Definition logged (l : list (string * string)) (w : World) : World :=
  mkWorld (users w) (analyses w) (consents w) (calls w) (log w ++ l) (uuids w).

(** The event a webhook request verifies to, if any. *)
Definition verified_event (env : Env) (req : Request) : option StripeEvent :=
  stripe_webhooks_constructEvent env (raw_body req) (stripe_signature req)
    (STRIPE_WEBHOOK_SECRET (processEnv env)) (now req).

Definition webhook_rejected : Response :=
  res_status_json 400 (BError "Webhook processing failed").

(** The hourly quota [analysisLimiter] grants an account. *)
Definition hourly_quota (user : User.t) : nat :=
  max analysisLimiter (Some user).

(** The row [POST /gdpr/consent] appends for the account [user], and the
    account column it writes for the consent type [ty] (none for
    [cookies]). *)
Definition consent_row (env : Env) (req : Request) (user : User.t)
  (ty : string) (given : bool) (n : nat) : Consent.t :=
  Consent.mk (uuidv4 env n) (User.id user) ty given (ip req) (user_agent req)
    "1.0" (now req).

Definition consent_changes (ty : string) (given : bool) : option User.changes :=
  if (ty =? "marketing")%string then
    Some (User.mkChanges None None None None (Some (Some given)) None None None)
  else if (ty =? "data_retention")%string then
    Some (User.mkChanges None None None None None (Some (Some given)) None None)
  else None.

(** The change that stores a new Stripe customer reference. *)
Definition customer_changes (customerId : string) : User.changes :=
  User.mkChanges (Some customerId) None None None None None None None.

(** The answer of a limiter that has counted its quota. *)
Definition too_many (o : LimiterOptions) : Response :=
  mkResponse 429 (BText (limit_message o)).

(** What a submission hands to the AI step: the parsed questionnaire and
    the area. *)
Definition submitted_area (req : Request) : string :=
  or_default (body req "area") "unknown".

(** The refresh request as the backend receives it from an address at
    an instant: a JSON body with the refresh token, no [Authorization]
    header and no cookie. *)
Definition refresh_request (t : Z) (address : string) (agent : option string)
  (token : value) : Request :=
  mkRequest t t None address agent None None None
    (fun field => if (field =? "refreshToken")%string then token else VUndefined)
    EmptyString None EmptyString None None.

(** The browser after the client has given the session up. *)
Definition signed_out : Browser :=
  mkBrowser (mkLocalStorage None None) "/login".

(** The message the application's error handler sends for an error: the
    error's own outside production, a fixed one in production. *)
Definition shown_message (env : Env) (e : Error) : string :=
  match NODE_ENV (processEnv env) with
  | Some mode =>
      if (mode =? "production")%string then "Internal server error"
      else message e
  | None => message e
  end.

(** The two errors of the upload middleware and the validator's refusal
    of a type. *)
Definition not_an_image : Error := newError "Only image files are allowed".
Definition file_too_large : Error := mkError "MulterError" "File too large".
Definition invalid_file_type : string :=
  "Invalid file type. Only JPG and PNG are allowed.".

(** Whether a request gets as far as the analysis limiter and is counted
    there under [key], the server being in state [s]: it is a submission
    whose body the parsers accept, the general limiter lets it through, it
    is authenticated, its account has accepted the data processing, and
    the limiter's key for it is [key]. *)
Definition counted_under (env : Env) (key : string) (s : Server MemoryStore)
  (route : Route) (req : Request) : bool :=
  match route, body_error req,
        snd (rateLimit generalLimiter (generalStore s) None req) with
  | POST_analysis, None, Next _ =>
      match authenticate env req (world s) with
      | Next user =>
          match requireGDPRConsent user with
          | Next _ =>
              (keyGenerator analysisLimiter (Some user) req =? key)%string
          | _ => false
          end
      | _ => false
      end
  | _, _, _ => false
  end.

(** The server after one request, and after a list of requests served
    one after the other. *)
Definition serve (env : Env) (s : Server MemoryStore) (x : Route * Request)
  : Server MemoryStore :=
  fst (app env (fst x) (snd x) s).

Definition served (env : Env) (xs : list (Route * Request))
  (s : Server MemoryStore) : Server MemoryStore :=
  fold_left (serve env) xs s.

(** How many of the requests [xs], served one after the other from [s],
    the analysis limiter counts under [key]. *)
Fixpoint counted (env : Env) (key : string) (xs : list (Route * Request))
  (s : Server MemoryStore) : nat :=
  match xs with
  | [] => 0%nat
  | x :: rest =>
      ((if counted_under env key s (fst x) (snd x) then 1 else 0)
       + counted env key rest (serve env s x))%nat
  end.

(* ================================================================== *)
(** * Properties *)
(* ================================================================== *)

(** ** Running the embedding *)

Example parseInt_365 : parseInt "365" = Some 365.
Proof. reflexivity. Qed.

Example parseInt_unset : parseInt (interpolate None) = None.
Proof. reflexivity. Qed.

Example parseInt_prefix : parseInt "  30days" = Some 30.
Proof. reflexivity. Qed.

Example split_bearer : split_space_1 (Some "Bearer abc.def") = Some "abc.def".
Proof. reflexivity. Qed.

(** ** The application in front of its routes *)

Lemma options_or_routed (route : Route) :
  route = OPTIONS_any \/ route <> OPTIONS_any.
Proof. destruct route; (now left) || (right; discriminate). Qed.

(** A request of another method than OPTIONS goes on to the body parsers
    and, when they accept its body, to the limiter and the routes. *)
Lemma app_routed env {Store : Type} {store : RateStore Store} (route : Route)
  (req : Request) (s : Server Store) :
  route <> OPTIONS_any ->
  app env route req s
  = match body_error req with
    | Some refused =>
        let '(w, r) := run env (throw (body_parser_error refused)) (world s) in
        (mkServer w (generalStore s) (authStore s) (analysisStore s), r)
    | None => mounted env route req s
    end.
Proof. intros N. destruct route; try reflexivity. now destruct N. Qed.

(** ** Authentication *)

Section Authentication.

Variable env : Env.

Lemma authenticate_no_error req w e : authenticate env req w <> NextError e.
Proof.
  unfold authenticate.
  destruct (or_string _ _) as [tok|]; [|discriminate].
  destruct (falsy _); [discriminate|].
  destruct (jwt_verify _ _ _ _); try discriminate.
  destruct (find _ _); discriminate.
Qed.

(** The user [authenticate] attaches to the request is the first row with
    its own primary key. *)
Lemma authenticate_row req w user :
  authenticate env req w = Next user ->
  find (fun u => (User.id u =? User.id user)%string) (users w) = Some user.
Proof.
  unfold authenticate.
  destruct (or_string _ _) as [tok|]; [|discriminate].
  destruct (falsy _); [discriminate|].
  destruct (jwt_verify _ _ _ _) as [uid| |]; try discriminate.
  destruct (find _ _) as [u|] eqn:F; [|discriminate].
  intros E. injection E as ->.
  pose proof (find_some _ _ F) as [_ Hid].
  apply String.eqb_eq in Hid. subst uid. exact F.
Qed.

Lemma authenticated_next req w user (handler : User.t -> M Response) :
  authenticate env req w = Next user ->
  authenticated env req handler w = handler user w.
Proof. unfold authenticated. intros ->. reflexivity. Qed.

End Authentication.

(** ** Frame reasoning over handlers

    Walking down a handler along its binds, catches and branches. *)

Section Frames.

Variable env : Env.
Variable R : World -> World -> Prop.
Hypothesis R_refl : forall w, R w w.
Hypothesis R_trans : forall a b c, R a b -> R b c -> R a c.
(** [R] does not look at the call trace, the console or the UUID counter. *)
Hypothesis R_bookkeeping :
  forall w c l n, R w (mkWorld (users w) (analyses w) (consents w) c l n).

Lemma preserves_ret {A} (a : A) : preserves R (ret a).
Proof. intros w. apply R_refl. Qed.

Lemma preserves_throw {A} (e : Error) : preserves R (@throw A e).
Proof. intros w. apply R_refl. Qed.

Lemma preserves_get : preserves R get.
Proof. intros w. apply R_refl. Qed.

Lemma preserves_bind {A B} (m : M A) (k : A -> M B) :
  preserves R m -> (forall a, preserves R (k a)) -> preserves R (bind m k).
Proof.
  intros Hm Hk w. unfold bind. specialize (Hm w).
  destruct (m w) as [w' [a|e]]; cbn in *; [|exact Hm].
  eapply R_trans; [exact Hm|apply Hk].
Qed.

Lemma preserves_try_catch {A} (m : M A) (h : Error -> M A) :
  preserves R m -> (forall e, preserves R (h e)) -> preserves R (try_catch m h).
Proof.
  intros Hm Hh w. unfold try_catch. specialize (Hm w).
  destruct (m w) as [w' [a|e]]; cbn in *; [exact Hm|].
  eapply R_trans; [exact Hm|apply Hh].
Qed.

Lemma preserves_console_error label e : preserves R (console_error label e).
Proof. intros w. apply R_bookkeeping. Qed.

Lemma preserves_issue c : preserves R (issue c).
Proof. intros w. apply R_bookkeeping. Qed.

Lemma preserves_fresh_uuid f : preserves R (fresh_uuid f).
Proof. intros w. apply R_bookkeeping. Qed.

Lemma preserves_external {A} c (o : option A) e : preserves R (external c o e).
Proof.
  unfold external. apply preserves_bind; [apply preserves_issue|].
  intros _. destruct o; [apply preserves_ret|apply preserves_throw].
Qed.

Lemma preserves_authenticated req (h : User.t -> M Response) :
  (forall user, preserves R (h user)) -> preserves R (authenticated env req h).
Proof.
  intros Hh w. unfold authenticated.
  destruct (authenticate env req w); cbn; [apply Hh|apply R_refl|apply R_refl].
Qed.

Lemma preserves_errorHandler e : preserves R (errorHandler env e).
Proof.
  unfold errorHandler. apply preserves_bind; [apply preserves_console_error|].
  intros _. apply preserves_ret.
Qed.

(** A route that preserves [R] still does once its escaping exceptions
    are answered by the error handler. *)
Lemma preserves_run (m : M Response) :
  preserves R m -> forall w, R w (fst (run env m w)).
Proof.
  intros Hm w. unfold run. specialize (Hm w).
  destruct (m w) as [w' [r|e]]; cbn in *; [exact Hm|].
  pose proof (preserves_errorHandler e w') as He.
  destruct (errorHandler env e w') as [w'' [r|e']]; cbn in *;
    eapply R_trans; eauto.
Qed.

Lemma preserves_limited {Store} `{RateStore Store} o (m : M Response) req
  (st : Store) :
  preserves R m -> forall w, R w (fst (snd (limited env o m req st w))).
Proof.
  intros Hm w. unfold limited.
  destruct (rateLimit o st None req) as [st' [u|r|e]]; cbn [fst snd].
  - apply preserves_run, Hm.
  - apply R_refl.
  - apply preserves_run, preserves_throw.
Qed.

End Frames.

(** Walk down a handler: binds, catches and branches. *)
Ltac frame_step :=
  match goal with
  | |- preserves _ (bind _ _) => apply preserves_bind; [assumption..| |intros]
  | |- preserves _ (try_catch _ _) =>
      apply preserves_try_catch; [assumption..| |intros]
  | |- preserves _ (ret _) => apply preserves_ret; assumption
  | |- preserves _ (throw _) => apply preserves_throw; assumption
  | |- preserves _ get => apply preserves_get; assumption
  | |- preserves _ (console_error _ _) => apply preserves_console_error; assumption
  | |- preserves _ (external _ _ _) => apply preserves_external; assumption
  | |- preserves _ (fresh_uuid _) => apply preserves_fresh_uuid; assumption
  | |- preserves _ (match ?x with _ => _ end) => destruct x
  | |- preserves _ (let '(_, _) := ?x in _) => destruct x
  end.

Ltac frame := repeat frame_step.

(** ** Immediate account deletion *)

(** C4. A deletion request whose confirmation phrase is not exactly
    [DELETE] changes nothing: the tables, the trace of third-party calls
    and the console are as before, and an authenticated request is answered
    400 with the mismatch message. *)
Theorem delete_account_mismatch_intact env req w :
  strict_eq_str (body req "confirmation") "DELETE" = false ->
  fst (run env (post_gdpr_delete_account env req) w) = w
  /\ forall user,
       authenticate env req w = Next user ->
       snd (run env (post_gdpr_delete_account env req) w)
       = res_status_json 400
           (BError (String.append "Please confirm deletion by sending "
                                  quoted_DELETE)).
Proof.
  intros Hne. unfold post_gdpr_delete_account, run.
  destruct (authenticate env req w) as [u|r|e] eqn:A.
  - rewrite (authenticated_next env _ _ _ _ A).
    unfold delete_account_handler, try_catch. rewrite Hne. cbn.
    split; [reflexivity|]. intros user E. reflexivity.
  - unfold authenticated. rewrite A. cbn. split; [reflexivity|].
    intros user E. discriminate.
  - destruct (authenticate_no_error _ _ _ _ A).
Qed.

Lemma delete_account_mismatch_intact_witness :
  strict_eq_str (body Demo.wrong_phrase "confirmation") "DELETE" = false
  /\ fst (run (Demo.env true true)
             (post_gdpr_delete_account (Demo.env true true) Demo.wrong_phrase)
             Demo.world)
     = Demo.world.
Proof.
  split; [reflexivity|].
  exact (proj1 (delete_account_mismatch_intact (Demo.env true true)
                  Demo.wrong_phrase Demo.world eq_refl)).
Defined.

(** ** The consent endpoint *)

Section ConsentRows.

Variable env : Env.
Variable P : Consent.t -> Prop.

Let R := consents_extended_by P.

Lemma consents_extended_refl w : R w w.
Proof. intros c Hc. now left. Qed.

Lemma consents_extended_trans a b c : R a b -> R b c -> R a c.
Proof.
  intros Hab Hbc x Hx. destruct (Hbc x Hx) as [Hb|Hp]; [|now right].
  apply Hab, Hb.
Qed.

Lemma consents_extended_bookkeeping w c l n :
  R w (mkWorld (users w) (analyses w) (consents w) c l n).
Proof. intros x Hx. now left. Qed.

Lemma User_update_keeps_consents user c : preserves R (User_update user c).
Proof.
  intros w. unfold User_update.
  destruct (match User.set_subscriptionStatus c with
            | Some s => _ | None => _ end);
    cbn; intros x Hx; now left.
Qed.

Lemma Consent_create_extends userId consentType consentGiven ipAddress
  userAgent t :
  (forall id given,
     P (Consent.mk id userId consentType given ipAddress userAgent "1.0" t)) ->
  preserves R (Consent_create env userId consentType consentGiven ipAddress
                              userAgent t).
Proof.
  intros HP w. unfold Consent_create.
  assert (Hins : R w (fst ((if negb (existsb (String.eqb consentType)
                                      Consent.consentType_enum) then
                              throw (databaseError
                                       "invalid input value for enum consentType")
                            else
                              match boolean_sanitize env consentGiven with
                              | Some given =>
                                  id <- fresh_uuid (uuidv4 env) ;;
                                  let consent :=
                                    Consent.mk id userId consentType given
                                               ipAddress userAgent "1.0" t in
                                  modify (with_consents (fun l => l ++ [consent])) ;;
                                  ret consent
                              | None =>
                                  throw (databaseError
                                           (invalid_input_syntax "boolean"
                                              (toString consentGiven)))
                              end) w))).
  { destruct (negb _); [apply consents_extended_refl|].
    destruct (boolean_sanitize env consentGiven) as [given|];
      [|apply consents_extended_refl].
    cbn. intros c Hc. apply in_app_or in Hc. destruct Hc as [Hc | [ <- | [] ] ].
    - now left.
    - right. apply HP. }
  destruct consentGiven; try exact Hins; apply consents_extended_refl.
Qed.

End ConsentRows.

Lemma includes_consent_types v :
  includes consent_types v = true <->
  v = VStr "marketing" \/ v = VStr "data_retention" \/ v = VStr "cookies".
Proof.
  split.
  - destruct v; cbn; try discriminate. intros H.
    repeat (apply orb_true_iff in H; destruct H as [H|H]);
      try discriminate; apply String.eqb_eq in H; subst; auto.
  - intros [ -> | [ -> | -> ] ]; reflexivity.
Qed.

Lemma consent_route_rows env req :
  preserves
    (consents_extended_by (fun c => In (Consent.consentType c) consent_types))
    (post_gdpr_consent env req).
Proof.
  set (P := fun c => In (Consent.consentType c) consent_types).
  pose proof (consents_extended_refl P) as Hrefl.
  pose proof (consents_extended_trans P) as Htrans.
  pose proof (consents_extended_bookkeeping P) as Hbook.
  unfold post_gdpr_consent.
  apply preserves_authenticated; [assumption..|]. intros user.
  apply preserves_try_catch; [assumption..| |intros; frame].
  destruct (includes consent_types (body req "consentType")) eqn:I;
    cbn [negb]; [|frame].
  assert (Hin : In (toString (body req "consentType")) consent_types).
  { apply includes_consent_types in I. destruct I as [ -> | [ -> | -> ] ]; cbn; auto. }
  apply preserves_bind; [assumption..| |intros].
  - unfold logConsent. apply preserves_try_catch; [assumption..| |intros; frame].
    apply preserves_bind; [assumption..| |intros; frame].
    apply Consent_create_extends. intros id given. exact Hin.
  - apply preserves_bind; [assumption..| |intros; frame].
    unfold update_consent_column.
    repeat match goal with
           | |- preserves _ (if ?b then _ else _) => destruct b
           | |- preserves _ (match ?x with _ => _ end) => destruct x
           end; frame; apply User_update_keeps_consents.
Qed.

(** C10. The consent endpoint accepts exactly the categories marketing,
    data_retention and cookies: an authenticated request naming any other
    category, the essential one [gdpr] included, is answered 400
    [Invalid consent type] and changes nothing, and whatever the request,
    every consent row the endpoint adds carries one of the three accepted
    categories, never [gdpr]. *)
Theorem consent_endpoint_rejects_essential (env : Env) (req : Request)
  (w : World) :
  includes consent_types (VStr "gdpr") = false
  /\ (forall v,
        includes consent_types v = true <->
        v = VStr "marketing" \/ v = VStr "data_retention" \/ v = VStr "cookies")
  /\ (forall user,
        authenticate env req w = Next user ->
        includes consent_types (body req "consentType") = false ->
        run env (post_gdpr_consent env req) w
        = (w, res_status_json 400 (BError "Invalid consent type")))
  /\ (forall c,
        In c (consents (fst (run env (post_gdpr_consent env req) w))) ->
        In c (consents w)
        \/ (In (Consent.consentType c) consent_types
            /\ Consent.consentType c <> "gdpr")).
Proof.
  split; [reflexivity|]. split; [apply includes_consent_types|]. split.
  - intros user A I. unfold run, post_gdpr_consent.
    rewrite (authenticated_next env _ _ _ _ A).
    unfold try_catch. rewrite I. reflexivity.
  - intros c Hc.
    pose proof (preserves_run env _
                  (consents_extended_refl _)
                  (consents_extended_trans _)
                  (consents_extended_bookkeeping _)
                  _ (consent_route_rows env req) w c Hc) as [H|H];
      [now left|right].
    split; [exact H|].
    intros E. rewrite E in H. cbn in H.
    destruct H as [H|[H|[H|[]]]]; discriminate.
Qed.

(** ** Row updates *)

Lemma updated_id k c r : User.id (updated k c r) = User.id r.
Proof. unfold updated. destruct (User.id r =? k)%string; reflexivity. Qed.

Lemma find_by_id_map (g : User.t -> User.t) k l :
  (forall r, User.id (g r) = User.id r) ->
  find (fun r => (User.id r =? k)%string) (map g l)
  = option_map g (find (fun r => (User.id r =? k)%string) l).
Proof.
  intros Hg. induction l as [|r l IH]; [reflexivity|].
  cbn. rewrite Hg. destruct (User.id r =? k)%string; [reflexivity|exact IH].
Qed.

Lemma User_update_run user c w :
  match User.set_subscriptionStatus c with
  | Some s => existsb (String.eqb s) User.subscriptionStatus_enum = true
  | None => True
  end ->
  User_update user c w
  = (with_users (map (updated (User.id user) c)) w, Ok (User.apply c user)).
Proof.
  intros H. unfold User_update.
  destruct (User.set_subscriptionStatus c) as [s|]; [rewrite H|]; reflexivity.
Qed.

Lemma authenticate_after_update env req w user k c :
  authenticate env req w = Next user ->
  authenticate env req (with_users (map (updated k c)) w)
  = Next (updated k c user).
Proof.
  unfold authenticate.
  destruct (or_string _ _) as [tok|]; [|discriminate].
  destruct (falsy _); [discriminate|].
  destruct (jwt_verify _ _ _ _) as [uid| |]; try discriminate.
  cbn [users with_users].
  rewrite (find_by_id_map _ _ _ (updated_id k c)).
  destruct (find _ (users w)) as [u|]; [|discriminate].
  intros E. injection E as ->. reflexivity.
Qed.

(** ** Scheduled deletion *)

Lemma schedule_deletion_run env req w user :
  authenticate env req w = Next user ->
  run env (post_gdpr_schedule_deletion env req) w
  = (with_users (map (updated (User.id user) (schedule_changes (now req)))) w,
     res_json (BScheduled "Account deletion scheduled"
                          (addDays (ValidDate (now req)) 30))).
Proof.
  intros A. unfold run, post_gdpr_schedule_deletion.
  rewrite (authenticated_next env _ _ _ _ A).
  unfold schedule_deletion_handler, try_catch, bind.
  fold (schedule_changes (now req)).
  rewrite User_update_run; [reflexivity|exact I].
Qed.

Lemma cancel_deletion_run env req w user :
  authenticate env req w = Next user ->
  run env (post_gdpr_cancel_deletion env req) w
  = (with_users (map (updated (User.id user) cancel_changes)) w,
     res_json (BMessage "Account deletion canceled")).
Proof.
  intros A. unfold run, post_gdpr_cancel_deletion.
  rewrite (authenticated_next env _ _ _ _ A).
  unfold cancel_deletion_handler, try_catch, bind.
  fold cancel_changes.
  rewrite User_update_run; [reflexivity|exact I].
Qed.

Lemma deletion_scheduled_after_update k c w user :
  find (fun r => (User.id r =? k)%string) (users w) = Some user ->
  deletion_scheduled k (with_users (map (updated k c)) w)
  = Some (User.or_else (User.set_accountDeletionScheduled c)
                       (User.accountDeletionScheduled user)).
Proof.
  intros F. unfold deletion_scheduled. cbn [users with_users].
  rewrite (find_by_id_map _ _ _ (updated_id k c)), F. cbn.
  pose proof (find_some _ _ F) as [_ Hid].
  unfold updated. rewrite Hid. reflexivity.
Qed.

(** C7. For an account whose requests authenticate: after
    schedule-deletion the account's [accountDeletionScheduled] is 30 days
    after that request, and cancel-deletion then sets it back to null;
    scheduling a second time sets it to 30 days after the second request;
    and cancel-deletion answers 200 and leaves null whatever the column
    held before, null included. *)
Theorem schedule_cancel_deletion (env : Env) (req1 req2 : Request) (w : World)
  (user : User.t) :
  authenticate env req1 w = Next user ->
  authenticate env req2 w = Next user ->
  let k := User.id user in
  let scheduled := fst (run env (post_gdpr_schedule_deletion env req1) w) in
  deletion_scheduled k scheduled
    = Some (Some (addDays (ValidDate (now req1)) 30))
  /\ run env (post_gdpr_cancel_deletion env req2) scheduled
     = (with_users (map (updated k cancel_changes)) scheduled,
        res_json (BMessage "Account deletion canceled"))
  /\ deletion_scheduled k
       (fst (run env (post_gdpr_cancel_deletion env req2) scheduled))
     = Some None
  /\ deletion_scheduled k
       (fst (run env (post_gdpr_schedule_deletion env req2) scheduled))
     = Some (Some (addDays (ValidDate (now req2)) 30))
  /\ (Z.abs (now req2 + 30 * msPerDay) <= maxTime ->
      addDays (ValidDate (now req2)) 30
      = ValidDate (now req2 + 30 * (24 * 60 * 60 * 1000)))
  /\ snd (run env (post_gdpr_cancel_deletion env req1) w)
     = res_json (BMessage "Account deletion canceled")
  /\ deletion_scheduled k
       (fst (run env (post_gdpr_cancel_deletion env req1) w))
     = Some None.
Proof.
  intros A1 A2 k scheduled.
  pose proof (authenticate_row env _ _ _ A1) as F. fold k in F.
  assert (Es : scheduled
               = with_users (map (updated k (schedule_changes (now req1)))) w).
  { unfold scheduled. now rewrite (schedule_deletion_run env _ _ _ A1). }
  pose proof (authenticate_after_update env _ _ _ k
                (schedule_changes (now req1)) A2) as A2'.
  rewrite <- Es in A2'.
  assert (F' : find (fun r => (User.id r =? k)%string) (users scheduled)
               = Some (updated k (schedule_changes (now req1)) user)).
  { rewrite Es. cbn [users with_users].
    now rewrite (find_by_id_map _ _ _ (updated_id k _)), F. }
  assert (Ek : User.id (updated k (schedule_changes (now req1)) user) = k)
    by apply updated_id.
  repeat split.
  - rewrite Es. now rewrite (deletion_scheduled_after_update _ _ _ _ F).
  - rewrite (cancel_deletion_run env _ _ _ A2'), Ek. reflexivity.
  - rewrite (cancel_deletion_run env _ _ _ A2'), Ek. cbn [fst].
    now rewrite (deletion_scheduled_after_update _ _ _ _ F').
  - rewrite (schedule_deletion_run env _ _ _ A2'), Ek. cbn [fst].
    now rewrite (deletion_scheduled_after_update _ _ _ _ F').
  - intros Hr. unfold addDays, newDate.
    apply Z.leb_le in Hr. now rewrite Hr.
  - now rewrite (cancel_deletion_run env _ _ _ A1).
  - rewrite (cancel_deletion_run env _ _ _ A1). cbn [fst].
    now rewrite (deletion_scheduled_after_update _ _ _ _ F).
Qed.

Lemma schedule_cancel_deletion_witness :
  authenticate (Demo.env true true) Demo.schedule_first Demo.world
    = Next Demo.alice
  /\ authenticate (Demo.env true true) Demo.schedule_second Demo.world
     = Next Demo.alice
  /\ deletion_scheduled "a11ce000-0000-4000-8000-000000000001"
       (fst (run (Demo.env true true)
               (post_gdpr_schedule_deletion (Demo.env true true)
                  Demo.schedule_second)
               (fst (run (Demo.env true true)
                       (post_gdpr_schedule_deletion (Demo.env true true)
                          Demo.schedule_first)
                       Demo.world))))
     = Some (Some (ValidDate (1700086500000 + 30 * 86400000))).
Proof.
  split; [reflexivity|]. split; [reflexivity|].
  pose proof (schedule_cancel_deletion (Demo.env true true)
                Demo.schedule_first Demo.schedule_second Demo.world
                Demo.alice eq_refl eq_refl) as H.
  cbv zeta in H. destruct H as (_ & _ & _ & H & _). exact H.
Defined.

(** ** Immediate deletion and third-party failures *)

Lemma filter_filter_same {A} (p : A -> bool) l :
  filter p (filter p l) = filter p l.
Proof.
  induction l as [|a l IH]; [reflexivity|].
  cbn. destruct (p a) eqn:E; cbn; [rewrite E, IH|]; auto.
Qed.

(** [deleteUserImages] never throws and touches no table; it logs when
    either Cloudinary call fails. *)
Lemma deleteUserImages_run env userId w :
  exists cs l,
    deleteUserImages env userId w
    = (mkWorld (users w) (analyses w) (consents w) (calls w ++ cs)
               (log w ++ l) (uuids w), Ok tt)
    /\ (cloudinary_delete_resources_by_prefix env (user_folder env userId)
        && cloudinary_delete_folder env (user_folder env userId) = true ->
        l = [])
    /\ (cloudinary_delete_resources_by_prefix env (user_folder env userId)
        && cloudinary_delete_folder env (user_folder env userId) = false ->
        exists msg, l = [("Bulk image deletion error:", msg)]).
Proof.
  unfold deleteUserImages, try_catch, bind, external, issue, modify, succeeded,
    console_error, ret, throw.
  destruct (cloudinary_delete_resources_by_prefix env _);
    [destruct (cloudinary_delete_folder env _)|]; cbn.
  - exists [CloudinaryDeleteResourcesByPrefix (user_folder env userId);
            CloudinaryDeleteFolder (user_folder env userId)], [].
    rewrite <- app_assoc, app_nil_r. repeat split; auto; discriminate.
  - exists [CloudinaryDeleteResourcesByPrefix (user_folder env userId);
            CloudinaryDeleteFolder (user_folder env userId)],
           [("Bulk image deletion error:", "cloudinary delete_folder failed")].
    rewrite <- app_assoc. repeat split; eauto; discriminate.
  - exists [CloudinaryDeleteResourcesByPrefix (user_folder env userId)],
           [("Bulk image deletion error:",
             "cloudinary delete_resources_by_prefix failed")].
    repeat split; eauto; discriminate.
Qed.

Lemma delete_account_authenticated env req w user :
  authenticate env req w = Next user ->
  run env (post_gdpr_delete_account env req) w
  = run env (delete_account_handler env req user) w.
Proof.
  intros A. unfold run, post_gdpr_delete_account.
  now rewrite (authenticated_next env _ _ _ _ A).
Qed.

(** The deletion once the billing step is behind it. *)
Lemma delete_account_local env user w :
  exists cs l,
    bind (deleteUserImages env (User.id user)) (fun _ =>
      bind (Analysis_destroy_where
              (fun a => (Analysis.userId a =? User.id user)%string)) (fun _ =>
        bind (Consent_destroy_where
                (fun c => (Consent.userId c =? User.id user)%string)) (fun _ =>
          bind (User_destroy user) (fun _ =>
            ret (res_json
                   (BMessage
                      "Account and all associated data deleted successfully"))))))
      w
    = (mkWorld (other_users (User.id user) (users w))
               (other_analyses (User.id user) (analyses w))
               (other_consents (User.id user) (consents w))
               (calls w ++ cs) (log w ++ l) (uuids w),
       Ok (res_json
             (BMessage "Account and all associated data deleted successfully")))
    /\ (blob_deletion_fails env user = true ->
        exists msg, l = [("Bulk image deletion error:", msg)]).
Proof.
  destruct (deleteUserImages_run env (User.id user) w) as (cs & l & E & _ & Hl).
  exists cs, l. split.
  - unfold bind at 1. rewrite E.
    unfold bind, Analysis_destroy_where, Consent_destroy_where, User_destroy,
      modify, ret, with_analyses, with_consents. cbn.
    unfold other_users, other_analyses, other_consents.
    now rewrite !filter_filter_same.
  - unfold blob_deletion_fails. intros H. apply negb_true_iff in H. auto.
Qed.

Lemma delete_account_handler_billing_ok env req w user :
  strict_eq_str (body req "confirmation") "DELETE" = true ->
  billing_cancellation_fails env user = false ->
  exists cs l,
    delete_account_handler env req user w
    = (mkWorld (other_users (User.id user) (users w))
               (other_analyses (User.id user) (analyses w))
               (other_consents (User.id user) (consents w))
               (calls w ++ cs) (log w ++ l) (uuids w),
       Ok (res_json
             (BMessage "Account and all associated data deleted successfully")))
    /\ (blob_deletion_fails env user = true ->
        exists msg, l = [("Bulk image deletion error:", msg)]).
Proof.
  intros Hphrase Hbilling.
  unfold delete_account_handler, try_catch. rewrite Hphrase. cbn [negb].
  unfold billing_cancellation_fails in Hbilling.
  destruct (falsy (User.stripeSubscriptionId user)) eqn:Hsub; cbn [negb andb].
  - unfold bind at 1, ret at 1.
    destruct (delete_account_local env user w) as (cs & l & E & Hl).
    rewrite E. eauto.
  - cbn [negb andb] in Hbilling. apply negb_false_iff in Hbilling.
    unfold bind at 1, cancelSubscription, try_catch, external, bind at 1,
      issue, modify, succeeded. rewrite Hbilling. unfold ret at 1.
    match goal with
    | |- context [bind (deleteUserImages _ _) _ ?w0] =>
        destruct (delete_account_local env user w0) as (cs & l & E & Hl)
    end.
    cbn [users analyses consents calls log uuids] in E. rewrite E.
    exists (StripeSubscriptionsCancel
              (User.or_else (User.stripeSubscriptionId user) EmptyString) :: cs), l.
    rewrite <- app_assoc. cbn [app]. auto.
Qed.

Lemma delete_account_handler_billing_fails env req w user :
  strict_eq_str (body req "confirmation") "DELETE" = true ->
  billing_cancellation_fails env user = true ->
  delete_account_handler env req user w
  = (mkWorld (users w) (analyses w) (consents w)
       (calls w
        ++ [StripeSubscriptionsCancel
              (User.or_else (User.stripeSubscriptionId user) EmptyString)])
       (log w
        ++ [("Stripe subscription cancellation error:", message stripeError);
            ("Account deletion error:", message stripeError)])
       (uuids w),
     Ok (res_status_json 500 (BError "Failed to delete account"))).
Proof.
  intros Hphrase Hbilling.
  unfold delete_account_handler, try_catch. rewrite Hphrase. cbn [negb].
  unfold billing_cancellation_fails in Hbilling.
  apply andb_true_iff in Hbilling. destruct Hbilling as [Hsub Hcancel].
  rewrite Hsub. apply negb_true_iff in Hcancel.
  unfold bind at 1, cancelSubscription, try_catch, external, bind at 1,
    issue, modify, succeeded. rewrite Hcancel.
  cbn. now rewrite <- app_assoc.
Qed.

(** C2, as amended. With the right confirmation phrase: when the Stripe
    cancellation is not issued or succeeds, the account's rows in the three
    tables are deleted and the answer is 200 even if a Cloudinary deletion
    fails, the failure being logged; when the Stripe cancellation fails the
    deletion stops there: the failure is logged, the answer is 500, no
    Cloudinary call is issued and no row is deleted. *)
Theorem delete_account_external_failures (env : Env) (req : Request)
  (w : World) (user : User.t) :
  authenticate env req w = Next user ->
  strict_eq_str (body req "confirmation") "DELETE" = true ->
  let w' := fst (run env (post_gdpr_delete_account env req) w) in
  let r := snd (run env (post_gdpr_delete_account env req) w) in
  (billing_cancellation_fails env user = false ->
     r = res_json
           (BMessage "Account and all associated data deleted successfully")
     /\ users w' = other_users (User.id user) (users w)
     /\ analyses w' = other_analyses (User.id user) (analyses w)
     /\ consents w' = other_consents (User.id user) (consents w)
     /\ (blob_deletion_fails env user = true ->
         exists msg, In ("Bulk image deletion error:", msg) (log w')))
  /\ (billing_cancellation_fails env user = true ->
      r = res_status_json 500 (BError "Failed to delete account")
      /\ users w' = users w
      /\ analyses w' = analyses w
      /\ consents w' = consents w
      /\ calls w'
         = calls w
           ++ [StripeSubscriptionsCancel
                 (User.or_else (User.stripeSubscriptionId user) EmptyString)]
      /\ log w'
         = log w
           ++ [("Stripe subscription cancellation error:", message stripeError);
               ("Account deletion error:", message stripeError)]).
Proof.
  intros A Hphrase w' r. subst w' r.
  rewrite (delete_account_authenticated env _ _ _ A). unfold run. split.
  - intros Hb.
    destruct (delete_account_handler_billing_ok env req w user Hphrase Hb)
      as (cs & l & E & Hl).
    rewrite E. cbn. repeat split.
    intros Hf. destruct (Hl Hf) as [msg ->]. exists msg.
    apply in_or_app. right. now left.
  - intros Hb.
    rewrite (delete_account_handler_billing_fails env req w user Hphrase Hb).
    cbn. repeat split.
Qed.

(** C2, at a concrete input: Alice has the subscription [sub_1], sends the
    right phrase, and Stripe refuses the cancellation. The route answers
    500 and every row of hers is still there. *)
Lemma delete_account_billing_failure_aborts :
  authenticate (Demo.env false true) Demo.right_phrase Demo.world
    = Next Demo.alice
  /\ strict_eq_str (body Demo.right_phrase "confirmation") "DELETE" = true
  /\ stripe_subscriptions_cancel (Demo.env false true) "sub_1" = false
  /\ run (Demo.env false true)
         (post_gdpr_delete_account (Demo.env false true) Demo.right_phrase)
         Demo.world
     = (mkWorld (users Demo.world) (analyses Demo.world) (consents Demo.world)
          [StripeSubscriptionsCancel "sub_1"]
          [("Stripe subscription cancellation error:", "stripe request failed");
           ("Account deletion error:", "stripe request failed")]
          (uuids Demo.world),
        res_status_json 500 (BError "Failed to delete account"))
  /\ In Demo.alice (users Demo.world)
  /\ In Demo.alice_analysis (analyses Demo.world)
  /\ In Demo.alice_consent (consents Demo.world).
Proof.
  repeat split; try reflexivity; cbn; auto.
Qed.

Lemma delete_account_external_failures_witness :
  authenticate (Demo.env true false) Demo.right_phrase Demo.world
    = Next Demo.alice
  /\ strict_eq_str (body Demo.right_phrase "confirmation") "DELETE" = true
  /\ billing_cancellation_fails (Demo.env true false) Demo.alice = false
  /\ blob_deletion_fails (Demo.env true false) Demo.alice = true
  /\ snd (run (Demo.env true false)
             (post_gdpr_delete_account (Demo.env true false) Demo.right_phrase)
             Demo.world)
     = res_json
         (BMessage "Account and all associated data deleted successfully")
  /\ users (fst (run (Demo.env true false)
                   (post_gdpr_delete_account (Demo.env true false)
                      Demo.right_phrase)
                   Demo.world))
     = [Demo.bob].
Proof.
  pose proof (delete_account_external_failures (Demo.env true false)
                Demo.right_phrase Demo.world Demo.alice eq_refl eq_refl) as H.
  cbv zeta in H. destruct H as [H _].
  destruct (H eq_refl) as (Hr & Hu & _).
  do 4 (split; [reflexivity|]).
  split; [exact Hr|exact Hu].
Defined.

(** ** Submission of an invalid image *)

Lemma authenticate_respond env req w r :
  authenticate env req w = Respond r -> status r = 401.
Proof.
  unfold authenticate.
  destruct (or_string _ _) as [tok|]; [|intros E; injection E as <-; reflexivity].
  destruct (falsy _); [intros E; injection E as <-; reflexivity|].
  destruct (jwt_verify _ _ _ _); try (intros E; injection E as <-; reflexivity).
  destruct (find _ _); [discriminate|intros E; injection E as <-; reflexivity].
Qed.

Lemma requireGDPRConsent_outcome user :
  requireGDPRConsent user = Next tt
  \/ exists r, requireGDPRConsent user = Respond r /\ status r = 403.
Proof.
  unfold requireGDPRConsent. destruct (User.gdprConsentDate user); eauto.
Qed.

Lemma rateLimit_outcome {Store} `{RateStore Store} o (st : Store) user req :
  snd (rateLimit o st user req) = Next tt
  \/ snd (rateLimit o st user req)
     = Respond (mkResponse 429 (BText (limit_message o))).
Proof.
  unfold rateLimit. destruct (increment _ _ _ _) as [st' n].
  destruct (_ <? _)%nat; auto.
Qed.

Lemma rateLimit_over {Store} `{RateStore Store} o (st : Store) user req :
  (max o user <= hits (windowMs o) st (keyGenerator o user req) (now req))%nat ->
  rateLimit o st user req
  = (fst (increment (windowMs o) st (keyGenerator o user req) (now req)),
     Respond (too_many o)).
Proof.
  intros Hq. unfold rateLimit.
  pose proof (increment_totalHits (windowMs o) st (keyGenerator o user req)
                (now req)) as Ht.
  destruct (increment _ _ _ _) as [st' n]. cbn [fst snd] in *. subst n.
  destruct (Nat.ltb_spec (max o user)
              (S (hits (windowMs o) st (keyGenerator o user req) (now req))));
    [reflexivity|lia].
Qed.

Lemma rateLimit_under {Store} `{RateStore Store} o (st : Store) user req :
  (hits (windowMs o) st (keyGenerator o user req) (now req) < max o user)%nat ->
  rateLimit o st user req
  = (fst (increment (windowMs o) st (keyGenerator o user req) (now req)),
     Next tt).
Proof.
  intros Hq. unfold rateLimit.
  pose proof (increment_totalHits (windowMs o) st (keyGenerator o user req)
                (now req)) as Ht.
  destruct (increment _ _ _ _) as [st' n]. cbn [fst snd] in *. subst n.
  destruct (Nat.ltb_spec (max o user)
              (S (hits (windowMs o) st (keyGenerator o user req) (now req))));
    [lia|reflexivity].
Qed.

(** An exception that reaches the error handler is answered 500 and only
    written to the console. *)
Lemma run_throw env e w :
  exists msg,
    run env (throw e) w
    = (mkWorld (users w) (analyses w) (consents w) (calls w)
               (log w ++ [("stack", message e)]) (uuids w),
       res_status_json (status_or_500 e) (BError msg)).
Proof. unfold run, throw, errorHandler. cbn. eauto. Qed.

(** The errors multer raises carry no status. *)
Lemma upload_single_error req e :
  upload_single req = NextError e -> status_or_500 e = 500.
Proof.
  unfold upload_single, fileFilter.
  destruct (image req) as [f|]; [|discriminate].
  destruct (startsWith _ _).
  - destruct (_ <=? _); [|discriminate]. intros E. now injection E as <-.
  - intros E. now injection E as <-.
Qed.

Lemma validateImage_rejects file w :
  image_rejected file = true ->
  exists msg, validateImage file w = (w, Throw (newError msg))
              /\ msg <> EmptyString.
Proof.
  unfold image_rejected, validateImage. intros H.
  destruct (negb (existsb _ allowedTypes)); cbn in *.
  - eexists. split; [reflexivity|discriminate].
  - rewrite H. eexists. split; [reflexivity|discriminate].
Qed.

(** The handler on a rejected image: 400 when the validation chain
    complains, else the validation error caught and answered 500. *)
Lemma create_analysis_handler_rejects env req user file w :
  image_rejected file = true ->
  (analysis_validators env req <> [] /\
   create_analysis_handler env req user (Some file) w
   = (w, Ok (res_status_json 400 (BErrors (analysis_validators env req)))))
  \/ (analysis_validators env req = [] /\
      exists msg,
        create_analysis_handler env req user (Some file) w
        = (mkWorld (users w) (analyses w) (consents w) (calls w)
                   (log w ++ [("Analysis error:", msg)]) (uuids w),
           Ok (res_status_json 500 (BError msg)))).
Proof.
  intros H. unfold create_analysis_handler, try_catch.
  destruct (analysis_validators env req) as [|x l] eqn:V.
  - right. split; [reflexivity|]. cbn [length Nat.eqb negb].
    destruct (validateImage_rejects file w H) as (msg & E & Hmsg).
    unfold bind at 1. rewrite E. exists msg.
    unfold message_or, newError. cbn.
    destruct (msg =? "")%string eqn:Em; [|reflexivity].
    apply String.eqb_eq in Em. contradiction.
  - left. split; [discriminate|reflexivity].
Qed.

(** What the route does with a rejected image once the request is past
    the three gates. *)
Lemma rejected_upload env req user file w :
  image req = Some file ->
  image_rejected file = true ->
  let out :=
    match upload_single req with
    | Respond r => (w, r)
    | NextError e => run env (throw e) w
    | Next f => run env (create_analysis_handler env req user f) w
    end in
  analyses (fst out) = analyses w
  /\ calls (fst out) = calls w
  /\ (startsWith (mimetype file) "image/" = false ->
      snd out = res_status_json 500 (BError (shown_message env not_an_image)))
  /\ (startsWith (mimetype file) "image/" = true ->
      fileSize <= size file ->
      snd out = res_status_json 500 (BError (shown_message env file_too_large)))
  /\ (startsWith (mimetype file) "image/" = true ->
      size file < fileSize ->
      analysis_validators env req = [] ->
      snd out = res_status_json 500 (BError invalid_file_type))
  /\ (startsWith (mimetype file) "image/" = true ->
      size file < fileSize ->
      analysis_validators env req <> [] ->
      snd out = res_status_json 400 (BErrors (analysis_validators env req))).
Proof.
  intros Hi Hr. unfold upload_single, fileFilter. rewrite Hi.
  destruct (startsWith (mimetype file) "image/") eqn:T.
  - destruct (Z.leb_spec fileSize (size file)) as [S|S].
    + unfold run, throw, errorHandler, bind, console_error, modify, ret.
      cbn. repeat split; try discriminate; intros;
        solve [reflexivity|unfold fileSize in *; lia].
    + assert (Ty : existsb (String.eqb (mimetype file)) allowedTypes = false).
      { unfold image_rejected in Hr. apply orb_true_iff in Hr.
        destruct Hr as [Hr|Hr]; [now apply negb_true_iff in Hr|].
        apply Z.ltb_lt in Hr. unfold maxSize, fileSize in *. lia. }
      unfold run, create_analysis_handler, try_catch.
      destruct (analysis_validators env req) as [|x l] eqn:V.
      * cbn [length Nat.eqb negb]. unfold bind at 1, validateImage.
        rewrite Ty. cbn. repeat split; try discriminate; intros;
          solve [reflexivity|unfold fileSize in *; lia|congruence].
      * cbn. repeat split; try discriminate; intros;
          solve [reflexivity|unfold fileSize in *; lia|congruence].
  - unfold run, throw, errorHandler, bind, console_error, modify, ret.
    cbn. repeat split; try discriminate; reflexivity.
Qed.

(** C3, as amended. A submission whose image has a media type outside the
    allowed ones or more than 10 MiB is never accepted: no analysis row is
    added and no third-party call (so no upload) is issued, and the answer
    is one of 400, 401, 403, 429, 500. For a request that passes
    authentication, the consent gate and the limiter the answer is 500:
    with the error handler's message when the upload middleware refuses
    the file (a type that is no image type, or 10 MiB and more), and with
    the validator's message when the file is an image of another type
    under 10 MiB and the questionnaire check passes; when that check
    fails the answer is 400 with its errors. *)
Theorem invalid_image_rejected (env : Env) {Store : Type}
  {store : RateStore Store} (req : Request) (st : Store) (w : World)
  (file : File) :
  image req = Some file ->
  image_rejected file = true ->
  let w' := fst (snd (post_analysis env req st w)) in
  let r := snd (snd (post_analysis env req st w)) in
  analyses w' = analyses w
  /\ calls w' = calls w
  /\ In (status r) [400; 401; 403; 429; 500]
  /\ (forall user,
        authenticate env req w = Next user ->
        requireGDPRConsent user = Next tt ->
        snd (rateLimit analysisLimiter st (Some user) req) = Next tt ->
        (startsWith (mimetype file) "image/" = false ->
         r = res_status_json 500 (BError (shown_message env not_an_image)))
        /\ (startsWith (mimetype file) "image/" = true ->
            fileSize <= size file ->
            r = res_status_json 500 (BError (shown_message env file_too_large)))
        /\ (startsWith (mimetype file) "image/" = true ->
            size file < fileSize ->
            analysis_validators env req = [] ->
            r = res_status_json 500 (BError invalid_file_type))
        /\ (startsWith (mimetype file) "image/" = true ->
            size file < fileSize ->
            analysis_validators env req <> [] ->
            r = res_status_json 400 (BErrors (analysis_validators env req)))).
Proof.
  intros Hi Hr w' r. subst w' r. unfold post_analysis.
  destruct (authenticate env req w) as [user|r|e] eqn:A.
  2:{ cbn. rewrite (authenticate_respond _ _ _ _ A).
      repeat split; auto; intros; discriminate. }
  2:{ destruct (authenticate_no_error _ _ _ _ A). }
  destruct (requireGDPRConsent_outcome user) as [G|[r [G Hs]]]; rewrite G.
  2:{ cbn. rewrite Hs. split; [reflexivity|]. split; [reflexivity|].
      split; [tauto|].
      intros u E Gu. injection E as <-. congruence. }
  pose proof (rateLimit_outcome analysisLimiter st (Some user) req) as L.
  destruct (rateLimit analysisLimiter st (Some user) req) as [st' o] eqn:L0.
  cbn [snd] in L. destruct L as [L|L]; subst o.
  2:{ cbn. split; [reflexivity|]. split; [reflexivity|]. split; [tauto|].
      intros u E _ Lu. injection E as <-. rewrite L0 in Lu. discriminate. }
  pose proof (rejected_upload env req user file w Hi Hr) as Hup.
  cbv zeta in Hup. cbn [fst snd].
  set (out := match upload_single req with
              | Next f => run env (create_analysis_handler env req user f) w
              | Respond r => (w, r)
              | NextError e => run env (throw e) w
              end) in *.
  assert (Eout : match upload_single req with
                 | Next file0 =>
                     (st', run env (create_analysis_handler env req user file0) w)
                 | Respond r => (st', (w, r))
                 | NextError e => (st', run env (throw e) w)
                 end = (st', out))
    by (subst out; destruct (upload_single req); reflexivity).
  rewrite Eout. cbn [fst snd].
  destruct Hup as (Ha & Hc & H1 & H2 & H3 & H4).
  split; [exact Ha|]. split; [exact Hc|]. split.
  - destruct (startsWith (mimetype file) "image/") eqn:T.
    + destruct (Z.le_gt_cases fileSize (size file)) as [S|S].
      * rewrite (H2 eq_refl S). cbn. tauto.
      * destruct (analysis_validators env req) as [|x l] eqn:V.
        -- rewrite (H3 eq_refl S eq_refl). cbn. tauto.
        -- rewrite H4; [cbn; tauto|reflexivity|exact S|discriminate].
    + rewrite (H1 eq_refl). cbn. tauto.
  - intros u _ _ _. repeat split; assumption.
Qed.

(** C3, at a concrete input: Bob, authenticated, consenting and under his
    quota, submits a GIF with a well-formed questionnaire; the route
    answers 500, not 400. *)
Lemma invalid_image_answered_500 :
  image Demo.gif_submission = Some Demo.gif
  /\ existsb (String.eqb (mimetype Demo.gif)) allowedTypes = false
  /\ authenticate (Demo.env true true) Demo.gif_submission Demo.world
     = Next Demo.bob
  /\ snd (post_analysis (Demo.env true true) Demo.gif_submission
            (analysisStore Demo.server) Demo.world)
     = (mkWorld (users Demo.world) (analyses Demo.world) (consents Demo.world)
          [] [("Analysis error:",
               "Invalid file type. Only JPG and PNG are allowed.")]
          (uuids Demo.world),
        res_status_json 500
          (BError "Invalid file type. Only JPG and PNG are allowed.")).
Proof. repeat split. Qed.

Lemma invalid_image_rejected_witness :
  image Demo.gif_submission = Some Demo.gif
  /\ image_rejected Demo.gif = true
  /\ snd (snd (post_analysis (Demo.env true true) Demo.gif_submission
                 (analysisStore Demo.server) Demo.world))
     = res_status_json 500
         (BError "Invalid file type. Only JPG and PNG are allowed.").
Proof.
  split; [reflexivity|]. split; [reflexivity|].
  pose proof (invalid_image_rejected (Demo.env true true) Demo.gif_submission
                (analysisStore Demo.server) Demo.world Demo.gif
                eq_refl eq_refl) as H.
  cbv zeta in H. destruct H as (_ & _ & _ & H).
  assert (L : snd (rateLimit analysisLimiter (analysisStore Demo.server)
                     (Some Demo.bob) Demo.gif_submission)
              = Next tt) by (vm_compute; reflexivity).
  destruct (H Demo.bob eq_refl eq_refl L) as (_ & _ & H3 & _).
  apply H3; [reflexivity|vm_compute; reflexivity|reflexivity].
Defined.

(** ** Billing events *)

Lemma with_users_same w : with_users (fun l => l) w = w.
Proof. destruct w; reflexivity. Qed.

Lemma find_map_invariant {A} (p : A -> bool) (g : A -> A) l :
  (forall r, p (g r) = p r) ->
  find p (map g l) = option_map g (find p l).
Proof.
  intros Hg. induction l as [|r l IH]; [reflexivity|].
  cbn. rewrite Hg. destruct (p r); [reflexivity|exact IH].
Qed.

Lemma apply_twice c r : User.apply c (User.apply c r) = User.apply c r.
Proof.
  destruct c as [a b s p m d l x], r. unfold User.apply. cbn.
  destruct a, b, s, p, m, d, l, x; reflexivity.
Qed.

Lemma updated_twice k c r : updated k c (updated k c r) = updated k c r.
Proof.
  unfold updated. destruct (User.id r =? k)%string eqn:E.
  - cbn. rewrite E. apply apply_twice.
  - now rewrite E.
Qed.

(** A find-then-update handler, and its effect on the world. *)
Lemma find_update_fst (p : User.t -> bool) (c : User.changes) w :
  fst (bind (User_findOne p) (fun user =>
         match user with
         | Some user => bind (User_update user c) (fun _ => ret tt)
         | None => ret tt
         end) w)
  = with_users (sync p c) w.
Proof.
  unfold with_users, sync, bind at 1, User_findOne, bind at 1, get, ret at 1.
  destruct (find p (users w)) as [u|].
  - unfold bind, User_update. fold (changes_allowed c).
    destruct (changes_allowed c); cbn; [reflexivity|destruct w; reflexivity].
  - destruct w; reflexivity.
Qed.

Lemma sync_twice p c l :
  (forall k r, p (updated k c r) = p r) ->
  sync p c (sync p c l) = sync p c l.
Proof.
  intros Hp. unfold sync at 2.
  destruct (find p l) as [u|] eqn:F.
  - destruct (changes_allowed c) eqn:Hc.
    + unfold sync.
      rewrite (find_map_invariant p _ l (Hp (User.id u))), F. cbn.
      rewrite Hc, updated_id, map_map.
      apply map_ext. intros r. apply updated_twice.
    + unfold sync. now rewrite F, Hc.
  - unfold sync. now rewrite F.
Qed.

Lemma has_customer_updated customer k c r :
  User.set_stripeCustomerId c = None ->
  has_customer customer (updated k c r) = has_customer customer r.
Proof.
  intros H. unfold updated, has_customer.
  destruct (User.id r =? k)%string; [|reflexivity].
  cbn. now rewrite H.
Qed.

Lemma has_subscription_updated subscription k c r :
  User.set_stripeSubscriptionId c = None ->
  has_subscription subscription (updated k c r) = has_subscription subscription r.
Proof.
  intros H. unfold updated, has_subscription.
  destruct (User.id r =? k)%string; [|reflexivity].
  cbn. now rewrite H.
Qed.

Lemma dispatch_fst ev w : fst (dispatch ev w) = with_users (dispatch_users ev) w.
Proof.
  unfold dispatch, dispatch_users.
  destruct (_ || _)%bool.
  { apply (find_update_fst (has_customer (ev_customer ev))
                           (subscription_changes ev)). }
  destruct (ev_type ev =? "customer.subscription.deleted")%string.
  { apply (find_update_fst (has_subscription (ev_id ev)) deleted_changes). }
  destruct (ev_type ev =? "invoice.payment_failed")%string.
  { apply (find_update_fst (has_customer (ev_customer ev))
                           payment_failed_changes). }
  cbn. now rewrite with_users_same.
Qed.

Lemma dispatch_users_twice ev l :
  dispatch_users ev (dispatch_users ev l) = dispatch_users ev l.
Proof.
  unfold dispatch_users.
  destruct (_ || _)%bool.
  { apply sync_twice. intros. now apply has_customer_updated. }
  destruct (ev_type ev =? "customer.subscription.deleted")%string.
  { apply sync_twice. intros. now apply has_subscription_updated. }
  destruct (ev_type ev =? "invoice.payment_failed")%string.
  { apply sync_twice. intros. now apply has_customer_updated. }
  reflexivity.
Qed.

(** [handleWebhook] on a payload that verifies: the tables are those
    [dispatch] leaves; a failed update is also written to the console. *)
Lemma handleWebhook_fst env payload signature t ev w :
  stripe_webhooks_constructEvent env payload signature
    (STRIPE_WEBHOOK_SECRET (processEnv env)) t = Some ev ->
  exists l,
    fst (handleWebhook env payload signature t w)
    = mkWorld (dispatch_users ev (users w)) (analyses w) (consents w)
              (calls w) (log w ++ l) (uuids w).
Proof.
  intros E. unfold handleWebhook, try_catch. rewrite E.
  unfold bind at 1, ret at 1.
  pose proof (dispatch_fst ev w) as D.
  destruct (dispatch ev w) as [w1 [u|e]]; cbn in *; subst w1; cbn.
  - exists []. now rewrite app_nil_r.
  - eauto.
Qed.

Lemma handleWebhook_tables env payload signature t ev w :
  stripe_webhooks_constructEvent env payload signature
    (STRIPE_WEBHOOK_SECRET (processEnv env)) t = Some ev ->
  users (fst (handleWebhook env payload signature t w))
    = dispatch_users ev (users w)
  /\ analyses (fst (handleWebhook env payload signature t w)) = analyses w
  /\ consents (fst (handleWebhook env payload signature t w)) = consents w.
Proof.
  intros E. destruct (handleWebhook_fst env payload signature t ev w E) as [l ->].
  repeat split.
Qed.

(** C9. Re-delivering a Stripe event changes nothing more: after
    [handleWebhook] has handled a payload, handling the same payload again
    (verified to the same event) leaves the users table, hence every
    Account, and the other tables as the first handling left them. This
    holds for every event kind, the subscription created and updated
    events among them. *)
Theorem webhook_redelivery_idempotent (env : Env) (payload : string)
  (signature : option string) (t1 t2 : Z) (ev : StripeEvent) (w : World) :
  stripe_webhooks_constructEvent env payload signature
    (STRIPE_WEBHOOK_SECRET (processEnv env)) t1 = Some ev ->
  stripe_webhooks_constructEvent env payload signature
    (STRIPE_WEBHOOK_SECRET (processEnv env)) t2 = Some ev ->
  let once := fst (handleWebhook env payload signature t1 w) in
  let twice := fst (handleWebhook env payload signature t2 once) in
  users twice = users once
  /\ analyses twice = analyses once
  /\ consents twice = consents once
  /\ fst (dispatch ev (fst (dispatch ev w))) = fst (dispatch ev w).
Proof.
  intros E1 E2 once twice.
  destruct (handleWebhook_tables env payload signature t1 ev w E1)
    as (U1 & A1 & C1).
  destruct (handleWebhook_tables env payload signature t2 ev once E2)
    as (U2 & A2 & C2).
  fold once in U1, A1, C1. fold twice in U2, A2, C2.
  repeat split.
  - rewrite U2, U1. apply dispatch_users_twice.
  - exact A2.
  - exact C2.
  - rewrite !dispatch_fst. destruct w; unfold with_users; cbn.
    now rewrite dispatch_users_twice.
Qed.

Lemma webhook_redelivery_idempotent_witness :
  stripe_webhooks_constructEvent (Demo.env true true) "updated cus_1 past_due"
    (Some "t=1,v1=sig") (Some "whsec") 1700000200000
  = Some (mkStripeEvent "customer.subscription.updated" "sub_1" "cus_1"
                        "past_due")
  /\ users (fst (handleWebhook (Demo.env true true) "updated cus_1 past_due"
                   (Some "t=1,v1=sig") 1700000260000
                   (fst (handleWebhook (Demo.env true true)
                           "updated cus_1 past_due" (Some "t=1,v1=sig")
                           1700000200000 Demo.world))))
     = users (fst (handleWebhook (Demo.env true true) "updated cus_1 past_due"
                     (Some "t=1,v1=sig") 1700000200000 Demo.world)).
Proof.
  split; [reflexivity|].
  exact (proj1 (webhook_redelivery_idempotent (Demo.env true true)
                  "updated cus_1 past_due" (Some "t=1,v1=sig")
                  1700000200000 1700000260000
                  (mkStripeEvent "customer.subscription.updated" "sub_1"
                                 "cus_1" "past_due")
                  Demo.world eq_refl eq_refl)).
Defined.

(** A row update that writes the premium flag from the status it writes,
    or writes neither, keeps the invariant of the row. *)
Lemma updated_keeps_invariant k c r :
  (forall s, User.set_subscriptionStatus c = Some s ->
             User.set_isPremium c = Some (s =? "active")%string) ->
  (User.set_subscriptionStatus c = None -> User.set_isPremium c = None) ->
  premium_iff_active r -> premium_iff_active (updated k c r).
Proof.
  unfold premium_iff_active, updated. intros Hs Hn Hr.
  destruct (User.id r =? k)%string; [|exact Hr].
  cbn. destruct (User.set_subscriptionStatus c) as [s|].
  - rewrite (Hs s eq_refl). reflexivity.
  - rewrite (Hn eq_refl). exact Hr.
Qed.

Lemma sync_keeps_invariant p c l :
  (forall s, User.set_subscriptionStatus c = Some s ->
             User.set_isPremium c = Some (s =? "active")%string) ->
  (User.set_subscriptionStatus c = None -> User.set_isPremium c = None) ->
  Forall premium_iff_active l -> Forall premium_iff_active (sync p c l).
Proof.
  intros Hs Hn Hl. unfold sync.
  destruct (find p l) as [u|]; [|exact Hl].
  destruct (changes_allowed c); [|exact Hl].
  apply Forall_map. revert Hl. apply Forall_impl.
  intros r. now apply updated_keeps_invariant.
Qed.

(** X1. The subscription created, updated and deleted events keep the
    invariant of every account (premium exactly when the status is
    [active]): their handlers write the status and the premium flag
    together. *)
Lemma subscription_events_keep_invariant ev w :
  ev_type ev <> "invoice.payment_failed" ->
  Forall premium_iff_active (users w) ->
  Forall premium_iff_active (users (fst (dispatch ev w))).
Proof.
  intros Hty Hw. rewrite dispatch_fst. cbn [users with_users].
  unfold dispatch_users.
  destruct (_ || _)%bool.
  { apply sync_keeps_invariant; auto.
    - cbn. intros s E. now injection E as <-.
    - cbn. discriminate. }
  destruct (ev_type ev =? "customer.subscription.deleted")%string.
  { apply sync_keeps_invariant; auto.
    - cbn. intros s E. now injection E as <-.
    - cbn. discriminate. }
  destruct (ev_type ev =? "invoice.payment_failed")%string eqn:E; [|exact Hw].
  apply String.eqb_eq in E. contradiction.
Qed.

(** C1, at the input where the code departs from it. Alice is premium
    with an active subscription; Stripe reports a failed payment of her
    customer. The webhook answers 200, her status becomes [past_due] and
    her premium flag is still set: premium no longer means active. *)
Theorem payment_failed_keeps_premium :
  premium_iff_active Demo.alice
  /\ snd (run (Demo.env true true)
            (post_subscription_webhook (Demo.env true true)
               Demo.payment_failed_delivery)
            Demo.world)
     = res_json BReceived
  /\ map (fun u => (User.id u, User.subscriptionStatus u, User.isPremium u))
         (users (fst (run (Demo.env true true)
                        (post_subscription_webhook (Demo.env true true)
                           Demo.payment_failed_delivery)
                        Demo.world)))
     = [("a11ce000-0000-4000-8000-000000000001", "past_due", true); ("b0b00000-0000-4000-8000-000000000002", "inactive", false)]
  /\ map (fun u => (User.id u, User.subscriptionStatus u, User.isPremium u))
         (users (fst (run (Demo.env true true)
                        (post_subscription_webhook (Demo.env true true)
                           Demo.past_due_delivery)
                        Demo.world)))
     = [("a11ce000-0000-4000-8000-000000000001", "past_due", false); ("b0b00000-0000-4000-8000-000000000002", "inactive", false)].
Proof. repeat split. Qed.

(** ** Submissions: expiry and immutability *)

Lemma filter_all {A} (l : list A) : filter (fun _ => true) l = l.
Proof. induction l as [|a l IH]; cbn; [|rewrite IH]; reflexivity. Qed.

Lemma filter_filter {A} (p q : A -> bool) l :
  filter q (filter p l) = filter (fun a => p a && q a) l.
Proof.
  induction l as [|a l IH]; [reflexivity|].
  cbn. destruct (p a); cbn; [destruct (q a)|]; rewrite ?IH; reflexivity.
Qed.

Lemma only_deleted_refl w : analyses_only_deleted w w.
Proof. exists (fun _ => true). now rewrite filter_all. Qed.

Lemma only_deleted_same w w' :
  analyses w' = analyses w -> analyses_only_deleted w w'.
Proof. intros E. exists (fun _ => true). now rewrite filter_all. Qed.

Lemma only_deleted_trans a b c :
  analyses_only_deleted a b -> analyses_only_deleted b c ->
  analyses_only_deleted a c.
Proof.
  intros [p Hp] [q Hq]. exists (fun x => p x && q x).
  now rewrite Hq, Hp, filter_filter.
Qed.

Lemma only_deleted_bookkeeping w c l n :
  analyses_only_deleted w
    (mkWorld (users w) (analyses w) (consents w) c l n).
Proof. now apply only_deleted_same. Qed.

Section OnlyDeleted.

Variable env : Env.

Let R := analyses_only_deleted.

Lemma User_update_only_deletes user c : preserves R (User_update user c).
Proof.
  intros w. unfold User_update.
  destruct (match User.set_subscriptionStatus c with
            | Some s => _ | None => _ end); cbn; now apply only_deleted_same.
Qed.

Lemma User_create_only_deletes email password language country consent
  retention t :
  preserves R (User_create env email password language country consent
                           retention t).
Proof.
  intros w. unfold User_create.
  destruct (negb _); [apply only_deleted_refl|].
  destruct password; try apply only_deleted_refl.
  unfold bind, get. cbn.
  destruct (existsb _ _); cbn; now apply only_deleted_same.
Qed.

Lemma User_destroy_only_deletes user : preserves R (User_destroy user).
Proof. intros w. cbn. eexists. reflexivity. Qed.

Lemma Analysis_destroy_where_only_deletes p :
  preserves R (Analysis_destroy_where p).
Proof. intros w. cbn. eexists. reflexivity. Qed.

Lemma Analysis_findOne_only_deletes p : preserves R (Analysis_findOne p).
Proof. intros w. apply only_deleted_refl. Qed.

Lemma Analysis_findAll_only_deletes p : preserves R (Analysis_findAll p).
Proof. intros w. apply only_deleted_refl. Qed.

Lemma User_findOne_only_deletes p : preserves R (User_findOne p).
Proof. intros w. apply only_deleted_refl. Qed.

Lemma Consent_findAll_only_deletes p : preserves R (Consent_findAll p).
Proof. intros w. apply only_deleted_refl. Qed.

Lemma Consent_destroy_where_only_deletes p :
  preserves R (Consent_destroy_where p).
Proof. intros w. cbn. now apply only_deleted_same. Qed.

Lemma Consent_create_only_deletes userId consentType consentGiven ipAddress
  userAgent t :
  preserves R (Consent_create env userId consentType consentGiven ipAddress
                              userAgent t).
Proof.
  intros w. unfold Consent_create.
  destruct consentGiven; try apply only_deleted_refl;
    (destruct (negb _); [apply only_deleted_refl|]);
    (destruct (boolean_sanitize _ _); cbn; now apply only_deleted_same).
Qed.

End OnlyDeleted.

(** Walk down a route that never creates an analysis. *)
Ltac only_deletes :=
  repeat first
    [ frame_step
    | apply User_update_only_deletes
    | apply User_create_only_deletes
    | apply User_destroy_only_deletes
    | apply Analysis_destroy_where_only_deletes
    | apply Analysis_findOne_only_deletes
    | apply Analysis_findAll_only_deletes
    | apply User_findOne_only_deletes
    | apply Consent_findAll_only_deletes
    | apply Consent_destroy_where_only_deletes
    | apply Consent_create_only_deletes
    | apply preserves_authenticated; [assumption..|intros]
    | match goal with
      | |- preserves _ (if ?b then _ else _) => destruct b
      end
    | progress unfold logConsent, comparePassword, update_consent_column,
        deleteImage, deleteUserImages, uploadImage, analyzeImage, validateImage,
        createCustomer, createCheckoutSession, cancelSubscription,
        updateSubscriptionStatus, handleSubscriptionDeleted,
        handlePaymentFailed, dispatch, handleWebhook, Analysis_destroy,
        Analysis_findOne_owned,
        delete_account_handler, schedule_deletion_handler,
        cancel_deletion_handler ].

Section RoutesOnlyDelete.

Variable env : Env.

Let R := analyses_only_deleted.
Let Hrefl := only_deleted_refl.
Let Htrans := only_deleted_trans.
Let Hbook := only_deleted_bookkeeping.

Lemma register_handler_only_deletes req : preserves R (register_handler env req).
Proof. unfold register_handler. only_deletes. Qed.

Lemma login_handler_only_deletes req : preserves R (login_handler env req).
Proof. unfold login_handler. only_deletes. Qed.

Lemma plain_routes_only_delete req :
  preserves R (get_health req)
  /\ preserves R (post_auth_refresh req)
  /\ preserves R (post_auth_logout env req)
  /\ preserves R (get_auth_me env req)
  /\ preserves R (get_analyses env req)
  /\ preserves R (get_analysis env req)
  /\ preserves R (delete_analysis env req)
  /\ preserves R (post_subscription_create_checkout env req)
  /\ preserves R (get_subscription_status env req)
  /\ preserves R (post_subscription_cancel env req)
  /\ preserves R (post_subscription_webhook env req)
  /\ preserves R (post_gdpr_consent env req)
  /\ preserves R (get_gdpr_consents env req)
  /\ preserves R (post_gdpr_export env req)
  /\ preserves R (post_gdpr_delete_account env req)
  /\ preserves R (post_gdpr_schedule_deletion env req)
  /\ preserves R (post_gdpr_cancel_deletion env req)
  /\ preserves R not_found.
Proof.
  unfold get_health, post_auth_refresh, post_auth_logout, get_auth_me,
    get_analyses, get_analysis, delete_analysis,
    post_subscription_create_checkout, get_subscription_status,
    post_subscription_cancel, post_subscription_webhook, post_gdpr_consent,
    get_gdpr_consents, post_gdpr_export, post_gdpr_delete_account,
    post_gdpr_schedule_deletion, post_gdpr_cancel_deletion, not_found.
  repeat split; only_deletes.
Qed.

End RoutesOnlyDelete.

Lemma same_tables_steps env bytes userId url questionnaire area premium t :
  preserves same_tables (uploadImage env bytes userId)
  /\ preserves same_tables (analyzeImage env url questionnaire area premium t).
Proof.
  assert (Hrefl : forall w, same_tables w w) by (unfold same_tables; auto).
  assert (Htrans : forall a b c, same_tables a b -> same_tables b c ->
                                 same_tables a c).
  { unfold same_tables. intros a b c (U1 & A1 & C1) (U2 & A2 & C2).
    rewrite U2, A2, C2. auto. }
  assert (Hbook : forall w c l n,
             same_tables w
               (mkWorld (users w) (analyses w) (consents w) c l n))
    by (unfold same_tables; auto).
  unfold uploadImage, analyzeImage. split; frame.
Qed.

(** [Analysis.create]: the row is stored when the expiry is a date the
    database takes, and only then. *)
Lemma Analysis_create_outcome env userId url publicId area q ai premium d t w :
  (exists expiry,
     d = ValidDate expiry
     /\ pg_timestamptz_in env expiry = true
     /\ Analysis_create env userId url publicId area q ai premium d t w
        = (mkWorld (users w)
             (analyses w
              ++ [Analysis.mk (uuidv4 env (uuids w)) userId url publicId area
                              q ai premium (Some d) t])
             (consents w) (calls w) (log w) (S (uuids w)),
           Ok (Analysis.mk (uuidv4 env (uuids w)) userId url publicId area
                           q ai premium (Some d) t)))
  \/ (exists e,
        Analysis_create env userId url publicId area q ai premium d t w
        = (mkWorld (users w) (analyses w) (consents w) (calls w) (log w)
                   (S (uuids w)),
           Throw e)).
Proof.
  unfold Analysis_create, bind at 1, fresh_uuid.
  destruct d as [expiry|]; [|right; eexists; reflexivity].
  destruct (pg_timestamptz_in env expiry) eqn:T; cbn [negb].
  - left. exists expiry. repeat split. exact T.
  - right. eexists. reflexivity.
Qed.

(** A valid expiry date is the instant plus a whole number of days that
    [parseInt] read off the configuration. *)
Lemma expiry_valid env t expiry :
  newDate (option_map (Z.add t) (retention_ms env)) = ValidDate expiry ->
  exists days,
    parseInt (interpolate (DATA_RETENTION_DAYS (processEnv env))) = Some days
    /\ expiry = t + days * (24 * 60 * 60 * 1000).
Proof.
  unfold retention_ms.
  destruct (parseInt _) as [days|]; cbn [option_map newDate]; [|discriminate].
  destruct (Z.abs _ <=? maxTime); [|discriminate].
  intros E. injection E as <-. exists days. split; [reflexivity|lia].
Qed.

(** The creation handler always answers. Accounts and consents are as
    before; either it answers 201 and has appended one row of the caller,
    stamped by the ORM, whose expiry is a valid date the database took, or it
    answers something else and the analyses are as before. *)
Lemma create_analysis_handler_outcome env req user file w :
  exists w' r,
    create_analysis_handler env req user file w = (w', Ok r)
    /\ users w' = users w
    /\ consents w' = consents w
    /\ ((exists a expiry,
           analyses w' = analyses w ++ [a]
           /\ newDate (option_map (Z.add (now req)) (retention_ms env))
              = ValidDate expiry
           /\ pg_timestamptz_in env expiry = true
           /\ (exists n, Analysis.id a = uuidv4 env n)
           /\ Analysis.userId a = User.id user
           /\ Analysis.isPremiumAnalysis a = User.isPremium user
           /\ Analysis.createdAt a = created req
           /\ Analysis.scheduledDeletion a = Some (ValidDate expiry)
           /\ r = res_status_json 201
                    (BCreated (Analysis.id a) (Analysis.aiResult a)
                              (Analysis.createdAt a)))
        \/ (status r <> 201 /\ analyses w' = analyses w)).
Proof.
  unfold create_analysis_handler, try_catch.
  destruct (negb _).
  { cbn. do 2 eexists. split; [reflexivity|]. repeat split.
    right. split; [discriminate|reflexivity]. }
  destruct file as [file|].
  2:{ cbn. do 2 eexists. split; [reflexivity|]. repeat split.
      right. split; [discriminate|reflexivity]. }
  unfold bind at 1.
  assert (V : exists res, validateImage file w = (w, res)).
  { unfold validateImage. destruct (negb _); [eexists; reflexivity|].
    destruct (_ <? _); eexists; reflexivity. }
  destruct V as [res ->]. destruct res as [b|e].
  2:{ cbn. do 2 eexists. split; [reflexivity|]. repeat split.
      right. split; [discriminate|reflexivity]. }
  unfold bind at 1.
  pose proof (proj1 (same_tables_steps env (buffer file) (User.id user)
                       EmptyString EmptyString EmptyString false 0) w)
    as (U1 & U2 & U3).
  destruct (uploadImage env (buffer file) (User.id user) w)
    as [w1 [[url publicId]|e]]; cbn [fst] in U1, U2, U3.
  2:{ cbn. do 2 eexists. split; [reflexivity|]. cbn.
      repeat split; try assumption. right. split; [discriminate|exact U2]. }
  unfold bind at 1.
  destruct (JSON_parse env _) as [q|].
  2:{ cbn. do 2 eexists. split; [reflexivity|]. cbn.
      repeat split; try assumption. right. split; [discriminate|exact U2]. }
  unfold ret at 1. unfold bind at 1.
  pose proof (proj2 (same_tables_steps env EmptyString EmptyString url q
                       (or_default (body req "area") "unknown")
                       (User.isPremium user) (now req)) w1)
    as (N1 & N2 & N3).
  destruct (analyzeImage env url q _ _ _ w1) as [w2 [ai|e]];
    cbn [fst] in N1, N2, N3.
  2:{ cbn. do 2 eexists. split; [reflexivity|]. cbn.
      rewrite N1, N2, N3. repeat split; try assumption.
      right. split; [discriminate|exact U2]. }
  unfold bind at 1.
  destruct (Analysis_create_outcome env (User.id user) url publicId
              (or_default (body req "area") "unknown") q ai
              (User.isPremium user)
              (newDate (option_map (Z.add (now req)) (retention_ms env)))
              (created req) w2)
    as [(expiry & D & T & ->)|(e & ->)].
  - cbn. do 2 eexists. split; [reflexivity|]. cbn.
    rewrite N1, N2, N3, U1, U2, U3. split; [reflexivity|].
    split; [reflexivity|]. left. eexists _, expiry.
    split; [reflexivity|]. split; [exact D|]. split; [exact T|].
    split; [eexists; reflexivity|]. rewrite D. repeat split.
  - cbn. do 2 eexists. split; [reflexivity|]. cbn.
    rewrite N1, N2, N3. repeat split; try assumption.
    right. split; [discriminate|exact U2].
Qed.

(** The submission route, gate by gate: accounts and consents are as
    before; it answers 201 exactly when the handler stored a row. *)
Lemma post_analysis_outcome env {Store : Type} {store : RateStore Store}
  (req : Request) (st : Store) (w : World) :
  let w' := fst (snd (post_analysis env req st w)) in
  let r := snd (snd (post_analysis env req st w)) in
  users w' = users w
  /\ consents w' = consents w
  /\ ((exists user a expiry,
         authenticate env req w = Next user
         /\ analyses w' = analyses w ++ [a]
         /\ newDate (option_map (Z.add (now req)) (retention_ms env))
            = ValidDate expiry
         /\ pg_timestamptz_in env expiry = true
         /\ (exists n, Analysis.id a = uuidv4 env n)
         /\ Analysis.userId a = User.id user
         /\ Analysis.isPremiumAnalysis a = User.isPremium user
         /\ Analysis.createdAt a = created req
         /\ Analysis.scheduledDeletion a = Some (ValidDate expiry)
         /\ r = res_status_json 201
                  (BCreated (Analysis.id a) (Analysis.aiResult a)
                            (Analysis.createdAt a)))
      \/ (status r <> 201 /\ analyses w' = analyses w)).
Proof.
  intros w' r. subst w' r. unfold post_analysis.
  destruct (authenticate env req w) as [user|r|e] eqn:A.
  2:{ cbn. repeat split. right. rewrite (authenticate_respond _ _ _ _ A).
      split; [discriminate|reflexivity]. }
  2:{ destruct (authenticate_no_error _ _ _ _ A). }
  destruct (requireGDPRConsent_outcome user) as [G|[r [G Hs]]]; rewrite G.
  2:{ cbn. repeat split. right. rewrite Hs.
      split; [discriminate|reflexivity]. }
  pose proof (rateLimit_outcome analysisLimiter st (Some user) req) as L.
  destruct (rateLimit analysisLimiter st (Some user) req) as [st' o].
  cbn [snd] in L. destruct L as [L|L]; subst o.
  2:{ cbn. repeat split. right. split; [discriminate|reflexivity]. }
  destruct (upload_single req) as [file|r|e] eqn:U.
  - cbn [fst snd]. unfold run.
    destruct (create_analysis_handler_outcome env req user file w)
      as (w1 & r & -> & Us & Cs & H); cbn [fst snd].
    split; [exact Us|]. split; [exact Cs|].
    destruct H as [(a & expiry & H)|H]; [left|right; exact H].
    exists user, a, expiry. split; [reflexivity|exact H].
  - unfold upload_single in U. destruct (image req) as [f|]; [|discriminate].
    destruct (fileFilter f); [discriminate|].
    destruct (_ <=? _); discriminate.
  - cbn [fst snd]. destruct (run_throw env e w) as [msg ->]. cbn.
    repeat split. right. rewrite (upload_single_error req e U).
    split; [discriminate|reflexivity].
Qed.

(** [parseInt] reads a decimal numeral back. *)
Lemma digits_decimal (d : Decimal.uint) :
  forall (a : nat) (acc : option Z),
    match acc with Some z => z | None => 0 end = Z.of_nat a ->
    d <> Decimal.Nil ->
    digits 10 (NilEmpty.string_of_uint d) acc
    = Some (Z.of_nat (Nat.of_uint_acc d a)).
Proof.
  induction d as [|d IH|d IH|d IH|d IH|d IH|d IH|d IH|d IH|d IH|d IH];
    intros a acc Ha Hd; [contradiction|..];
    cbn [NilEmpty.string_of_uint digits Nat.of_uint_acc].
  all: match goal with
       | |- context [digit_val 10 ?c] =>
           let v := eval vm_compute in (digit_val 10 c) in
           change (digit_val 10 c) with v
       end.
  all: cbv iota beta.
  all: destruct d;
    [ cbn [NilEmpty.string_of_uint digits Nat.of_uint_acc]; f_equal;
      rewrite Nat.tail_mul_spec, Ha; lia
    | apply IH; [rewrite Nat.tail_mul_spec, Ha; lia|discriminate] .. ].
Qed.

Lemma parseInt_digits (d : Decimal.uint) :
  d <> Decimal.Nil ->
  parseInt (NilZero.string_of_uint d)
  = digits 10 (NilEmpty.string_of_uint d) None.
Proof.
  intros Hd. destruct d; [contradiction|..]; destruct d; reflexivity.
Qed.

Lemma parseInt_decimal (n : nat) :
  parseInt (NilZero.string_of_uint (Nat.to_uint n)) = Some (Z.of_nat n).
Proof.
  assert (Hd : Nat.to_uint n <> Decimal.Nil).
  { intros E. pose proof (DecimalNat.Unsigned.of_to n) as H. rewrite E in H.
    cbn in H. subst n. discriminate. }
  rewrite (parseInt_digits _ Hd), (digits_decimal _ 0%nat None eq_refl Hd).
  f_equal. f_equal. exact (DecimalNat.Unsigned.of_to n).
Qed.

(** C6. One request to the application either creates a Submission or
    leaves every Submission as it was or deleted. It creates one exactly
    when [POST /analysis] answers 201: the new row is appended, the
    configured retention is a number of days [parseInt] reads off
    DATA_RETENTION_DAYS (the number itself when the variable holds a
    decimal numeral, 365 with the shipped configuration), its scheduled
    expiry is the instant the handler read from the clock plus that many
    days, and its creation time is the instant the ORM read next. The
    expiry is therefore the creation time plus the retention, less the
    time between the two readings: exactly the creation time plus the
    retention when, and only when, both readings are the same
    millisecond. In every other case the analyses of the new world are
    rows of the old one, unchanged and in their order. With the variable
    unset no Submission is created at all. *)
Theorem submission_expiry_and_immutability (env : Env) {Store : Type}
  {store : RateStore Store} (route : Route) (req : Request)
  (s : Server Store) :
  let old := analyses (world s) in
  let new := analyses (world (fst (app env route req s))) in
  let r := snd (app env route req s) in
  ((route = POST_analysis /\ status r = 201
    /\ exists a days,
         new = old ++ [a]
         /\ Analysis.createdAt a = created req
         /\ parseInt (interpolate (DATA_RETENTION_DAYS (processEnv env)))
            = Some days
         /\ Analysis.scheduledDeletion a
            = Some (ValidDate (now req + days * (24 * 60 * 60 * 1000)))
         /\ Analysis.scheduledDeletion a
            = Some (ValidDate (Analysis.createdAt a
                               + days * (24 * 60 * 60 * 1000)
                               - (created req - now req)))
         /\ (Analysis.scheduledDeletion a
             = Some (ValidDate (Analysis.createdAt a
                                + days * (24 * 60 * 60 * 1000)))
             <-> created req = now req)
         /\ (forall n : nat,
               DATA_RETENTION_DAYS (processEnv env)
                 = Some (NilZero.string_of_uint (Nat.to_uint n)) ->
               days = Z.of_nat n)
         /\ (DATA_RETENTION_DAYS (processEnv env) = Some "365" ->
             Analysis.scheduledDeletion a
             = Some (ValidDate (now req + 31536000000))))
   \/ (~ (route = POST_analysis /\ status r = 201)
       /\ exists keep, new = filter keep old))
  /\ (DATA_RETENTION_DAYS (processEnv env) = None ->
      ~ (route = POST_analysis /\ status r = 201)).
Proof.
  intros old new r. subst old new r.
  assert (Core :
    (route = POST_analysis /\ status (snd (app env route req s)) = 201
     /\ exists a days,
          analyses (world (fst (app env route req s)))
            = analyses (world s) ++ [a]
          /\ Analysis.createdAt a = created req
          /\ parseInt (interpolate (DATA_RETENTION_DAYS (processEnv env)))
             = Some days
          /\ Analysis.scheduledDeletion a
             = Some (ValidDate (now req + days * (24 * 60 * 60 * 1000))))
    \/ (~ (route = POST_analysis /\ status (snd (app env route req s)) = 201)
        /\ exists keep,
             analyses (world (fst (app env route req s)))
             = filter keep (analyses (world s)))).
  { destruct (options_or_routed route) as [->|Nopt].
    { right. cbn. split; [intros [H _]; discriminate|apply only_deleted_refl]. }
    rewrite (app_routed env route req s Nopt).
    destruct (body_error req) as [refused|].
    { right.
      destruct (run_throw env (body_parser_error refused) (world s))
        as [msg E].
      rewrite E. cbn [fst snd world status res_status_json].
      split; [|now apply only_deleted_same].
      intros [_ H]. destruct refused; discriminate H. }
    unfold mounted.
    pose proof (rateLimit_outcome generalLimiter (generalStore s) None req) as L.
    destruct (rateLimit generalLimiter (generalStore s) None req) as [g o].
    cbn [snd] in L. destruct L as [L|L]; subst o.
    2:{ cbn. right. split; [intros [_ H]; discriminate|apply only_deleted_refl]. }
    assert (Plain : forall m : M Response,
               preserves analyses_only_deleted m ->
               route <> POST_analysis ->
               let out := (let '(w, r) := run env m (world s) in
                           (mkServer w g (authStore s) (analysisStore s), r)) in
               ~ (route = POST_analysis /\ status (snd out) = 201)
               /\ exists keep,
                    analyses (world (fst out)) = filter keep (analyses (world s))).
    { intros m Hm Hroute out. subst out.
      pose proof (preserves_run env _ only_deleted_refl only_deleted_trans
                    only_deleted_bookkeeping m Hm (world s)) as H.
      destruct (run env m (world s)) as [w1 r1]. cbn in *.
      split; [intros [E _]; contradiction|exact H]. }
    pose proof (plain_routes_only_delete env req) as
      (P1 & P2 & P3 & P4 & P5 & P6 & P7 & P8 & P9 & P10 & P11 & P12 & P13 & P14
       & P15 & P16 & P17 & P18).
    destruct route; try (right; apply Plain; [assumption|discriminate]).
    - (* POST /auth/register *)
      right. unfold post_auth_register.
      pose proof (preserves_limited env _ only_deleted_refl only_deleted_trans
                    only_deleted_bookkeeping authLimiter _ req (authStore s)
                    (register_handler_only_deletes env req) (world s)) as H.
      destruct (limited env authLimiter _ req (authStore s) (world s))
        as [a [w1 r1]]. cbn in *.
      split; [intros [E _]; discriminate|exact H].
    - (* POST /auth/login *)
      right. unfold post_auth_login.
      pose proof (preserves_limited env _ only_deleted_refl only_deleted_trans
                    only_deleted_bookkeeping authLimiter _ req (authStore s)
                    (login_handler_only_deletes env req) (world s)) as H.
      destruct (limited env authLimiter _ req (authStore s) (world s))
        as [a [w1 r1]]. cbn in *.
      split; [intros [E _]; discriminate|exact H].
    - (* POST /analysis *)
      pose proof (post_analysis_outcome env req (analysisStore s) (world s)) as H.
      cbv zeta in H.
      destruct (post_analysis env req (analysisStore s) (world s))
        as [a [w1 r1]]. cbn [fst snd world] in *.
      destruct H as (_ & _ & [(user & x & expiry & _ & Hx & Hd & _ & _ & _ & _
                                & Hc & Hs & ->)|[Hs Hx]]).
      + left. split; [reflexivity|]. split; [reflexivity|].
        destruct (expiry_valid env (now req) expiry Hd) as (days & Hp & ->).
        exists x, days. repeat split; auto.
      + right. split; [intros [_ E]; contradiction|].
        now apply only_deleted_same. }
  split.
  - destruct Core as [(Hr & Hs & a & days & Hn & Hc & Hp & Hd)|Hk];
      [left|right; exact Hk].
    split; [exact Hr|]. split; [exact Hs|].
    exists a, days. repeat (split; [assumption|]).
    split; [|split; [|split]].
    + rewrite Hd, Hc. do 2 f_equal. lia.
    + rewrite Hd, Hc. split.
      * intros E. injection E as E. lia.
      * intros ->. reflexivity.
    + intros n E. rewrite E in Hp. cbn [interpolate] in Hp.
      rewrite parseInt_decimal in Hp. now injection Hp as <-.
    + intros E. rewrite E in Hp. cbn in Hp. injection Hp as <-.
      rewrite Hd. reflexivity.
  - intros E [Hr Hs].
    destruct Core as [(_ & _ & a & days & _ & _ & Hp & _)|[Hk _]];
      [|apply Hk; now split].
    rewrite E in Hp. discriminate Hp.
Qed.

Example png_submission_created :
  snd (snd (post_analysis (Demo.env true true) Demo.png_submission
              (analysisStore Demo.server) Demo.world))
  = res_status_json 201 (BCreated "00000000-0000-4000-8000-000000000010" "{}" 1700000100000)
  /\ map Analysis.scheduledDeletion
         (analyses (fst (snd (post_analysis (Demo.env true true)
                                Demo.png_submission
                                (analysisStore Demo.server) Demo.world))))
     = [Some (ValidDate (1700000002000 + 31536000000));
        Some (ValidDate (1700000100000 + 31536000000))].
Proof. split; reflexivity. Qed.

(** ** Registration *)

Lemma find_app_none {A} (p : A -> bool) l a :
  find p l = None -> p a = true -> find p (l ++ [a]) = Some a.
Proof.
  intros Hn Ha. induction l as [|b l IH]; cbn in *.
  - now rewrite Ha.
  - destruct (p b); [discriminate|]. now apply IH.
Qed.

Lemma length_eqb_nil {A} (l : list A) :
  negb (length l =? 0)%nat = false <-> l = [].
Proof. destruct l; cbn; split; congruence. Qed.

(** A handler whose [catch] answers always returns. *)
Lemma try_catch_total {A} (m : M A) (h : Error -> M A) w :
  (forall e w', exists w'' a, h e w' = (w'', Ok a)) ->
  exists w' a, try_catch m h w = (w', Ok a).
Proof.
  intros Hh. unfold try_catch. destruct (m w) as [w' [a|e]]; eauto.
Qed.

Lemma register_handler_total env req w :
  exists w1 r, register_handler env req w = (w1, Ok r).
Proof.
  unfold register_handler. apply try_catch_total.
  intros e w'. do 2 eexists. reflexivity.
Qed.

(** A registration that is answered 201, step by step. *)
Lemma register_handler_created env req w r w1 :
  register_handler env req w = (w1, Ok r) ->
  status r = 201 ->
  exists plain,
    body req "password" = VStr plain
    /\ (8 <= Z.of_nat (String.length plain))
    /\ find (fun u => (User.email u
                       =? normalizeEmail env (toString (body req "email")))%string)
            (users w) = None
    /\ users w1 = users w ++ [registered_user env req plain (uuids w)]
    /\ analyses w1 = analyses w
    /\ r = registered_response env req (uuids w).
Proof.
  unfold register_handler, try_catch.
  destruct (negb (length (register_validators env req) =? 0)%nat) eqn:V.
  { cbn. intros E. injection E as <- <-. discriminate. }
  apply length_eqb_nil in V.
  unfold bind at 1, User_findOne, bind at 1, get, ret at 1.
  destruct (find _ (users w)) as [existing|] eqn:F.
  { cbn. intros E. injection E as <- <-. discriminate. }
  unfold bind at 1, User_create.
  destruct (negb (isEmail env _)) eqn:Em.
  { cbn. intros E. injection E as <- <-. discriminate. }
  destruct (body req "password") as [| | | |plain|] eqn:P;
    try (cbn; intros E; injection E as <- <-; discriminate).
  unfold bind at 1, get.
  destruct (existsb _ (users w)) eqn:Ex.
  { cbn. intros E. injection E as <- <-. discriminate. }
  assert (Hlen : 8 <= Z.of_nat (String.length plain)).
  { unfold register_validators in V. rewrite P in V. cbn [toString] in V.
    destruct (8 <=? Z.of_nat (String.length plain)) eqn:L.
    - now apply Z.leb_le.
    - unfold check at 2 in V. destruct (check "email" _); discriminate. }
  assert (Hne : negb (plain =? "")%string = true).
  { destruct plain; [cbn in Hlen; lia|reflexivity]. }
  unfold beforeCreate. rewrite Hne.
  cbn. intros E. injection E as <- <-. intros _.
  exists plain. repeat split; assumption.
Qed.

Lemma register_handler_duplicate env req w u :
  register_validators env req = [] ->
  find (fun r => (User.email r
                  =? normalizeEmail env (toString (body req "email")))%string)
       (users w) = Some u ->
  run env (register_handler env req) w
  = (w, res_status_json 400 (BError "Email already registered")).
Proof.
  intros V F. unfold run, register_handler, try_catch. rewrite V.
  cbn [length Nat.eqb negb].
  unfold bind at 1, User_findOne, bind at 1, get, ret at 1. rewrite F.
  reflexivity.
Qed.

(** C8. A registration answered 201 has stored one new account whose
    password column is the bcrypt hash (cost 12) of the submitted password
    and whose other columns do not depend on the password; the answer
    carries the identifier, the email, the premium flag and the two
    tokens, and no password. A later valid registration with the same
    (normalised) email, once past the limiter, is answered 400
    [Email already registered] and changes nothing. *)
Theorem registration_hashes_and_rejects_duplicate (env : Env) {Store : Type}
  {store : RateStore Store} (req : Request) (st : Store) (w : World) :
  status (snd (snd (post_auth_register env req st w))) = 201 ->
  exists plain,
    let w1 := fst (snd (post_auth_register env req st w)) in
    body req "password" = VStr plain
    /\ users w1 = users w ++ [registered_user env req plain (uuids w)]
    /\ User.password (registered_user env req plain (uuids w))
       = bcrypt_hash env plain 12
    /\ (forall other,
          User.with_password EmptyString (registered_user env req other (uuids w))
          = User.with_password EmptyString
              (registered_user env req plain (uuids w)))
    /\ snd (snd (post_auth_register env req st w))
       = registered_response env req (uuids w)
    /\ (forall (req2 : Request) (st2 : Store),
          register_validators env req2 = [] ->
          normalizeEmail env (toString (body req2 "email"))
            = normalizeEmail env (toString (body req "email")) ->
          snd (rateLimit authLimiter st2 None req2) = Next tt ->
          snd (post_auth_register env req2 st2 w1)
          = (w1, res_status_json 400 (BError "Email already registered"))).
Proof.
  unfold post_auth_register, limited.
  pose proof (rateLimit_outcome authLimiter st None req) as L.
  destruct (rateLimit authLimiter st None req) as [st' o].
  cbn [snd] in L. destruct L as [L|L]; subst o; [|discriminate].
  cbn [fst snd].
  destruct (register_handler_total env req w) as (w1 & r & H).
  assert (Erun : run env (register_handler env req) w = (w1, r))
    by (unfold run; now rewrite H).
  rewrite Erun. cbn [fst snd]. intros Hs.
  destruct (register_handler_created env req w r w1 H Hs)
    as (plain & P & Hlen & F & U & _ & R).
  exists plain. repeat split; try assumption.
  intros req2 st2 V2 E2 L2.
  destruct (rateLimit authLimiter st2 None req2) as [st2' o2].
  cbn [snd] in L2. subst o2. cbn [snd].
  apply (register_handler_duplicate env req2 w1
           (registered_user env req plain (uuids w)) V2).
  rewrite U, E2. apply find_app_none; [exact F|].
  cbn. apply String.eqb_refl.
Qed.

Lemma registration_hashes_and_rejects_duplicate_witness :
  status (snd (snd (post_auth_register (Demo.env true true) Demo.registration
                      (authStore Demo.server) Demo.world)))
  = 201
  /\ map User.password
         (users (fst (snd (post_auth_register (Demo.env true true)
                             Demo.registration (authStore Demo.server)
                             Demo.world))))
     = map User.password (users Demo.world)
       ++ [bcrypt_hash (Demo.env true true) "SecurePass123!" 12].
Proof.
  assert (Hs : status (snd (snd (post_auth_register (Demo.env true true)
                                   Demo.registration (authStore Demo.server)
                                   Demo.world)))
               = 201) by (vm_compute; reflexivity).
  split; [exact Hs|].
  destruct (registration_hashes_and_rejects_duplicate (Demo.env true true)
              Demo.registration (authStore Demo.server) Demo.world Hs)
    as (plain & P & U & H & _).
  rewrite U, map_app. cbn [map]. rewrite H.
  injection P as <-. reflexivity.
Defined.

(** ** The properties at concrete requests *)

Lemma consent_endpoint_rejects_essential_witness :
  authenticate (Demo.env true true) Demo.essential_consent Demo.world
    = Next Demo.alice
  /\ run (Demo.env true true)
         (post_gdpr_consent (Demo.env true true) Demo.essential_consent)
         Demo.world
     = (Demo.world, res_status_json 400 (BError "Invalid consent type")).
Proof.
  split; [reflexivity|].
  destruct (consent_endpoint_rejects_essential (Demo.env true true)
              Demo.essential_consent Demo.world) as (_ & _ & H & _).
  exact (H Demo.alice eq_refl eq_refl).
Defined.

Lemma submission_expiry_and_immutability_witness :
  status (snd (app (Demo.env true true) POST_analysis Demo.png_submission
                 Demo.server))
  = 201
  /\ map Analysis.scheduledDeletion
         (analyses (world (fst (app (Demo.env true true) POST_analysis
                                  Demo.png_submission Demo.server))))
     = map Analysis.scheduledDeletion (analyses Demo.world)
       ++ [Some (ValidDate (now Demo.png_submission + 31536000000))].
Proof.
  assert (Hs : status (snd (app (Demo.env true true) POST_analysis
                              Demo.png_submission Demo.server))
               = 201) by (vm_compute; reflexivity).
  split; [exact Hs|].
  pose proof (submission_expiry_and_immutability (Demo.env true true)
                POST_analysis Demo.png_submission Demo.server) as H.
  cbv zeta in H.
  destruct H as [[(_ & _ & a & days & Hnew & _ & _ & _ & _ & _ & _ & H365)
                 |[Hn _]] _].
  - rewrite Hnew, map_app. cbn [map]. rewrite (H365 eq_refl).
    reflexivity.
  - destruct Hn. split; [reflexivity|exact Hs].
Defined.

(** C6, where the two readings of the clock differ. Bob submits a PNG;
    the handler reads the instant 1700000100000 and the ORM stamps the row
    one millisecond later. The route answers 201; with a retention of 365
    days (31536000000 ms) the stored expiry is 1731536100000, the
    handler's reading plus the retention, while the creation time plus
    the retention is 1731536100001. *)
Theorem expiry_counts_from_handler_clock :
  DATA_RETENTION_DAYS (processEnv (Demo.env true true)) = Some "365"
  /\ now Demo.png_submission_stamped_late = 1700000100000
  /\ snd (app (Demo.env true true) POST_analysis
            Demo.png_submission_stamped_late Demo.server)
     = res_status_json 201
         (BCreated "00000000-0000-4000-8000-000000000010" "{}" 1700000100001)
  /\ map (fun a => (Analysis.createdAt a, Analysis.scheduledDeletion a))
         (analyses (world (fst (app (Demo.env true true) POST_analysis
                                  Demo.png_submission_stamped_late
                                  Demo.server))))
     = [(1700000002000, Some (ValidDate 1731536002000));
        (1700000100001, Some (ValidDate 1731536100000))]
  /\ 1700000100001 + 365 * (24 * 60 * 60 * 1000) = 1731536100001.
Proof. repeat split. Qed.

(** ** The submission quota *)

Lemma getClient_cons key client st key' :
  getClient ((key, client) :: st) key'
  = if (key =? key')%string then Some client else getClient st key'.
Proof.
  unfold getClient. cbn [find fst].
  destruct (key =? key')%string; reflexivity.
Qed.

Lemma getClient_filter key st key' :
  key' <> key ->
  getClient (filter (fun e => negb (fst e =? key)%string) st) key'
  = getClient st key'.
Proof.
  intros N. unfold getClient. induction st as [|[k c] st IH]; [reflexivity|].
  cbn [filter find fst].
  destruct (String.eqb_spec k key) as [->|Hk]; cbn [negb].
  - destruct (String.eqb_spec key key') as [E|_]; [now destruct N|exact IH].
  - cbn [find fst]. destruct (k =? key')%string; [reflexivity|exact IH].
Qed.

(** What the store holds after counting one more request of [key]: the
    key's current client with one more hit, every other key as before. *)
Lemma getClient_increment windowMs st key t key' :
  getClient (fst (memory_increment windowMs st key t)) key'
  = if (key =? key')%string
    then Some (mkClient (S (totalHits (currentClient windowMs st key t)))
                        (resetTime (currentClient windowMs st key t)))
    else getClient st key'.
Proof.
  unfold memory_increment. cbn [fst]. rewrite getClient_cons.
  destruct (String.eqb_spec key key') as [_|N]; [reflexivity|].
  apply getClient_filter. congruence.
Qed.

(** An open window: the client is the stored one. *)
Lemma currentClient_open windowMs st key t client :
  getClient st key = Some client -> t < resetTime client ->
  currentClient windowMs st key t = client.
Proof.
  intros G L. unfold currentClient. rewrite G.
  destruct (Z.leb_spec (resetTime client) t); [lia|reflexivity].
Qed.

(** No window or an ended one: a fresh client, whose window opens now. *)
Lemma currentClient_fresh windowMs st key t :
  (forall client, getClient st key = Some client -> resetTime client <= t) ->
  currentClient windowMs st key t = mkClient 0 (t + windowMs).
Proof.
  intros H. unfold currentClient.
  destruct (getClient st key) as [client|]; [|reflexivity].
  destruct (Z.leb_spec (resetTime client) t) as [_|L]; [reflexivity|].
  specialize (H client eq_refl). lia.
Qed.

(** The store after one submission: the limiter counted it exactly when
    the request came through authentication and the consent gate. *)
Lemma post_analysis_store env req (st : MemoryStore) w :
  fst (post_analysis env req st w)
  = match authenticate env req w with
    | Next user =>
        match requireGDPRConsent user with
        | Next _ =>
            fst (memory_increment (60 * 60 * 1000) st
                   (keyGenerator analysisLimiter (Some user) req) (now req))
        | _ => st
        end
    | _ => st
    end.
Proof.
  unfold post_analysis.
  destruct (authenticate env req w) as [user|r|e]; [|reflexivity|].
  2:{ now destruct (run env (throw e) w). }
  destruct (requireGDPRConsent user) as [[]|r|e]; [|reflexivity|].
  2:{ now destruct (run env (throw e) w). }
  unfold rateLimit. cbn [increment MemoryStore_RateStore].
  change (windowMs analysisLimiter) with (60 * 60 * 1000).
  destruct (memory_increment _ _ _ _) as [st' n]. cbn [fst].
  destruct (_ <? _)%nat; [reflexivity|].
  destruct (upload_single req) as [file|r|e]; [|reflexivity|].
  - now destruct (run env (create_analysis_handler env req user file) w).
  - now destruct (run env (throw e) w).
Qed.

(** The analysis limiter's store after one request to the application:
    only a submission that gets past the body parsers and the general
    limiter reaches the route that counts in it. *)
Lemma app_analysisStore env route req (s : Server MemoryStore) :
  analysisStore (fst (app env route req s))
  = match route, body_error req,
          snd (rateLimit generalLimiter (generalStore s) None req) with
    | POST_analysis, None, Next _ =>
        fst (post_analysis env req (analysisStore s) (world s))
    | _, _, _ => analysisStore s
    end.
Proof.
  destruct (options_or_routed route) as [->|Nopt]; [reflexivity|].
  rewrite (app_routed env route req s Nopt).
  destruct (body_error req) as [refused|].
  { destruct (run env (throw (body_parser_error refused)) (world s)).
    now destruct route. }
  unfold mounted.
  destruct (rateLimit generalLimiter (generalStore s) None req) as [g [[]|r|e]];
    cbn [snd].
  - destruct route; cbn [fst analysisStore];
      try (now destruct (run env _ (world s)));
      try (now destruct (post_auth_register env req (authStore s) (world s))
             as [a [w r]]);
      try (now destruct (post_auth_login env req (authStore s) (world s))
             as [a [w r]]).
    now destruct (post_analysis env req (analysisStore s) (world s))
      as [a [w r]].
  - now destruct route.
  - destruct (run env (throw e) (world s)). now destruct route.
Qed.

(** One request against an open window of [key]: the window stays, its
    count goes up by one exactly when the limiter counts the request under
    [key]. *)
Lemma serve_open_window env key n reset s x :
  getClient (analysisStore s) key = Some (mkClient n reset) ->
  now (snd x) < reset ->
  getClient (analysisStore (serve env s x)) key
  = Some (mkClient
            (n + if counted_under env key s (fst x) (snd x) then 1 else 0)
            reset).
Proof.
  intros G L. destruct x as [route req]. cbn [fst snd] in *.
  unfold serve. cbn [fst snd]. rewrite app_analysisStore.
  unfold counted_under.
  destruct route; try (rewrite G, Nat.add_0_r; reflexivity).
  destruct (body_error req); [rewrite G, Nat.add_0_r; reflexivity|].
  destruct (snd (rateLimit generalLimiter (generalStore s) None req))
    as [[]|r|e]; try (rewrite G, Nat.add_0_r; reflexivity).
  rewrite post_analysis_store.
  destruct (authenticate env req (world s)) as [user|r|e];
    try (rewrite G, Nat.add_0_r; reflexivity).
  destruct (requireGDPRConsent user) as [[]|r|e];
    try (rewrite G, Nat.add_0_r; reflexivity).
  rewrite getClient_increment.
  destruct (String.eqb_spec (keyGenerator analysisLimiter (Some user) req) key)
    as [->|N].
  - rewrite (currentClient_open _ _ _ _ _ G L). cbn [totalHits resetTime].
    now rewrite Nat.add_1_r.
  - now rewrite G, Nat.add_0_r.
Qed.

(** Requests served while a window of [key] is open: its count has gone
    up by the number of them the limiter counted under [key]. *)
Lemma served_open_window env key reset xs :
  forall n s,
    getClient (analysisStore s) key = Some (mkClient n reset) ->
    Forall (fun x => now (snd x) < reset) xs ->
    getClient (analysisStore (served env xs s)) key
    = Some (mkClient (n + counted env key xs s) reset).
Proof.
  induction xs as [|x xs IH]; intros n s G F.
  - cbn. now rewrite Nat.add_0_r.
  - inversion F as [|? ? L F']; subst.
    cbn [served fold_left counted].
    fold (served env xs (serve env s x)).
    rewrite (IH _ _ (serve_open_window env key n reset s x G L) F').
    now rewrite Nat.add_assoc.
Qed.

(** A submission that reaches the analysis limiter and is refused there:
    429, and the world as it was. *)
Lemma app_submission_limited env req (s : Server MemoryStore) user :
  body_error req = None ->
  snd (rateLimit generalLimiter (generalStore s) None req) = Next tt ->
  authenticate env req (world s) = Next user ->
  requireGDPRConsent user = Next tt ->
  snd (rateLimit analysisLimiter (analysisStore s) (Some user) req)
  = Respond (too_many analysisLimiter) ->
  snd (app env POST_analysis req s) = too_many analysisLimiter
  /\ world (fst (app env POST_analysis req s)) = world s.
Proof.
  intros B L A G R. rewrite app_routed by discriminate.
  rewrite B. unfold mounted.
  destruct (rateLimit generalLimiter (generalStore s) None req) as [g o].
  cbn [snd] in L. subst o. unfold post_analysis. rewrite A, G.
  destruct (rateLimit analysisLimiter (analysisStore s) (Some user) req)
    as [a o].
  cbn [snd] in R. subst o. split; reflexivity.
Qed.

(** C5. The analysis limiter counts per account identifier (per network
    address for a request without a user) in fixed windows of one hour,
    with a quota of 50 for a premium account and 5 otherwise; it counts
    the submissions that get past the body parsers, the general limiter,
    authentication and the consent gate. Take a submission that is
    counted for an account and opens a window of it (the store holds no
    window of the account, or one that has ended), then any requests to
    any routes, and then a submission of the same account that gets as
    far as the limiter, all served before the window ends one hour after
    the first. The limiter has then counted for the account exactly the
    requests it counted under the account's identifier, the first
    included. When that count has reached the quota, the last submission
    is answered 429 with the limiter's message and nothing else happens:
    the world is unchanged whatever the request carries, so neither image
    validation nor any later step of the pipeline runs. When the count is
    below the quota the limiter lets the submission through. A submission
    of the account at or after the end of the window opens a new window
    and is let through by the limiter, whatever was counted before. *)
Theorem submission_over_quota_rejected (env : Env) (first : Request)
  (later : list (Route * Request)) (req : Request) (s : Server MemoryStore)
  (user : User.t) :
  let s' := served env ((POST_analysis, first) :: later) s in
  let made := counted env (User.id user) ((POST_analysis, first) :: later) s in
  counted_under env (User.id user) s POST_analysis first = true ->
  (forall client, getClient (analysisStore s) (User.id user) = Some client ->
                  resetTime client <= now first) ->
  Forall (fun x => now (snd x) < now first + 60 * 60 * 1000) later ->
  now req < now first + 60 * 60 * 1000 ->
  body_error req = None ->
  snd (rateLimit generalLimiter (generalStore s') None req) = Next tt ->
  authenticate env req (world s') = Next user ->
  requireGDPRConsent user = Next tt ->
  User.id user <> EmptyString ->
  hits (60 * 60 * 1000) (analysisStore s') (User.id user) (now req) = made
  /\ (1 <= made)%nat
  /\ ((quota user <= made)%nat ->
      snd (app env POST_analysis req s')
      = mkResponse 429
          (BText "Analysis limit reached. Upgrade to Premium for more analyses.")
      /\ world (fst (app env POST_analysis req s')) = world s')
  /\ ((made < quota user)%nat ->
      snd (rateLimit analysisLimiter (analysisStore s') (Some user) req)
      = Next tt)
  /\ (forall req',
        now first + 60 * 60 * 1000 <= now req' ->
        snd (rateLimit analysisLimiter (analysisStore s') (Some user) req')
        = Next tt)
  /\ max analysisLimiter (Some user) = quota user
  /\ keyGenerator analysisLimiter (Some user) req = User.id user
  /\ keyGenerator analysisLimiter None req = ip req
  /\ windowMs analysisLimiter = 60 * 60 * 1000.
Proof.
  intros s' made C1 Hfresh F Lreq B Lg A G Hid.
  assert (K : forall r, keyGenerator analysisLimiter (Some user) r
                        = User.id user).
  { intros r. cbn. destruct (User.id user =? "")%string eqn:E; [|reflexivity].
    apply String.eqb_eq in E. contradiction. }
  (* the first submission opens the window *)
  assert (G1 : getClient (analysisStore (serve env s (POST_analysis, first)))
                 (User.id user)
               = Some (mkClient 1 (now first + 60 * 60 * 1000))).
  { unfold serve. cbn [fst snd]. rewrite app_analysisStore.
    unfold counted_under in C1.
    destruct (body_error first); [discriminate|].
    destruct (snd (rateLimit generalLimiter (generalStore s) None first))
      as [[]|r|e]; try discriminate.
    rewrite post_analysis_store.
    destruct (authenticate env first (world s)) as [u|r|e]; try discriminate.
    destruct (requireGDPRConsent u) as [[]|r|e]; try discriminate.
    apply String.eqb_eq in C1. rewrite C1.
    rewrite getClient_increment, String.eqb_refl.
    now rewrite (currentClient_fresh _ _ _ _ Hfresh). }
  pose proof (served_open_window env (User.id user) _ later 1
                (serve env s (POST_analysis, first)) G1 F) as Gn.
  assert (M : made = (1 + counted env (User.id user) later
                            (serve env s (POST_analysis, first)))%nat).
  { unfold made. cbn [counted fst snd]. now rewrite C1. }
  rewrite <- M in Gn.
  change (served env later (serve env s (POST_analysis, first))) with s' in Gn.
  assert (H : hits (60 * 60 * 1000) (analysisStore s') (User.id user) (now req)
              = made).
  { cbn [hits MemoryStore_RateStore]. unfold memory_hits.
    now rewrite (currentClient_open _ _ _ _ _ Gn Lreq). }
  split; [exact H|]. split; [lia|].
  split; [|split; [|split]].
  - intros Q. apply (app_submission_limited env req s' user B Lg A G).
    rewrite (rateLimit_over analysisLimiter (analysisStore s') (Some user) req);
      [reflexivity|].
    rewrite K. change (windowMs analysisLimiter) with (60 * 60 * 1000).
    rewrite H. exact Q.
  - intros Q.
    rewrite (rateLimit_under analysisLimiter (analysisStore s') (Some user) req);
      [reflexivity|].
    rewrite K. change (windowMs analysisLimiter) with (60 * 60 * 1000).
    rewrite H. exact Q.
  - intros req' L.
    rewrite (rateLimit_under analysisLimiter (analysisStore s') (Some user)
               req'); [reflexivity|].
    rewrite K. change (windowMs analysisLimiter) with (60 * 60 * 1000).
    cbn [hits MemoryStore_RateStore]. unfold memory_hits, currentClient.
    rewrite Gn. cbn [resetTime].
    destruct (Z.leb_spec (now first + 60 * 60 * 1000) (now req')); [|lia].
    cbn. destruct (User.isPremium user); lia.
  - repeat split; try reflexivity. apply K.
Qed.

Lemma submission_over_quota_rejected_witness :
  counted_under (Demo.env true true) (User.id Demo.bob) Demo.server
    POST_analysis Demo.bob_opens
  = true
  /\ authenticate (Demo.env true true)
       (Demo.png_submission_at (Demo.minute 50))
       (world (served (Demo.env true true)
                 ((POST_analysis, Demo.bob_opens) :: Demo.bob_same_window)
                 Demo.server))
     = Next Demo.bob
  /\ counted (Demo.env true true) (User.id Demo.bob)
       ((POST_analysis, Demo.bob_opens) :: Demo.bob_same_window) Demo.server
     = quota Demo.bob
  /\ length (analyses
               (world (served (Demo.env true true)
                         ((POST_analysis, Demo.bob_opens)
                          :: Demo.bob_same_window)
                         Demo.server)))
     = 6%nat
  /\ snd (app (Demo.env true true) POST_analysis
            (Demo.png_submission_at (Demo.minute 50))
            (served (Demo.env true true)
               ((POST_analysis, Demo.bob_opens) :: Demo.bob_same_window)
               Demo.server))
     = mkResponse 429
         (BText "Analysis limit reached. Upgrade to Premium for more analyses.").
Proof.
  assert (C1 : counted_under (Demo.env true true) (User.id Demo.bob)
                 Demo.server POST_analysis Demo.bob_opens
               = true) by (vm_compute; reflexivity).
  assert (A : authenticate (Demo.env true true)
                (Demo.png_submission_at (Demo.minute 50))
                (world (served (Demo.env true true)
                          ((POST_analysis, Demo.bob_opens)
                           :: Demo.bob_same_window)
                          Demo.server))
              = Next Demo.bob) by (vm_compute; reflexivity).
  assert (M : counted (Demo.env true true) (User.id Demo.bob)
                ((POST_analysis, Demo.bob_opens) :: Demo.bob_same_window)
                Demo.server
              = quota Demo.bob) by (vm_compute; reflexivity).
  split; [exact C1|]. split; [exact A|]. split; [exact M|].
  split; [vm_compute; reflexivity|].
  assert (Hid : User.id Demo.bob <> EmptyString) by discriminate.
  assert (Hfresh : forall client,
             getClient (analysisStore Demo.server) (User.id Demo.bob)
             = Some client ->
             resetTime client <= now Demo.bob_opens) by discriminate.
  assert (F : Forall (fun x => now (snd x)
                               < now Demo.bob_opens + 60 * 60 * 1000)
                Demo.bob_same_window).
  { repeat constructor; vm_compute; reflexivity. }
  assert (Lreq : now (Demo.png_submission_at (Demo.minute 50))
                 < now Demo.bob_opens + 60 * 60 * 1000)
    by (vm_compute; reflexivity).
  assert (Lg : snd (rateLimit generalLimiter
                      (generalStore
                         (served (Demo.env true true)
                            ((POST_analysis, Demo.bob_opens)
                             :: Demo.bob_same_window)
                            Demo.server))
                      None (Demo.png_submission_at (Demo.minute 50)))
               = Next tt) by (vm_compute; reflexivity).
  destruct (submission_over_quota_rejected (Demo.env true true)
              Demo.bob_opens Demo.bob_same_window
              (Demo.png_submission_at (Demo.minute 50)) Demo.server
              Demo.bob C1 Hfresh F Lreq eq_refl Lg A eq_refl Hid)
    as (_ & _ & H & _).
  exact (proj1 (H (Nat.eq_le_incl _ _ (eq_sym M)))).
Defined.

(** C5, where the rolling hour fails. Bob, on the free tier (quota 5),
    submits at minute 0, which opens his window, and again at minutes 56,
    57, 58, 59 and 61: every one is counted and answered 201, the one at
    minute 61 opening a new window. His submission at minute 62 then
    arrives with five submissions of his in the hour before it, the quota
    of his tier, and is answered 201 with a new analysis stored, not 429:
    only the one submission of the new window counts against it. *)
Theorem rolling_hour_not_enforced :
  quota Demo.bob = 5%nat
  /\ authenticate (Demo.env true true)
       (Demo.png_submission_at (Demo.minute 62))
       (world (served (Demo.env true true)
                 ((POST_analysis, Demo.bob_opens) :: Demo.bob_recent)
                 Demo.server))
     = Next Demo.bob
  /\ forallb (fun x =>
                (now (Demo.png_submission_at (Demo.minute 62))
                 - 60 * 60 * 1000 <? now (snd x))
                && (now (snd x)
                    <? now (Demo.png_submission_at (Demo.minute 62))))
       Demo.bob_recent
     = true
  /\ counted (Demo.env true true) (User.id Demo.bob) Demo.bob_recent
       (served (Demo.env true true) [(POST_analysis, Demo.bob_opens)]
          Demo.server)
     = 5%nat
  /\ length (analyses
               (world (served (Demo.env true true)
                         ((POST_analysis, Demo.bob_opens) :: Demo.bob_recent)
                         Demo.server)))
     = 7%nat
  /\ hits (60 * 60 * 1000)
       (analysisStore
          (served (Demo.env true true)
             ((POST_analysis, Demo.bob_opens) :: Demo.bob_recent)
             Demo.server))
       (User.id Demo.bob) (now (Demo.png_submission_at (Demo.minute 62)))
     = 1%nat
  /\ status (snd (app (Demo.env true true) POST_analysis
                    (Demo.png_submission_at (Demo.minute 62))
                    (served (Demo.env true true)
                       ((POST_analysis, Demo.bob_opens) :: Demo.bob_recent)
                       Demo.server)))
     = 201
  /\ length (analyses
               (world (fst (app (Demo.env true true) POST_analysis
                              (Demo.png_submission_at (Demo.minute 62))
                              (served (Demo.env true true)
                                 ((POST_analysis, Demo.bob_opens)
                                  :: Demo.bob_recent)
                                 Demo.server)))))
     = 8%nat.
Proof. repeat split; vm_compute; reflexivity. Qed.

(** ** Billing events, at concrete events *)

Lemma subscription_events_keep_invariant_witness :
  Forall premium_iff_active (users Demo.world)
  /\ Forall premium_iff_active
       (users (fst (dispatch
                      (mkStripeEvent "customer.subscription.updated" "sub_1"
                                     "cus_1" "past_due")
                      Demo.world))).
Proof.
  assert (H : Forall premium_iff_active (users Demo.world)).
  { repeat constructor. }
  split; [exact H|].
  apply subscription_events_keep_invariant; [discriminate|exact H].
Defined.

(** X2. An event of a kind the switch does not list is ignored: nothing
    is read or written, and nothing is thrown. *)
Lemma unknown_event_ignored (ev : StripeEvent) (w : World) :
  ~ In (ev_type ev)
       ["customer.subscription.created"; "customer.subscription.updated";
        "customer.subscription.deleted"; "invoice.payment_failed"] ->
  dispatch ev w = (w, Ok tt).
Proof.
  intros H. unfold dispatch.
  destruct (ev_type ev =? "customer.subscription.created")%string eqn:E1.
  { apply String.eqb_eq in E1. destruct H. rewrite E1. cbn. auto. }
  destruct (ev_type ev =? "customer.subscription.updated")%string eqn:E2.
  { apply String.eqb_eq in E2. destruct H. rewrite E2. cbn. auto. }
  destruct (ev_type ev =? "customer.subscription.deleted")%string eqn:E3.
  { apply String.eqb_eq in E3. destruct H. rewrite E3. cbn. auto. }
  destruct (ev_type ev =? "invoice.payment_failed")%string eqn:E4.
  { apply String.eqb_eq in E4. destruct H. rewrite E4. cbn. tauto. }
  reflexivity.
Qed.

Lemma unknown_event_ignored_witness :
  dispatch (mkStripeEvent "charge.succeeded" "ch_1" "cus_1" "succeeded")
           Demo.world
  = (Demo.world, Ok tt).
Proof.
  apply unknown_event_ignored. cbn.
  intros [H|[H|[H|[H|[]]]]]; discriminate.
Defined.

(* ================================================================== *)
(** * Further properties of the routes *)
(* ================================================================== *)

(** ** Relations on the users table, through every route

    A relation between worlds that only looks at the users table and is
    kept by the account updates and deletions of the client routes is kept
    by every request to the application, once the registration and
    webhook routes are accounted for. *)

Section UsersRelations.

Variable env : Env.
Variable R : World -> World -> Prop.
Hypothesis R_refl : forall w, R w w.
Hypothesis R_trans : forall a b c, R a b -> R b c -> R a c.
Hypothesis R_same_users : forall w w', users w' = users w -> R w w'.
Hypothesis R_update :
  forall user c, client_changes c -> preserves R (User_update user c).
Hypothesis R_destroy : forall user, preserves R (User_destroy user).

Let R_bookkeeping :
  forall w c l n, R w (mkWorld (users w) (analyses w) (consents w) c l n).
Proof. intros. now apply R_same_users. Qed.

Lemma users_relation_modify f :
  (forall w, users (f w) = users w) -> preserves R (modify f).
Proof. intros H w. apply R_same_users. cbn. apply H. Qed.

Ltac walk_users :=
  repeat first
    [ frame_step
    | apply R_destroy
    | apply R_update; repeat split; reflexivity
    | apply users_relation_modify; intros; reflexivity
    | apply preserves_authenticated; [assumption..|intros]
    | match goal with
      | |- preserves _ (if ?b then _ else _) => destruct b
      end
    | progress unfold logConsent, comparePassword, update_consent_column,
        deleteImage, deleteUserImages, uploadImage, analyzeImage, validateImage,
        createCustomer, createCheckoutSession, cancelSubscription,
        Analysis_destroy, Analysis_destroy_where, Analysis_findOne,
        Analysis_findOne_owned,
        Analysis_findAll, Analysis_create, Consent_findAll, Consent_create,
        Consent_destroy_where, User_findOne,
        delete_account_handler, schedule_deletion_handler,
        cancel_deletion_handler ].

Lemma client_handlers_keep req :
  preserves R (login_handler env req)
  /\ (forall user file, preserves R (create_analysis_handler env req user file))
  /\ preserves R (get_health req)
  /\ preserves R (post_auth_refresh req)
  /\ preserves R (post_auth_logout env req)
  /\ preserves R (get_auth_me env req)
  /\ preserves R (get_analyses env req)
  /\ preserves R (get_analysis env req)
  /\ preserves R (delete_analysis env req)
  /\ preserves R (post_subscription_create_checkout env req)
  /\ preserves R (get_subscription_status env req)
  /\ preserves R (post_subscription_cancel env req)
  /\ preserves R (post_gdpr_consent env req)
  /\ preserves R (get_gdpr_consents env req)
  /\ preserves R (post_gdpr_export env req)
  /\ preserves R (post_gdpr_delete_account env req)
  /\ preserves R (post_gdpr_schedule_deletion env req)
  /\ preserves R (post_gdpr_cancel_deletion env req)
  /\ preserves R not_found.
Proof.
  unfold login_handler, create_analysis_handler, get_health, post_auth_refresh,
    post_auth_logout, get_auth_me, get_analyses, get_analysis, delete_analysis,
    post_subscription_create_checkout, get_subscription_status,
    post_subscription_cancel, post_gdpr_consent, get_gdpr_consents,
    post_gdpr_export, post_gdpr_delete_account, post_gdpr_schedule_deletion,
    post_gdpr_cancel_deletion, not_found.
  repeat split; intros; walk_users.
Qed.

Lemma post_analysis_keeps {Store : Type} {store : RateStore Store} req
  (st : Store) w :
  R w (fst (snd (post_analysis env req st w))).
Proof.
  unfold post_analysis.
  destruct (authenticate env req w) as [user|r|e]; cbn [fst snd];
    [|apply R_refl|apply (preserves_run env R R_refl R_trans R_bookkeeping),
                     preserves_throw, R_refl].
  destruct (requireGDPRConsent user) as [u|r|e]; cbn [fst snd];
    [|apply R_refl|apply (preserves_run env R R_refl R_trans R_bookkeeping),
                     preserves_throw, R_refl].
  destruct (rateLimit analysisLimiter st (Some user) req) as [st' [u'|r|e]];
    cbn [fst snd];
    [|apply R_refl|apply (preserves_run env R R_refl R_trans R_bookkeeping),
                     preserves_throw, R_refl].
  destruct (upload_single req) as [file|r|e]; cbn [fst snd];
    [|apply R_refl|apply (preserves_run env R R_refl R_trans R_bookkeeping),
                     preserves_throw, R_refl].
  apply (preserves_run env R R_refl R_trans R_bookkeeping).
  apply (client_handlers_keep req).
Qed.

(** One request to the application keeps [R], given that the registration
    handler and the webhook route keep it when they are the route. *)
Lemma users_relation_app {Store : Type} {store : RateStore Store}
  (route : Route) (req : Request) (s : Server Store) :
  (route = POST_auth_register -> preserves R (register_handler env req)) ->
  (route = POST_subscription_webhook ->
   preserves R (post_subscription_webhook env req)) ->
  R (world s) (world (fst (app env route req s))).
Proof.
  intros Hreg Hhook.
  destruct (options_or_routed route) as [->|Nopt]; [apply R_refl|].
  rewrite (app_routed env route req s Nopt).
  destruct (body_error req) as [refused|].
  { pose proof (preserves_run env R R_refl R_trans R_bookkeeping
                  (throw (body_parser_error refused))
                  (preserves_throw R R_refl _) (world s)) as H.
    destruct (run env (throw (body_parser_error refused)) (world s)).
    exact H. }
  unfold mounted.
  destruct (rateLimit generalLimiter (generalStore s) None req) as [g [u|r|e]].
  2:{ cbn. apply R_refl. }
  2:{ pose proof (preserves_run env R R_refl R_trans R_bookkeeping (throw e)
                    (preserves_throw R R_refl e) (world s)) as H.
      destruct (run env (throw e) (world s)). exact H. }
  assert (Plain : forall m : M Response,
             preserves R m ->
             R (world s)
               (world (fst (let '(w, r) := run env m (world s) in
                            (mkServer w g (authStore s) (analysisStore s), r))))).
  { intros m Hm.
    pose proof (preserves_run env R R_refl R_trans R_bookkeeping m Hm (world s))
      as H.
    destruct (run env m (world s)). exact H. }
  pose proof (client_handlers_keep req) as
    (Hlogin & Hcreate & P1 & P2 & P3 & P4 & P5 & P6 & P7 & P8 & P9 & P10 & P12
     & P13 & P14 & P15 & P16 & P17 & P18).
  destruct route; try (apply Plain; assumption).
  - unfold post_auth_register.
    pose proof (preserves_limited env R R_refl R_trans R_bookkeeping authLimiter
                  _ req (authStore s) (Hreg eq_refl) (world s)) as H.
    destruct (limited env authLimiter _ req (authStore s) (world s))
      as [a [w1 r1]]. exact H.
  - unfold post_auth_login.
    pose proof (preserves_limited env R R_refl R_trans R_bookkeeping authLimiter
                  _ req (authStore s) Hlogin (world s)) as H.
    destruct (limited env authLimiter _ req (authStore s) (world s))
      as [a [w1 r1]]. exact H.
  - pose proof (post_analysis_keeps req (analysisStore s) (world s)) as H.
    destruct (post_analysis env req (analysisStore s) (world s))
      as [a [w1 r1]]. exact H.
  - apply Plain. now apply Hhook.
Qed.

End UsersRelations.

(** ** Registration, in every outcome *)

Lemma toString_true_truthy v : toString v = "true" -> truthy v = true.
Proof.
  destruct v as [| |b|n|s|]; cbn; try discriminate.
  - destruct b; [reflexivity|discriminate].
  - unfold NilZero.string_of_int.
    destruct (Z.to_int n) as [d|d]; [|discriminate].
    destruct d; cbn; discriminate.
  - intros ->. reflexivity.
Qed.

Lemma register_validators_pass env req :
  register_validators env req = [] ->
  8 <= Z.of_nat (String.length (toString (body req "password")))
  /\ truthy (body req "gdprConsent") = true.
Proof.
  unfold register_validators, check. intros V.
  destruct (isEmail env _); [|discriminate].
  destruct (8 <=? _) eqn:L; [|discriminate].
  destruct (_ =? "true")%string eqn:G; [|discriminate].
  split; [now apply Z.leb_le|].
  apply toString_true_truthy. now apply String.eqb_eq.
Qed.

(** The users table after the registration handler: as before, or with
    the one new account of a request that passed validation and whose
    email was not yet taken. *)
Lemma register_handler_users env req w :
  exists w1 res,
    register_handler env req w = (w1, res)
    /\ (users w1 = users w
        \/ exists plain,
             body req "password" = VStr plain
             /\ 8 <= Z.of_nat (String.length plain)
             /\ truthy (body req "gdprConsent") = true
             /\ find (fun u => (User.email u
                                =? normalizeEmail env
                                     (toString (body req "email")))%string)
                     (users w) = None
             /\ users w1 = users w ++ [registered_user env req plain (uuids w)]).
Proof.
  unfold register_handler, try_catch.
  destruct (negb (length (register_validators env req) =? 0)%nat) eqn:V.
  { do 2 eexists. split; [reflexivity|]. left. reflexivity. }
  apply length_eqb_nil in V.
  unfold bind at 1, User_findOne, bind at 1, get, ret at 1.
  destruct (find _ (users w)) as [existing|] eqn:F.
  { do 2 eexists. split; [reflexivity|]. left. reflexivity. }
  unfold bind at 1, User_create.
  destruct (negb (isEmail env _)) eqn:Em.
  { do 2 eexists. split; [reflexivity|]. left. reflexivity. }
  destruct (body req "password") as [| | | |plain|] eqn:P;
    try (do 2 eexists; split; [reflexivity|]; left; reflexivity).
  unfold bind at 1, get.
  destruct (existsb _ (users w)) eqn:Ex.
  { do 2 eexists. split; [reflexivity|]. left. reflexivity. }
  destruct (register_validators_pass env req V) as [Hlen Hg].
  rewrite P in Hlen. cbn [toString] in Hlen.
  assert (Hne : negb (plain =? "")%string = true).
  { destruct plain; [cbn in Hlen; lia|reflexivity]. }
  unfold beforeCreate. rewrite Hne.
  do 2 eexists. split; [reflexivity|]. right. exists plain.
  repeat split; assumption.
Qed.

(** The webhook route keeps a relation on the users table that every
    account update keeps. *)
Section WebhookRelations.

Variable env : Env.
Variable R : World -> World -> Prop.
Hypothesis R_refl : forall w, R w w.
Hypothesis R_trans : forall a b c, R a b -> R b c -> R a c.
Hypothesis R_same_users : forall w w', users w' = users w -> R w w'.
Hypothesis R_update : forall user c, preserves R (User_update user c).

Lemma webhook_route_keeps req : preserves R (post_subscription_webhook env req).
Proof.
  assert (R_bookkeeping :
            forall w c l n,
              R w (mkWorld (users w) (analyses w) (consents w) c l n))
    by (intros; now apply R_same_users).
  unfold post_subscription_webhook, handleWebhook, dispatch,
    updateSubscriptionStatus, handleSubscriptionDeleted, handlePaymentFailed,
    User_findOne.
  repeat first
    [ frame_step
    | apply R_update
    | match goal with
      | |- preserves _ (if ?b then _ else _) => destruct b
      end ].
Qed.

End WebhookRelations.

(** ** What no route does to an account *)

Lemma apply_keeps_credentials c r : credentials (User.apply c r) = credentials r.
Proof. reflexivity. Qed.

Lemma apply_keeps_billing c r :
  client_changes c -> billing (User.apply c r) = billing r.
Proof.
  intros (Hp & Hs & Hsub). unfold billing, User.apply. cbn.
  now rewrite Hp, Hs, Hsub.
Qed.

Section UsersExtended.

Variable A : Type.
Variable proj : User.t -> A.
Variable P : A -> Prop.

Let R := users_extended proj P.

Lemma users_extended_refl w : R w w.
Proof. intros u Hu. left. eauto. Qed.

Lemma users_extended_trans a b c : R a b -> R b c -> R a c.
Proof.
  intros Hab Hbc u Hu. destruct (Hbc u Hu) as [(v & Hv & E)|HP]; [|now right].
  destruct (Hab v Hv) as [(x & Hx & E')|HP].
  - left. exists x. split; [exact Hx|congruence].
  - right. now rewrite <- E.
Qed.

Lemma users_extended_same w w' : users w' = users w -> R w w'.
Proof. intros E u Hu. rewrite E in Hu. left. eauto. Qed.

Lemma users_extended_update user c :
  (forall r, proj (User.apply c r) = proj r) ->
  preserves R (User_update user c).
Proof.
  intros Hc w. unfold User_update.
  destruct (match User.set_subscriptionStatus c with
            | Some s => _ | None => _ end); cbn;
    [|apply users_extended_refl].
  intros u Hu. apply in_map_iff in Hu. destruct Hu as (r & <- & Hr).
  left. exists r. split; [exact Hr|].
  destruct (User.id r =? User.id user)%string; [now rewrite Hc|reflexivity].
Qed.

Lemma users_extended_destroy user : preserves R (User_destroy user).
Proof.
  intros w u Hu. cbn in Hu. apply filter_In in Hu. left. exists u. tauto.
Qed.

End UsersExtended.

(** X3. Whatever the request and the route, every account of the world
    after it has the identifier, email and password column of an account
    before it, or is a new account whose password column is the bcrypt
    hash, cost 12, of a password of at least eight characters: no route
    rewrites credentials, and none stores a password unhashed. *)
Theorem credentials_kept_or_hashed (env : Env) {Store : Type}
  {store : RateStore Store} (route : Route) (req : Request)
  (s : Server Store) :
  forall u',
    In u' (users (world (fst (app env route req s)))) ->
    (exists u,
       In u (users (world s))
       /\ User.id u = User.id u'
       /\ User.email u = User.email u'
       /\ User.password u = User.password u')
    \/ (exists plain,
          8 <= Z.of_nat (String.length plain)
          /\ User.password u' = bcrypt_hash env plain 12).
Proof.
  assert (H : users_extended credentials (hashed env) (world s)
                (world (fst (app env route req s)))).
  { apply users_relation_app.
    - apply users_extended_refl.
    - apply users_extended_trans.
    - apply users_extended_same.
    - intros user c _. apply users_extended_update. intros r. reflexivity.
    - apply users_extended_destroy.
    - intros _ w.
      destruct (register_handler_users env req w)
        as (w1 & res & -> & [E|(plain & _ & Hlen & _ & _ & E)]); cbn [fst].
      + now apply users_extended_same.
      + intros u Hu. rewrite E in Hu. apply in_app_or in Hu.
        destruct Hu as [Hu|[<-|[]]].
        * left. eauto.
        * right. exists plain. split; [exact Hlen|reflexivity].
    - intros _. apply webhook_route_keeps.
      + apply users_extended_refl.
      + apply users_extended_trans.
      + apply users_extended_same.
      + intros user c. apply users_extended_update. intros r. reflexivity. }
  intros u' Hu'. destruct (H u' Hu') as [(u & Hu & E)|(plain & Hl & E)].
  - left. exists u. unfold credentials in E. injection E as E1 E2 E3. auto.
  - right. exists plain. auto.
Qed.

Lemma credentials_kept_or_hashed_witness :
  In (registered_user (Demo.env true true) Demo.registration "SecurePass123!" 10)
     (users (world (fst (app (Demo.env true true) POST_auth_register
                           Demo.registration Demo.server))))
  /\ exists plain,
       8 <= Z.of_nat (String.length plain)
       /\ User.password
            (registered_user (Demo.env true true) Demo.registration
               "SecurePass123!" 10)
          = bcrypt_hash (Demo.env true true) plain 12.
Proof.
  assert (Hin : In (registered_user (Demo.env true true) Demo.registration
                      "SecurePass123!" 10)
                   (users (world (fst (app (Demo.env true true)
                                         POST_auth_register Demo.registration
                                         Demo.server)))))
    by (vm_compute; tauto).
  split; [exact Hin|].
  destruct (credentials_kept_or_hashed (Demo.env true true) POST_auth_register
              Demo.registration Demo.server _ Hin)
    as [(u & Hu & Hid & _)|H]; [|exact H].
  destruct Hu as [<-|[<-|[]]]; discriminate.
Defined.

(** X4. Only the Stripe webhook touches the billing columns. After a
    request to any other route, every account has the premium flag, the
    subscription status and the subscription reference of the account
    with its identifier before the request, or is a new account: not
    premium, [inactive], without subscription. *)
Theorem billing_only_by_webhook (env : Env) {Store : Type}
  {store : RateStore Store} (route : Route) (req : Request)
  (s : Server Store) :
  route <> POST_subscription_webhook ->
  forall u',
    In u' (users (world (fst (app env route req s)))) ->
    (exists u,
       In u (users (world s))
       /\ User.id u = User.id u'
       /\ User.isPremium u = User.isPremium u'
       /\ User.subscriptionStatus u = User.subscriptionStatus u'
       /\ User.stripeSubscriptionId u = User.stripeSubscriptionId u')
    \/ (User.isPremium u' = false
        /\ User.subscriptionStatus u' = "inactive"
        /\ User.stripeSubscriptionId u' = None).
Proof.
  intros Hroute.
  assert (H : users_extended billing unsubscribed (world s)
                (world (fst (app env route req s)))).
  { apply users_relation_app.
    - apply users_extended_refl.
    - apply users_extended_trans.
    - apply users_extended_same.
    - intros user c Hc. apply users_extended_update. intros r.
      now apply apply_keeps_billing.
    - apply users_extended_destroy.
    - intros _ w.
      destruct (register_handler_users env req w)
        as (w1 & res & -> & [E|(plain & _ & _ & _ & _ & E)]); cbn [fst].
      + now apply users_extended_same.
      + intros u Hu. rewrite E in Hu. apply in_app_or in Hu.
        destruct Hu as [Hu|[<-|[]]].
        * left. eauto.
        * right. cbn. auto.
    - intros E. contradiction. }
  intros u' Hu'. destruct (H u' Hu') as [(u & Hu & E)|HP].
  - left. exists u. unfold billing in E. injection E as E1 E2 E3 E4. auto.
  - right. exact HP.
Qed.

Lemma billing_only_by_webhook_witness :
  POST_gdpr_schedule_deletion <> POST_subscription_webhook
  /\ Forall
       (fun u' =>
          (exists u,
             In u (users Demo.world)
             /\ User.id u = User.id u'
             /\ User.isPremium u = User.isPremium u'
             /\ User.subscriptionStatus u = User.subscriptionStatus u'
             /\ User.stripeSubscriptionId u = User.stripeSubscriptionId u')
          \/ (User.isPremium u' = false
              /\ User.subscriptionStatus u' = "inactive"
              /\ User.stripeSubscriptionId u' = None))
       (users (world (fst (app (Demo.env true true) POST_gdpr_schedule_deletion
                             Demo.schedule_first Demo.server)))).
Proof.
  split; [discriminate|].
  apply Forall_forall. intros u' Hu'.
  apply (billing_only_by_webhook (Demo.env true true)
           POST_gdpr_schedule_deletion Demo.schedule_first Demo.server);
    [discriminate|exact Hu'].
Defined.

(** ** Invariants of the users table *)

Section Invariants.

Variable I : World -> Prop.

Lemma keeps_refl w : keeps I w w.
Proof. intros H. exact H. Qed.

Lemma keeps_trans a b c : keeps I a b -> keeps I b c -> keeps I a c.
Proof. unfold keeps. auto. Qed.

End Invariants.

Lemma consented_same w w' :
  users w' = users w -> keeps accounts_consented w w'.
Proof. unfold keeps, accounts_consented. now intros ->. Qed.

Lemma consented_update user c :
  preserves (keeps accounts_consented) (User_update user c).
Proof.
  intros w. unfold User_update.
  destruct (match User.set_subscriptionStatus c with
            | Some s => _ | None => _ end); cbn; [|apply keeps_refl].
  unfold keeps, accounts_consented. cbn. intros H.
  apply Forall_map. revert H. apply Forall_impl. intros r Hr.
  destruct (User.id r =? User.id user)%string; exact Hr.
Qed.

Lemma consented_destroy user :
  preserves (keeps accounts_consented) (User_destroy user).
Proof.
  intros w. unfold keeps, accounts_consented. cbn. intros H.
  apply Forall_forall. intros u Hu. apply filter_In in Hu.
  rewrite Forall_forall in H. now apply H.
Qed.

(** X5. Every account the application holds has recorded the essential
    consent, so the consent gate of the submission route lets every stored
    account through: if all accounts have a consent date before a request,
    whatever the route, all have one after it. Registration is the only
    route that adds an account, and it stamps the date. *)
Theorem accounts_stay_consented (env : Env) {Store : Type}
  {store : RateStore Store} (route : Route) (req : Request)
  (s : Server Store) :
  accounts_consented (world s) ->
  accounts_consented (world (fst (app env route req s)))
  /\ forall user,
       In user (users (world (fst (app env route req s)))) ->
       requireGDPRConsent user = Next tt.
Proof.
  intros H.
  assert (K : accounts_consented (world (fst (app env route req s)))).
  { revert H.
    apply (users_relation_app env (keeps accounts_consented)).
    - apply keeps_refl.
    - apply keeps_trans.
    - apply consented_same.
    - intros user c _. apply consented_update.
    - apply consented_destroy.
    - intros _ w.
      destruct (register_handler_users env req w)
        as (w1 & res & -> & [E|(plain & _ & _ & Hg & _ & E)]); cbn [fst].
      + now apply consented_same.
      + unfold keeps, accounts_consented. rewrite E. intros H.
        apply Forall_app. split; [exact H|].
        constructor; [|constructor]. cbn. rewrite Hg. discriminate.
    - intros _. apply webhook_route_keeps.
      + apply keeps_refl.
      + apply keeps_trans.
      + apply consented_same.
      + apply consented_update. }
  split; [exact K|].
  intros user Hu. unfold accounts_consented in K.
  rewrite Forall_forall in K. specialize (K user Hu).
  unfold requireGDPRConsent. destruct (User.gdprConsentDate user); congruence.
Qed.

Lemma accounts_stay_consented_witness :
  accounts_consented Demo.world
  /\ accounts_consented
       (world (fst (app (Demo.env true true) POST_auth_register
                      Demo.registration Demo.server))).
Proof.
  assert (H : accounts_consented Demo.world).
  { repeat constructor; discriminate. }
  split; [exact H|].
  exact (proj1 (accounts_stay_consented (Demo.env true true) POST_auth_register
                  Demo.registration Demo.server H)).
Defined.

Lemma NoDup_map_filter {A B} (f : A -> B) (p : A -> bool) l :
  NoDup (map f l) -> NoDup (map f (filter p l)).
Proof.
  induction l as [|a l IH]; cbn; [auto|].
  intros H. inversion H as [|x xs Hn Hd]; subst.
  destruct (p a); [|auto]. cbn. constructor; [|auto].
  intros Hin. apply Hn. apply in_map_iff in Hin.
  destruct Hin as (b & E & Hb). apply filter_In in Hb.
  apply in_map_iff. exists b. tauto.
Qed.

Lemma NoDup_app_comm_single {A} (l : list A) a :
  NoDup l -> ~ In a l -> NoDup (l ++ [a]).
Proof.
  intros Hl Ha. induction l as [|b l IH]; cbn.
  - constructor; [intros []|constructor].
  - inversion Hl as [|x xs Hb Hd]; subst. constructor.
    + intros Hin. apply in_app_or in Hin. destruct Hin as [Hin|[E|[]]].
      * contradiction.
      * subst. apply Ha. now left.
    + apply IH; [exact Hd|]. intros Hin. apply Ha. now right.
Qed.

Lemma emails_same w w' : users w' = users w -> keeps emails_unique w w'.
Proof. unfold keeps, emails_unique. now intros ->. Qed.

Lemma emails_update user c :
  preserves (keeps emails_unique) (User_update user c).
Proof.
  intros w. unfold User_update.
  destruct (match User.set_subscriptionStatus c with
            | Some s => _ | None => _ end); cbn; [|apply keeps_refl].
  unfold keeps, emails_unique. cbn. rewrite map_map.
  assert (E : map (fun r => User.email
                     (if (User.id r =? User.id user)%string
                      then User.apply c r else r)) (users w)
              = map User.email (users w)).
  { apply map_ext. intros r.
    destruct (User.id r =? User.id user)%string; reflexivity. }
  now rewrite E.
Qed.

Lemma emails_destroy user : preserves (keeps emails_unique) (User_destroy user).
Proof.
  intros w. unfold keeps, emails_unique. cbn. apply NoDup_map_filter.
Qed.

(** X6. No two accounts ever share an email: if the emails of the stored
    accounts are pairwise distinct before a request, whatever the route,
    they are after it. Registration refuses a taken email, and no route
    rewrites one. *)
Theorem emails_stay_unique (env : Env) {Store : Type}
  {store : RateStore Store} (route : Route) (req : Request)
  (s : Server Store) :
  emails_unique (world s) ->
  emails_unique (world (fst (app env route req s))).
Proof.
  apply (users_relation_app env (keeps emails_unique)).
  - apply keeps_refl.
  - apply keeps_trans.
  - apply emails_same.
  - intros user c _. apply emails_update.
  - apply emails_destroy.
  - intros _ w.
    destruct (register_handler_users env req w)
      as (w1 & res & -> & [E|(plain & _ & _ & _ & F & E)]); cbn [fst].
    + now apply emails_same.
    + unfold keeps, emails_unique. rewrite E, map_app. cbn [map].
      intros H. apply NoDup_app_comm_single; [exact H|].
      cbn [User.email registered_user].
      intros Hin. apply in_map_iff in Hin. destruct Hin as (u & Eu & Hu).
      pose proof (find_none _ _ F u Hu) as N. cbn in N.
      rewrite Eu, String.eqb_refl in N. discriminate.
  - intros _. apply webhook_route_keeps.
    + apply keeps_refl.
    + apply keeps_trans.
    + apply emails_same.
    + apply emails_update.
Qed.

Lemma emails_stay_unique_witness :
  emails_unique Demo.world
  /\ emails_unique
       (world (fst (app (Demo.env true true) POST_auth_register
                      Demo.registration Demo.server))).
Proof.
  assert (H : emails_unique Demo.world).
  { unfold emails_unique. cbn.
    repeat constructor; cbn; intuition discriminate. }
  split; [exact H|].
  exact (emails_stay_unique (Demo.env true true) POST_auth_register
           Demo.registration Demo.server H).
Defined.

(** ** Requests that do not authenticate *)

(** X7. A request that [authenticate] turns away is answered 401 by every
    protected route and has no effect: the tables, the trace of
    third-party calls and the console are unchanged, and the submission
    route does not even count it against the quota. *)
Theorem unauthenticated_changes_nothing (env : Env) {Store : Type}
  {store : RateStore Store} (req : Request) (st : Store) (w : World)
  (r : Response) :
  authenticate env req w = Respond r ->
  status r = 401
  /\ (forall m, In m (protected_routes env req) -> run env m w = (w, r))
  /\ post_analysis env req st w = (st, (w, r)).
Proof.
  intros A. split; [exact (authenticate_respond env req w r A)|]. split.
  - intros m Hm. unfold protected_routes in Hm.
    repeat (destruct Hm as [<-|Hm];
            [unfold run, post_auth_logout, get_auth_me, get_analyses,
               get_analysis, delete_analysis,
               post_subscription_create_checkout, get_subscription_status,
               post_subscription_cancel, post_gdpr_consent, get_gdpr_consents,
               post_gdpr_export, post_gdpr_delete_account,
               post_gdpr_schedule_deletion, post_gdpr_cancel_deletion,
               authenticated; rewrite A; reflexivity|]).
    destruct Hm.
  - unfold post_analysis. rewrite A. reflexivity.
Qed.

Lemma unauthenticated_changes_nothing_witness :
  authenticate (Demo.env true true) Demo.anonymous Demo.world
    = Respond (res_status_json 401 (BError "Authentication required"))
  /\ run (Demo.env true true)
         (post_gdpr_delete_account (Demo.env true true) Demo.anonymous)
         Demo.world
     = (Demo.world, res_status_json 401 (BError "Authentication required"))
  /\ post_analysis (Demo.env true true) Demo.anonymous Demo.bob_hits Demo.world
     = (Demo.bob_hits,
        (Demo.world, res_status_json 401 (BError "Authentication required"))).
Proof.
  split; [reflexivity|].
  destruct (unauthenticated_changes_nothing (Demo.env true true) Demo.anonymous
              Demo.bob_hits Demo.world
              (res_status_json 401 (BError "Authentication required")) eq_refl)
    as (_ & Hm & Hp).
  split; [|exact Hp].
  apply Hm. unfold protected_routes. cbn. tauto.
Defined.

(** ** Tokens, from the client's header to the server's check *)

Lemma upto_space_no_space s : no_space s -> upto_space s = s.
Proof.
  unfold no_space. induction s as [|c s IH]; cbn; [reflexivity|].
  intros H. destruct (Ascii.eqb c " ") eqn:E.
  - apply Ascii.eqb_eq in E. destruct H. now left.
  - f_equal. apply IH. intros Hin. apply H. now right.
Qed.

Lemma bearer_split tok :
  no_space tok -> split_space_1 (Some (String.append "Bearer " tok)) = Some tok.
Proof. intros H. cbn. now rewrite upto_space_no_space. Qed.

(** The token [authenticate] extracts from a request the interceptor has
    written a token into. *)
Lemma interceptor_token (req : Request) (tok : string)
  (before : option string) :
  tok <> EmptyString ->
  no_space tok ->
  authorization req = request_interceptor (Some tok) before ->
  or_string (split_space_1 (authorization req)) (cookie_token req) = Some tok.
Proof.
  intros Hne Hns Hh. unfold request_interceptor in Hh.
  destruct (tok =? "")%string eqn:E.
  { apply String.eqb_eq in E. contradiction. }
  rewrite Hh, (bearer_split tok Hns). cbn [or_string]. now rewrite E.
Qed.

Lemma authenticate_token (env : Env) (req : Request) (w : World)
  (tok : string) :
  tok <> EmptyString ->
  or_string (split_space_1 (authorization req)) (cookie_token req) = Some tok ->
  authenticate env req w = verify_token env tok (now req) w.
Proof.
  intros Hne Ht. unfold authenticate. rewrite Ht. cbn [falsy].
  destruct (tok =? "")%string eqn:E; [|reflexivity].
  apply String.eqb_eq in E. contradiction.
Qed.

(** X8. The token the client stored is the token the server verifies:
    for a non-empty token without spaces, the header the request
    interceptor writes makes [authenticate] verify exactly that token,
    whatever header was there before and whatever cookie the request
    carries. *)
Theorem stored_token_is_verified (env : Env) (req : Request) (w : World)
  (tok : string) (before : option string) :
  tok <> EmptyString ->
  no_space tok ->
  authorization req = request_interceptor (Some tok) before ->
  authenticate env req w = verify_token env tok (now req) w.
Proof.
  intros Hne Hns Hh.
  apply authenticate_token; [exact Hne|].
  exact (interceptor_token req tok before Hne Hns Hh).
Qed.

Lemma stored_token_is_verified_witness :
  authorization (Demo.request "a11ce000-0000-4000-8000-000000000001" 1700000100000 [])
    = request_interceptor (Some "jwt.a11ce000-0000-4000-8000-000000000001") None
  /\ authenticate (Demo.env true true)
       (Demo.request "a11ce000-0000-4000-8000-000000000001" 1700000100000 []) Demo.world
     = verify_token (Demo.env true true) "jwt.a11ce000-0000-4000-8000-000000000001" 1700000100000 Demo.world.
Proof.
  split; [reflexivity|].
  apply (stored_token_is_verified (Demo.env true true) _ Demo.world
           "jwt.a11ce000-0000-4000-8000-000000000001" None).
  - discriminate.
  - unfold no_space. cbn. intuition discriminate.
  - reflexivity.
Defined.

(** ** Sessions: registration, login and the tokens they issue *)

Lemma register_handler_validated env req w r w1 :
  register_handler env req w = (w1, Ok r) ->
  status r = 201 ->
  register_validators env req = [].
Proof.
  unfold register_handler, try_catch.
  destruct (negb (length (register_validators env req) =? 0)%nat) eqn:V.
  { cbn. intros E. injection E as <- <-. discriminate. }
  intros _ _. now apply length_eqb_nil.
Qed.

(** A registration answered 201 by the route. *)
Lemma post_auth_register_created env {Store : Type} {store : RateStore Store}
  (req : Request) (st : Store) (w : World) :
  status (snd (snd (post_auth_register env req st w))) = 201 ->
  exists plain,
    body req "password" = VStr plain
    /\ 8 <= Z.of_nat (String.length plain)
    /\ register_validators env req = []
    /\ find (fun u => (User.email u
                       =? normalizeEmail env (toString (body req "email")))%string)
            (users w) = None
    /\ users (fst (snd (post_auth_register env req st w)))
       = users w ++ [registered_user env req plain (uuids w)]
    /\ snd (snd (post_auth_register env req st w))
       = registered_response env req (uuids w).
Proof.
  unfold post_auth_register, limited.
  pose proof (rateLimit_outcome authLimiter st None req) as L.
  destruct (rateLimit authLimiter st None req) as [st' o].
  cbn [snd] in L. destruct L as [L|L]; subst o; [|discriminate].
  cbn [fst snd].
  destruct (register_handler_total env req w) as (w1 & r & H).
  assert (Erun : run env (register_handler env req) w = (w1, r))
    by (unfold run; now rewrite H).
  rewrite Erun. cbn [fst snd]. intros Hs.
  destruct (register_handler_created env req w r w1 H Hs)
    as (plain & P & Hlen & F & U & _ & R).
  exists plain. repeat split; try assumption.
  exact (register_handler_validated env req w r w1 H Hs).
Qed.

Lemma find_fresh_id k l :
  (forall u, In u l -> User.id u <> k) ->
  find (fun u => (User.id u =? k)%string) l = None.
Proof.
  intros H. induction l as [|u l IH]; [reflexivity|].
  cbn. destruct (User.id u =? k)%string eqn:E.
  - apply String.eqb_eq in E. destruct (H u (or_introl eq_refl) E).
  - apply IH. intros v Hv. apply H. now right.
Qed.

(** X9. The access token of a successful registration opens the session
    of the new account: sent through the request interceptor, it makes
    [authenticate] attach exactly the account just created, which then
    passes the consent gate. This holds when the token verifies to the
    identifier it was signed over and that identifier is new among the
    accounts. *)
Theorem registration_token_authenticates (env : Env) {Store : Type}
  {store : RateStore Store} (req req2 : Request) (st : Store) (w : World)
  (tok : string) (before : option string) :
  status (snd (snd (post_auth_register env req st w))) = 201 ->
  access_token (snd (snd (post_auth_register env req st w))) = Some tok ->
  tok <> EmptyString ->
  no_space tok ->
  jwt_verify env tok (JWT_SECRET (processEnv env)) (now req2)
    = Decoded (uuidv4 env (uuids w)) ->
  (forall u, In u (users w) -> User.id u <> uuidv4 env (uuids w)) ->
  authorization req2 = request_interceptor (Some tok) before ->
  exists user,
    authenticate env req2 (fst (snd (post_auth_register env req st w)))
      = Next user
    /\ In user (users (fst (snd (post_auth_register env req st w))))
    /\ ~ In user (users w)
    /\ User.id user = uuidv4 env (uuids w)
    /\ User.email user = normalizeEmail env (toString (body req "email"))
    /\ requireGDPRConsent user = Next tt
    /\ tok = fst (generateTokens env (uuidv4 env (uuids w)) (now req)).
Proof.
  intros Hs Htok Hne Hns Hv Hfresh Hh.
  destruct (post_auth_register_created env req st w Hs)
    as (plain & P & Hlen & V & F & U & R).
  exists (registered_user env req plain (uuids w)).
  rewrite (authenticate_token env req2 _ tok Hne
             (interceptor_token req2 tok before Hne Hns Hh)).
  unfold verify_token. rewrite Hv, U.
  rewrite (find_app_none _ _ _ (find_fresh_id _ _ Hfresh))
    by (cbn; apply String.eqb_refl).
  repeat split.
  - apply in_or_app. right. now left.
  - intros Hin. apply (Hfresh _ Hin). reflexivity.
  - unfold requireGDPRConsent. cbn.
    destruct (register_validators_pass env req V) as [_ ->]. reflexivity.
  - rewrite R in Htok. cbn in Htok. now injection Htok as <-.
Qed.

Lemma registration_token_authenticates_witness :
  status (snd (snd (post_auth_register (Demo.env true true) Demo.registration
                      (authStore Demo.server) Demo.world)))
  = 201
  /\ exists user,
       authenticate (Demo.env true true) Demo.carol_session
         (fst (snd (post_auth_register (Demo.env true true) Demo.registration
                      (authStore Demo.server) Demo.world)))
       = Next user
       /\ User.email user = "carol@example.com".
Proof.
  assert (Hs : status (snd (snd (post_auth_register (Demo.env true true)
                                   Demo.registration (authStore Demo.server)
                                   Demo.world)))
               = 201) by (vm_compute; reflexivity).
  assert (Ht : access_token
                 (snd (snd (post_auth_register (Demo.env true true)
                              Demo.registration (authStore Demo.server)
                              Demo.world)))
               = Some "jwt.00000000-0000-4000-8000-000000000010") by (vm_compute; reflexivity).
  split; [exact Hs|].
  destruct (registration_token_authenticates (Demo.env true true)
              Demo.registration Demo.carol_session (authStore Demo.server)
              Demo.world "jwt.00000000-0000-4000-8000-000000000010" None Hs Ht)
    as (user & A & _ & _ & _ & E & _).
  - discriminate.
  - unfold no_space. cbn. intuition discriminate.
  - reflexivity.
  - intros u [<-|[<-|[]]]; discriminate.
  - reflexivity.
  - exists user. split; [exact A|]. rewrite E. reflexivity.
Defined.

(** The login handler, branch by branch. *)
Lemma login_handler_run env req w :
  login_handler env req w
  = if negb (length (login_validators env req) =? 0)%nat then
      (w, Ok (res_status_json 400 (BErrors (login_validators env req))))
    else
      match named_account env req w with
      | None => (w, Ok invalid_credentials)
      | Some user =>
          match body req "password" with
          | VStr plain =>
              if bcrypt_compare env plain (User.password user) then
                (with_users (map (updated (User.id user)
                                    (login_changes (now req)))) w,
                 Ok (login_response env user (now req)))
              else (w, Ok invalid_credentials)
          | _ =>
              (mkWorld (users w) (analyses w) (consents w) (calls w)
                 (log w ++ [("Login error:", "data and hash must be strings")])
                 (uuids w),
               Ok (res_status_json 500 (BError "Login failed")))
          end
      end.
Proof.
  unfold login_handler, try_catch, named_account.
  destruct (negb (length (login_validators env req) =? 0)%nat);
    [reflexivity|].
  unfold bind at 1, User_findOne, bind at 1, get, ret at 1.
  destruct (find _ (users w)) as [user|]; [|reflexivity].
  unfold bind at 1, comparePassword.
  destruct (body req "password") as [| |b|n|plain|]; try reflexivity.
  unfold ret at 1. cbn [negb].
  destruct (bcrypt_compare env plain (User.password user)); [|reflexivity].
  cbn [negb]. unfold bind at 1.
  rewrite User_update_run by exact I. reflexivity.
Qed.

Lemma login_handler_ok env req w :
  exists w1 r,
    login_handler env req w = (w1, Ok r)
    /\ ((exists user,
           named_account env req w = Some user
           /\ password_accepted env req user
           /\ w1 = with_users (map (updated (User.id user)
                                      (login_changes (now req)))) w
           /\ r = login_response env user (now req))
        \/ (same_tables w w1 /\ In (status r) [400; 401; 500]
            /\ access_token r = None)).
Proof.
  rewrite login_handler_run.
  destruct (negb (length (login_validators env req) =? 0)%nat).
  { eexists _, _. split; [reflexivity|]. right. cbn. unfold same_tables. tauto. }
  destruct (named_account env req w) as [user|].
  2:{ eexists _, _. split; [reflexivity|]. right. cbn. unfold same_tables. tauto. }
  destruct (body req "password") as [| |b|n|plain|] eqn:P;
    try (eexists _, _; split; [reflexivity|]; right; cbn;
         unfold same_tables; tauto).
  destruct (bcrypt_compare env plain (User.password user)) eqn:C.
  - eexists _, _. split; [reflexivity|]. left. exists user.
    repeat split. exists plain. now split.
  - eexists _, _. split; [reflexivity|]. right. cbn. unfold same_tables. tauto.
Qed.

(** A login answered 200 names an account. *)
Lemma login_requires_session env {Store : Type} {store : RateStore Store}
  (req : Request) (st : Store) (w : World) :
  status (snd (snd (post_auth_login env req st w))) = 200 ->
  exists user, named_account env req w = Some user.
Proof.
  unfold post_auth_login, limited.
  pose proof (rateLimit_outcome authLimiter st None req) as L.
  destruct (rateLimit authLimiter st None req) as [st' o].
  cbn [snd] in L. destruct L as [L|L]; subst o; [|discriminate].
  cbn [fst snd].
  destruct (login_handler_ok env req w) as (w1 & r & H & C).
  unfold run. rewrite H. cbn [fst snd].
  destruct C as [(user & N & _)|(_ & S & _)]; [eauto|].
  intros E. rewrite E in S. cbn in S.
  repeat destruct S as [S|S]; try discriminate; contradiction.
Qed.


(** X11. The answer to a failed login does not tell whether the email is
    registered: a request whose password is a string gets the same answer
    in a world without an account of that email and in a world where the
    account exists and bcrypt rejects the password, and neither world
    changes. *)
Theorem login_failures_indistinguishable (env : Env) {Store : Type}
  {store : RateStore Store} (req : Request) (st : Store) (w w' : World)
  (user : User.t) (plain : string) :
  body req "password" = VStr plain ->
  named_account env req w = None ->
  named_account env req w' = Some user ->
  bcrypt_compare env plain (User.password user) = false ->
  snd (snd (post_auth_login env req st w))
    = snd (snd (post_auth_login env req st w'))
  /\ fst (snd (post_auth_login env req st w)) = w
  /\ fst (snd (post_auth_login env req st w')) = w'.
Proof.
  intros P N N' C. unfold post_auth_login, limited.
  pose proof (rateLimit_outcome authLimiter st None req) as L.
  destruct (rateLimit authLimiter st None req) as [st' o].
  cbn [snd] in L. destruct L as [L|L]; subst o; cbn [fst snd]; [|auto].
  unfold run. rewrite !login_handler_run, N, N', P, C.
  destruct (negb _); cbn; auto.
Qed.

Lemma login_failures_indistinguishable_witness :
  snd (snd (post_auth_login (Demo.env true true)
              (Demo.login "bob@example.com" "guess" 1700000500000)
              (authStore Demo.server) Demo.world_without_bob))
  = snd (snd (post_auth_login (Demo.env true true)
                (Demo.login "bob@example.com" "guess" 1700000500000)
                (authStore Demo.server) Demo.world))
  /\ status (snd (snd (post_auth_login (Demo.env true true)
                         (Demo.login "bob@example.com" "guess" 1700000500000)
                         (authStore Demo.server) Demo.world)))
     = 401.
Proof.
  split; [|vm_compute; reflexivity].
  apply (login_failures_indistinguishable (Demo.env true true)
           (Demo.login "bob@example.com" "guess" 1700000500000)
           (authStore Demo.server) Demo.world_without_bob Demo.world
           Demo.bob "guess"); reflexivity.
Defined.

(** X12. An account that has just been registered can log in: a login
    request with the email and password of a registration answered 201,
    once past the limiter, is answered with the session of the new
    account, and the only write is the [lastLogin] of the rows with its
    identifier. This holds when bcrypt accepts a password for its own
    hash. *)
Theorem registered_account_logs_in (env : Env) {Store : Type}
  {store : RateStore Store} (req req2 : Request) (st st2 : Store) (w : World) :
  status (snd (snd (post_auth_register env req st w))) = 201 ->
  body req2 "email" = body req "email" ->
  body req2 "password" = body req "password" ->
  (forall plain,
     body req "password" = VStr plain ->
     bcrypt_compare env plain (bcrypt_hash env plain 12) = true) ->
  snd (rateLimit authLimiter st2 None req2) = Next tt ->
  exists user,
    In user (users (fst (snd (post_auth_register env req st w))))
    /\ User.id user = uuidv4 env (uuids w)
    /\ User.email user = normalizeEmail env (toString (body req "email"))
    /\ snd (post_auth_login env req2 st2
              (fst (snd (post_auth_register env req st w))))
       = (with_users (map (updated (User.id user) (login_changes (now req2))))
            (fst (snd (post_auth_register env req st w))),
          login_response env user (now req2)).
Proof.
  intros Hs Ee Ep Hb L.
  destruct (post_auth_register_created env req st w Hs)
    as (plain & P & Hlen & V & F & U & R).
  exists (registered_user env req plain (uuids w)).
  split; [rewrite U; apply in_or_app; right; now left|].
  split; [reflexivity|]. split; [reflexivity|].
  unfold post_auth_login, limited.
  destruct (rateLimit authLimiter st2 None req2) as [st2' o].
  cbn [snd] in L. subst o. cbn [snd].
  unfold run. rewrite login_handler_run.
  assert (V2 : login_validators env req2 = []).
  { unfold login_validators. rewrite Ee, Ep, P.
    unfold register_validators, check in V.
    destruct (isEmail env _); [|discriminate]. cbn [check app toString].
    destruct plain; [cbn in Hlen; lia|reflexivity]. }
  rewrite V2. cbn [length Nat.eqb negb].
  unfold named_account. rewrite U, Ee.
  rewrite (find_app_none _ _ (registered_user env req plain (uuids w)) F)
    by (cbn; apply String.eqb_refl).
  rewrite Ep, P.
  change (User.password (registered_user env req plain (uuids w)))
    with (bcrypt_hash env plain 12).
  rewrite (Hb plain P). reflexivity.
Qed.

Lemma registered_account_logs_in_witness :
  status (snd (snd (post_auth_register (Demo.env true true) Demo.registration
                      (authStore Demo.server) Demo.world)))
  = 201
  /\ status (snd (snd (post_auth_login (Demo.env true true)
                         (Demo.login "carol@example.com" "SecurePass123!"
                            1700000500000)
                         (authStore Demo.server)
                         (fst (snd (post_auth_register (Demo.env true true)
                                      Demo.registration
                                      (authStore Demo.server) Demo.world))))))
     = 200.
Proof.
  assert (Hs : status (snd (snd (post_auth_register (Demo.env true true)
                                   Demo.registration (authStore Demo.server)
                                   Demo.world)))
               = 201) by (vm_compute; reflexivity).
  split; [exact Hs|].
  destruct (registered_account_logs_in (Demo.env true true)
              Demo.registration
              (Demo.login "carol@example.com" "SecurePass123!" 1700000500000)
              (authStore Demo.server) (authStore Demo.server) Demo.world Hs)
    as (user & _ & _ & _ & E).
  - reflexivity.
  - reflexivity.
  - intros plain _. cbn. apply String.eqb_refl.
  - reflexivity.
  - rewrite E. reflexivity.
Defined.

(** ** The analysis library: reading and deleting one's own rows *)

Lemma deleteImage_run env publicId w :
  exists w',
    deleteImage env publicId w = (w', Ok tt)
    /\ users w' = users w /\ analyses w' = analyses w
    /\ consents w' = consents w
    /\ calls w' = calls w ++ [CloudinaryDestroy publicId].
Proof.
  unfold deleteImage, try_catch, external, bind, issue, modify, succeeded.
  destruct (cloudinary_destroy env publicId); cbn;
    eexists; (split; [reflexivity|]); cbn; auto.
Qed.

Lemma find_some_owned id user l a :
  find (owned_by id user) l = Some a ->
  In a l /\ Analysis.id a = id /\ Analysis.userId a = User.id user.
Proof.
  intros F. apply find_some in F. destruct F as [I O]. split; [exact I|].
  unfold owned_by in O. apply andb_prop in O. destruct O as [O1 O2].
  split; now apply String.eqb_eq.
Qed.

Lemma find_none_owned id user l :
  (forall a, In a l -> Analysis.id a = id ->
             Analysis.userId a <> User.id user) ->
  find (owned_by id user) l = None.
Proof.
  intros H. destruct (find (owned_by id user) l) as [a|] eqn:F; [|reflexivity].
  apply find_some_owned in F. destruct F as (I & E1 & E2).
  destruct (H a I E1 E2).
Qed.

Lemma In_firstn {A} n (l : list A) x : In x (firstn n l) -> In x l.
Proof.
  intros H. rewrite <- (firstn_skipn n l). apply in_or_app. now left.
Qed.

Lemma In_skipn {A} n (l : list A) x : In x (skipn n l) -> In x l.
Proof.
  intros H. rewrite <- (firstn_skipn n l). apply in_or_app. now right.
Qed.

Lemma insert_desc_In a l x : In x (insert_desc a l) <-> x = a \/ In x l.
Proof.
  induction l as [|b l IH]; cbn.
  - intuition auto.
  - destruct (Analysis.createdAt b <? Analysis.createdAt a); cbn.
    + intuition auto.
    + rewrite IH. intuition auto.
Qed.

(** Ordering the rows neither adds nor drops one. *)
Lemma order_createdAt_desc_In l x :
  In x (order_createdAt_desc l) <-> In x l.
Proof.
  induction l as [|a l IH]; cbn; [tauto|].
  rewrite insert_desc_In, IH. intuition auto.
Qed.

(** The owner-scoped lookup of [GET] and [DELETE /analysis/:id]: an
    identifier the database reads as a UUID is looked up as that UUID, any
    other makes the query fail. *)
Lemma Analysis_findOne_owned_run env req user w :
  Analysis_findOne_owned env req user w
  = (w, match pg_uuid_in env (param_id req) with
        | Some id => Ok (find (owned_by id user) (analyses w))
        | None =>
            Throw (databaseError (invalid_input_syntax "uuid" (param_id req)))
        end).
Proof.
  unfold Analysis_findOne_owned.
  destruct (pg_uuid_in env (param_id req)); reflexivity.
Qed.

(** X13. Reading the library is scoped to the caller: for an
    authenticated account, [GET /analysis/:id] answers 200 only with a
    stored analysis whose identifier is the UUID the asked identifier
    reads as and which belongs to the caller, and then changes nothing;
    when the asked identifier reads as a UUID and every analysis of that
    UUID belongs to someone else, the answer is 404 and nothing changes;
    when the asked identifier does not read as a UUID, the query fails,
    the answer is 500 "Failed to fetch analysis" and the failure is
    logged, nothing else changing; every row [GET /analysis] lists is the
    projection of a stored analysis of the caller, and the listing changes
    nothing. *)
Theorem library_reads_owner_scoped (env : Env) (req : Request) (w : World)
  (user : User.t) :
  authenticate env req w = Next user ->
  (forall a,
     snd (run env (get_analysis env req) w) = res_json (BAnalysis a) ->
     fst (run env (get_analysis env req) w) = w
     /\ pg_uuid_in env (param_id req) = Some (Analysis.id a)
     /\ In a (analyses w)
     /\ Analysis.userId a = User.id user)
  /\ (forall id,
        pg_uuid_in env (param_id req) = Some id ->
        (forall a, In a (analyses w) -> Analysis.id a = id ->
                   Analysis.userId a <> User.id user) ->
        run env (get_analysis env req) w
        = (w, res_status_json 404 (BError "Analysis not found")))
  /\ (pg_uuid_in env (param_id req) = None ->
      run env (get_analysis env req) w
      = (logged [("Get analysis error:",
                  invalid_input_syntax "uuid" (param_id req))] w,
         res_status_json 500 (BError "Failed to fetch analysis")))
  /\ (forall rows total page pages,
        snd (run env (get_analyses env req) w)
        = res_json (BLibrary rows total page pages) ->
        fst (run env (get_analyses env req) w) = w
        /\ total
           = Z.of_nat (length (filter (fun a => (Analysis.userId a
                                                 =? User.id user)%string)
                                      (analyses w)))
        /\ forall row, In row rows ->
             exists a, In a (analyses w)
                       /\ Analysis.userId a = User.id user
                       /\ row = library_row a).
Proof.
  intros A. split; [|split; [|split]].
  - intros a.
    assert (R : run env (get_analysis env req) w
                = match pg_uuid_in env (param_id req) with
                  | Some id =>
                      (w, match find (owned_by id user) (analyses w) with
                          | Some b => res_json (BAnalysis b)
                          | None => res_status_json 404
                                      (BError "Analysis not found")
                          end)
                  | None =>
                      (logged [("Get analysis error:",
                                invalid_input_syntax "uuid" (param_id req))]
                         w,
                       res_status_json 500
                         (BError "Failed to fetch analysis"))
                  end).
    { unfold run, get_analysis, authenticated. rewrite A.
      unfold try_catch, bind at 1. rewrite Analysis_findOne_owned_run.
      destruct (pg_uuid_in env (param_id req)) as [id|]; [|reflexivity].
      now destruct (find (owned_by id user) (analyses w)). }
    rewrite R.
    destruct (pg_uuid_in env (param_id req)) as [id|]; [|cbn; discriminate].
    destruct (find (owned_by id user) (analyses w)) as [b|] eqn:F;
      cbn; [|discriminate].
    intros E. injection E as <-. apply find_some_owned in F.
    destruct F as (I & <- & O). auto.
  - intros id U H. unfold run, get_analysis, authenticated. rewrite A.
    unfold try_catch, bind at 1. rewrite Analysis_findOne_owned_run, U.
    now rewrite (find_none_owned id user _ H).
  - intros U. unfold run, get_analysis, authenticated. rewrite A.
    unfold try_catch, bind at 1. rewrite Analysis_findOne_owned_run, U.
    reflexivity.
  - intros rows total page pages.
    unfold run, get_analyses, authenticated. rewrite A.
    unfold try_catch.
    destruct ((_ <? 0) || (_ <? 0)); [cbn; discriminate|].
    unfold bind at 1, Analysis_findAll, bind at 1, get, ret at 1.
    cbn [fst snd ret]. intros E. injection E as <- <- _ _.
    split; [reflexivity|]. split; [reflexivity|].
    intros row I. apply in_map_iff in I. destruct I as (a & <- & I).
    exists a. apply In_firstn, In_skipn in I.
    apply order_createdAt_desc_In, filter_In in I. destruct I as [I O].
    repeat split; [exact I|now apply String.eqb_eq].
Qed.

Lemma library_reads_owner_scoped_witness :
  authenticate (Demo.env true true) Demo.bob_reads Demo.world = Next Demo.bob
  /\ pg_uuid_in (Demo.env true true) (param_id Demo.bob_reads)
     = Some "aaaaaaaa-0000-4000-8000-000000000001"
  /\ run (Demo.env true true) (get_analysis (Demo.env true true) Demo.bob_reads)
         Demo.world
     = (Demo.world, res_status_json 404 (BError "Analysis not found"))
  /\ pg_uuid_in (Demo.env true true)
       (param_id (Demo.with_param "not-a-uuid" Demo.bob_reads)) = None
  /\ status (snd (run (Demo.env true true)
                     (get_analysis (Demo.env true true)
                        (Demo.with_param "not-a-uuid" Demo.bob_reads))
                     Demo.world))
     = 500
  /\ snd (run (Demo.env true true)
            (get_analysis (Demo.env true true)
               (Demo.with_param "AAAAAAAA-0000-4000-8000-000000000001"
                  Demo.alice_reads))
            Demo.world)
     = res_json (BAnalysis Demo.alice_analysis).
Proof.
  split; [reflexivity|]. split; [reflexivity|].
  split.
  - destruct (library_reads_owner_scoped (Demo.env true true) Demo.bob_reads
                Demo.world Demo.bob eq_refl) as (_ & H & _).
    apply (H "aaaaaaaa-0000-4000-8000-000000000001"); [reflexivity|].
    intros a [<-|[]] _. discriminate.
  - split; [reflexivity|]. split; [|reflexivity].
    destruct (library_reads_owner_scoped (Demo.env true true)
                (Demo.with_param "not-a-uuid" Demo.bob_reads)
                Demo.world Demo.bob eq_refl) as (_ & _ & H & _).
    rewrite (H eq_refl). reflexivity.
Defined.

(** X14. Deleting an analysis is scoped to the caller: for an
    authenticated account and an asked identifier that reads as a UUID,
    when every analysis with that UUID belongs to someone else the answer
    is 404 and nothing at all happens (no row goes, no Cloudinary call is
    issued); when the caller owns one, the answer is 200 whether or not
    Cloudinary succeeds, exactly the rows with that UUID leave the
    analyses, accounts and consents stay, and one destroy of the stored
    image is issued. When the asked identifier does not read as a UUID,
    the query fails: the answer is 500 "Failed to delete analysis", the
    failure is logged, no row goes and no Cloudinary call is issued. *)
Theorem delete_analysis_owner_scoped (env : Env) (req : Request) (w : World)
  (user : User.t) :
  authenticate env req w = Next user ->
  (forall id,
     pg_uuid_in env (param_id req) = Some id ->
     (forall a, In a (analyses w) -> Analysis.id a = id ->
                Analysis.userId a <> User.id user) ->
     run env (delete_analysis env req) w
     = (w, res_status_json 404 (BError "Analysis not found")))
  /\ (pg_uuid_in env (param_id req) = None ->
      run env (delete_analysis env req) w
      = (logged [("Delete analysis error:",
                  invalid_input_syntax "uuid" (param_id req))] w,
         res_status_json 500 (BError "Failed to delete analysis")))
  /\ (forall id,
        pg_uuid_in env (param_id req) = Some id ->
        (exists a, In a (analyses w) /\ Analysis.id a = id
                   /\ Analysis.userId a = User.id user) ->
        exists a,
          In a (analyses w) /\ Analysis.id a = id
          /\ Analysis.userId a = User.id user
          /\ snd (run env (delete_analysis env req) w)
             = res_json (BMessage "Analysis deleted successfully")
          /\ analyses (fst (run env (delete_analysis env req) w))
             = filter (fun b => negb (Analysis.id b =? id)%string)
                      (analyses w)
          /\ users (fst (run env (delete_analysis env req) w)) = users w
          /\ consents (fst (run env (delete_analysis env req) w)) = consents w
          /\ calls (fst (run env (delete_analysis env req) w))
             = calls w ++ [CloudinaryDestroy (Analysis.imagePublicId a)]).
Proof.
  intros A. split; [|split].
  - intros id U H. unfold run, delete_analysis, authenticated. rewrite A.
    unfold try_catch, bind at 1. rewrite Analysis_findOne_owned_run, U.
    now rewrite (find_none_owned id user _ H).
  - intros U. unfold run, delete_analysis, authenticated. rewrite A.
    unfold try_catch, bind at 1. rewrite Analysis_findOne_owned_run, U.
    reflexivity.
  - intros id Q (a0 & I0 & E0 & O0).
    destruct (find (owned_by id user) (analyses w)) as [a|] eqn:F.
    2:{ apply find_none with (x := a0) in F; [|exact I0].
        unfold owned_by in F. rewrite E0, O0, !String.eqb_refl in F.
        discriminate. }
    pose proof (find_some_owned id user _ a F) as (I & E & O).
    exists a. repeat (split; [assumption|]).
    destruct (deleteImage_run env (Analysis.imagePublicId a) w)
      as (w' & D & U & An & C & K).
    assert (R : run env (delete_analysis env req) w
                = (with_analyses
                     (filter (fun b => negb (Analysis.id b
                                             =? Analysis.id a)%string)) w',
                   res_json (BMessage "Analysis deleted successfully"))).
    { unfold run, delete_analysis, authenticated. rewrite A.
      unfold try_catch, bind at 1. rewrite Analysis_findOne_owned_run, Q.
      rewrite F. unfold bind at 1. rewrite D. reflexivity. }
    rewrite R. cbn [fst snd users analyses consents calls with_analyses].
    rewrite U, An, C, K, E. auto.
Qed.

Lemma delete_analysis_owner_scoped_witness :
  authenticate (Demo.env true false) Demo.alice_reads Demo.world
    = Next Demo.alice
  /\ cloudinary_destroy (Demo.env true false) "ai-derma/a11ce000-0000-4000-8000-000000000001/img" = false
  /\ status (snd (run (Demo.env true false)
                     (delete_analysis (Demo.env true false) Demo.alice_reads)
                     Demo.world))
     = 200
  /\ analyses (fst (run (Demo.env true false)
                      (delete_analysis (Demo.env true false) Demo.alice_reads)
                      Demo.world))
     = [].
Proof.
  split; [reflexivity|]. split; [reflexivity|].
  destruct (delete_analysis_owner_scoped (Demo.env true false)
              Demo.alice_reads Demo.world Demo.alice eq_refl) as (_ & _ & H).
  destruct (H "aaaaaaaa-0000-4000-8000-000000000001")
    as (a & _ & _ & _ & R & An & _).
  - reflexivity.
  - exists Demo.alice_analysis. repeat split. now left.
  - rewrite R, An. split; reflexivity.
Defined.

(** ** Stripe webhooks through the route *)

(** X15. A webhook request whose signature does not verify is answered
    400 and changes nothing: the accounts, analyses, consents and the
    trace of third-party calls are as before, only the console has grown
    by the two reports of the error. *)
Theorem unverified_webhook_changes_nothing (env : Env) (req : Request)
  (w : World) :
  verified_event env req = None ->
  exists l,
    run env (post_subscription_webhook env req) w
    = (logged l w, webhook_rejected)
    /\ length l = 2%nat.
Proof.
  unfold verified_event. intros E.
  unfold run, post_subscription_webhook, handleWebhook, try_catch.
  unfold bind at 1. rewrite E. unfold bind at 1, throw at 1.
  unfold bind at 1, console_error at 1, modify at 1, throw at 1.
  unfold bind, console_error, modify, ret, logged. cbn.
  eexists. split; [rewrite <- app_assoc; reflexivity|reflexivity].
Qed.

Lemma unverified_webhook_changes_nothing_witness :
  verified_event (Demo.env true true)
    (Demo.with_raw_body "forged" (Demo.request EmptyString 1700000200000 []))
  = None
  /\ users (fst (run (Demo.env true true)
                   (post_subscription_webhook (Demo.env true true)
                      (Demo.with_raw_body "forged"
                         (Demo.request EmptyString 1700000200000 [])))
                   Demo.world))
     = users Demo.world.
Proof.
  split; [reflexivity|].
  destruct (unverified_webhook_changes_nothing (Demo.env true true)
              (Demo.with_raw_body "forged"
                 (Demo.request EmptyString 1700000200000 []))
              Demo.world eq_refl) as (l & R & _).
  rewrite R. reflexivity.
Defined.

(** The route on a verified subscription created or updated event whose
    customer has an account. *)
Lemma webhook_subscription_run env req w ev u :
  verified_event env req = Some ev ->
  ev_type ev = "customer.subscription.created"
  \/ ev_type ev = "customer.subscription.updated" ->
  find (has_customer (ev_customer ev)) (users w) = Some u ->
  (changes_allowed (subscription_changes ev) = true ->
   run env (post_subscription_webhook env req) w
   = (with_users (map (updated (User.id u) (subscription_changes ev))) w,
      res_json BReceived))
  /\ (changes_allowed (subscription_changes ev) = false ->
      exists l,
        run env (post_subscription_webhook env req) w
        = (logged l w, webhook_rejected)).
Proof.
  unfold verified_event. intros E T F.
  assert (D : dispatch ev = updateSubscriptionStatus ev).
  { unfold dispatch. destruct T as [-> | ->]; reflexivity. }
  split; intros C.
  - unfold run, post_subscription_webhook, handleWebhook, try_catch.
    unfold bind at 1. rewrite E. unfold bind at 1, ret at 1. rewrite D.
    unfold updateSubscriptionStatus, bind at 1, User_findOne, bind at 1,
      get, ret at 1.
    change (find _ (users w)) with (find (has_customer (ev_customer ev)) (users w)).
    rewrite F. unfold bind at 1.
    rewrite User_update_run by exact C. reflexivity.
  - unfold run, post_subscription_webhook, handleWebhook, try_catch.
    unfold bind at 1. rewrite E. unfold bind at 1, ret at 1. rewrite D.
    unfold updateSubscriptionStatus, bind at 1, User_findOne, bind at 1,
      get, ret at 1.
    change (find _ (users w)) with (find (has_customer (ev_customer ev)) (users w)).
    rewrite F. unfold bind at 1, User_update.
    change (match User.set_subscriptionStatus _ with
            | Some s => existsb (String.eqb s) User.subscriptionStatus_enum
            | None => true
            end) with (changes_allowed (subscription_changes ev)).
    rewrite C. unfold throw, bind, console_error, modify, ret, logged. cbn.
    eexists. rewrite <- app_assoc. reflexivity.
Qed.

(** X16. A verified subscription created or updated event decides the
    tier of the customer's account. When the event's status is one the
    [subscriptionStatus] column admits, the answer is 200 and a session of
    that account afterwards sees the event's status and subscription
    reference, is premium exactly when the status is [active], passes
    [requirePremium] exactly then, and is granted 50 analyses an hour
    then and 5 otherwise. When the column does not admit the status, the
    answer is 400 and no table changes. *)
Theorem subscription_event_decides_tier (env : Env) (req req2 : Request)
  (w : World) (ev : StripeEvent) (u v : User.t) :
  verified_event env req = Some ev ->
  ev_type ev = "customer.subscription.created"
  \/ ev_type ev = "customer.subscription.updated" ->
  find (has_customer (ev_customer ev)) (users w) = Some u ->
  authenticate env req2 w = Next v ->
  User.id v = User.id u ->
  (In (ev_status ev) User.subscriptionStatus_enum ->
   exists v',
     snd (run env (post_subscription_webhook env req) w) = res_json BReceived
     /\ authenticate env req2
          (fst (run env (post_subscription_webhook env req) w)) = Next v'
     /\ User.subscriptionStatus v' = ev_status ev
     /\ User.stripeSubscriptionId v' = Some (ev_id ev)
     /\ User.isPremium v' = (ev_status ev =? "active")%string
     /\ (requirePremium v' = Next tt <-> ev_status ev = "active")
     /\ hourly_quota v'
        = if (ev_status ev =? "active")%string then 50%nat else 5%nat)
  /\ (~ In (ev_status ev) User.subscriptionStatus_enum ->
      snd (run env (post_subscription_webhook env req) w) = webhook_rejected
      /\ same_tables w (fst (run env (post_subscription_webhook env req) w))).
Proof.
  intros E T F A I.
  destruct (webhook_subscription_run env req w ev u E T F) as [Hok Hbad].
  split.
  - intros S.
    assert (C : changes_allowed (subscription_changes ev) = true).
    { change (existsb (String.eqb (ev_status ev))
                      User.subscriptionStatus_enum = true).
      apply existsb_exists.
      exists (ev_status ev). split; [exact S|apply String.eqb_refl]. }
    rewrite (Hok C). cbn [fst snd].
    exists (User.apply (subscription_changes ev) v).
    split; [reflexivity|].
    split.
    { rewrite (authenticate_after_update env req2 w v _ _ A).
      unfold updated. rewrite I, String.eqb_refl. reflexivity. }
    cbn. repeat split.
    + unfold requirePremium. cbn.
      destruct (ev_status ev =? "active")%string eqn:Q; cbn; [|discriminate].
      intros _. now apply String.eqb_eq.
    + intros Q. unfold requirePremium. cbn. rewrite Q. reflexivity.
  - intros S.
    assert (C : changes_allowed (subscription_changes ev) = false).
    { change (existsb (String.eqb (ev_status ev))
                      User.subscriptionStatus_enum = false).
      destruct (existsb _ _) eqn:X; [|reflexivity].
      apply existsb_exists in X. destruct X as (s & Hs & Q).
      apply String.eqb_eq in Q. subst s. contradiction. }
    destruct (Hbad C) as [l ->]. split; [reflexivity|].
    unfold same_tables. cbn. auto.
Qed.

Lemma subscription_event_decides_tier_witness :
  verified_event (Demo.env true true) Demo.past_due_delivery
    = Some (mkStripeEvent "customer.subscription.updated" "sub_1" "cus_1"
                          "past_due")
  /\ authenticate (Demo.env true true) Demo.schedule_first Demo.world
     = Next Demo.alice
  /\ exists v',
       authenticate (Demo.env true true) Demo.schedule_first
         (fst (run (Demo.env true true)
                 (post_subscription_webhook (Demo.env true true)
                    Demo.past_due_delivery)
                 Demo.world))
       = Next v'
       /\ User.isPremium v' = false
       /\ hourly_quota v' = 5%nat.
Proof.
  split; [reflexivity|]. split; [reflexivity|].
  destruct (subscription_event_decides_tier (Demo.env true true)
              Demo.past_due_delivery Demo.schedule_first Demo.world
              (mkStripeEvent "customer.subscription.updated" "sub_1" "cus_1"
                             "past_due")
              Demo.alice Demo.alice eq_refl (or_intror eq_refl) eq_refl
              eq_refl eq_refl) as [H _].
  destruct H as (v' & _ & A & _ & _ & P & _ & Q).
  - cbn. tauto.
  - exists v'. split; [exact A|]. split; [exact P|exact Q].
Defined.

(** ** Consent updates *)

(** X17. A consent update with a boolean choice keeps the ledger and the
    account in step: for an authenticated account and one of the types
    marketing, data retention and cookies, the answer is 200, exactly one
    consent row is appended, carrying the account, the type, the choice,
    the caller's address and agent and the instant of the request, and the
    account's marketing or data-retention column is set to the same choice
    (no column for cookies); the analyses are untouched. *)
Theorem consent_update_ledger_and_account (env : Env) (req : Request)
  (w : World) (user : User.t) (ty : string) (given : bool) :
  authenticate env req w = Next user ->
  body req "consentType" = VStr ty ->
  In ty consent_types ->
  body req "consentGiven" = VBool given ->
  exists w1,
    run env (post_gdpr_consent env req) w
    = (w1, res_json (BMessage "Consent updated successfully"))
    /\ consents w1
       = consents w ++ [consent_row env req user ty given (uuids w)]
    /\ users w1
       = match consent_changes ty given with
         | Some c => map (updated (User.id user) c) (users w)
         | None => users w
         end
    /\ analyses w1 = analyses w.
Proof.
  intros A T Hin G.
  unfold run, post_gdpr_consent, authenticated. rewrite A.
  unfold try_catch. rewrite T, G.
  assert (Inc : includes consent_types (VStr ty) = true).
  { unfold includes. apply existsb_exists. exists ty. split; [exact Hin|].
    cbn. apply String.eqb_refl. }
  rewrite Inc. cbn [negb toString].
  assert (En : existsb (String.eqb ty) Consent.consentType_enum = true).
  { apply existsb_exists. exists ty. split; [|apply String.eqb_refl].
    cbn in Hin |- *. tauto. }
  unfold bind at 1, logConsent, try_catch, bind at 1, Consent_create.
  rewrite En. cbn [negb boolean_sanitize].
  unfold bind at 1, fresh_uuid, bind at 1, modify at 1, ret at 1, ret at 1.
  unfold consent_changes, strict_eq_str.
  destruct (ty =? "marketing")%string.
  { unfold bind at 1, update_consent_column. cbn [boolean_column option_map
      boolean_sanitize].
    unfold bind at 1. rewrite User_update_run by exact I.
    eexists. split; [reflexivity|]. cbn. auto. }
  destruct (ty =? "data_retention")%string.
  { unfold bind at 1, update_consent_column. cbn [boolean_column option_map
      boolean_sanitize].
    unfold bind at 1. rewrite User_update_run by exact I.
    eexists. split; [reflexivity|]. cbn. auto. }
  eexists. split; [reflexivity|]. cbn. auto.
Qed.

Lemma consent_update_ledger_and_account_witness :
  authenticate (Demo.env true true) Demo.marketing_consent Demo.world
    = Next Demo.alice
  /\ exists w1,
       run (Demo.env true true)
         (post_gdpr_consent (Demo.env true true) Demo.marketing_consent)
         Demo.world
       = (w1, res_json (BMessage "Consent updated successfully"))
       /\ length (consents w1) = 2%nat
       /\ map User.marketingConsent (users w1) = [Some true; Some false].
Proof.
  split; [reflexivity|].
  destruct (consent_update_ledger_and_account (Demo.env true true)
              Demo.marketing_consent Demo.world Demo.alice "marketing" true
              eq_refl eq_refl (or_introl eq_refl) eq_refl)
    as (w1 & R & C & U & _).
  exists w1. split; [exact R|]. rewrite C, U. split; reflexivity.
Defined.

(** ** A submission and its owner *)

(** X18. A submission answered 201 belongs to its caller and can be read
    back: the answer names the identifier of the one row that was added,
    the row carries the caller's identifier and tier, accounts and
    consents are untouched, and a later [GET /analysis/:id] of the same
    account with that identifier returns exactly that row, provided no
    earlier analysis carries the same identifier. *)
Theorem created_submission_is_readable (env : Env) {Store : Type}
  {store : RateStore Store} (req : Request) (st : Store) (w : World) :
  status (snd (snd (post_analysis env req st w))) = 201 ->
  exists user a,
    authenticate env req w = Next user
    /\ analyses (fst (snd (post_analysis env req st w))) = analyses w ++ [a]
    /\ users (fst (snd (post_analysis env req st w))) = users w
    /\ consents (fst (snd (post_analysis env req st w))) = consents w
    /\ Analysis.userId a = User.id user
    /\ Analysis.isPremiumAnalysis a = User.isPremium user
    /\ snd (snd (post_analysis env req st w))
       = res_status_json 201
           (BCreated (Analysis.id a) (Analysis.aiResult a)
                     (Analysis.createdAt a))
    /\ forall req2 user2,
         authenticate env req2 (fst (snd (post_analysis env req st w)))
           = Next user2 ->
         User.id user2 = User.id user ->
         param_id req2 = Analysis.id a ->
         (forall b, In b (analyses w) -> Analysis.id b <> Analysis.id a) ->
         run env (get_analysis env req2) (fst (snd (post_analysis env req st w)))
         = (fst (snd (post_analysis env req st w)), res_json (BAnalysis a)).
Proof.
  intros Hs.
  destruct (post_analysis_outcome env req st w) as (Us & Cs & H).
  destruct H as [(user & a & expiry & A & An & _ & _ & (n & Hid) & Ow & Pr
                  & _ & _ & R)|[H _]]; [|destruct (H Hs)].
  exists user, a. repeat (split; [assumption|]).
  intros req2 user2 A2 I2 P2 Hfresh.
  unfold run, get_analysis, authenticated. rewrite A2.
  unfold try_catch, bind at 1. rewrite Analysis_findOne_owned_run.
  rewrite P2, Hid, (uuidv4_uuid env n), <- Hid, An.
  assert (F : find (owned_by (Analysis.id a) user2) (analyses w ++ [a])
              = Some a).
  { apply find_app_none.
    - destruct (find (owned_by (Analysis.id a) user2) (analyses w))
        as [b|] eqn:Fb; [|reflexivity].
      apply find_some_owned in Fb. destruct Fb as (Ib & Eb & _).
      destruct (Hfresh b Ib Eb).
    - unfold owned_by. rewrite I2, Ow, !String.eqb_refl. reflexivity. }
  rewrite F. reflexivity.
Qed.

Lemma created_submission_is_readable_witness :
  status (snd (snd (post_analysis (Demo.env true true) Demo.png_submission
                      (analysisStore Demo.server) Demo.world)))
  = 201
  /\ exists a,
       snd (run (Demo.env true true)
              (get_analysis (Demo.env true true) Demo.bob_reads_new)
              (fst (snd (post_analysis (Demo.env true true)
                           Demo.png_submission (analysisStore Demo.server)
                           Demo.world))))
       = res_json (BAnalysis a)
       /\ Analysis.userId a = "b0b00000-0000-4000-8000-000000000002".
Proof.
  assert (Hs : status (snd (snd (post_analysis (Demo.env true true)
                                   Demo.png_submission
                                   (analysisStore Demo.server) Demo.world)))
               = 201) by (vm_compute; reflexivity).
  assert (Hr : payload (snd (snd (post_analysis (Demo.env true true)
                                    Demo.png_submission
                                    (analysisStore Demo.server) Demo.world)))
               = BCreated "00000000-0000-4000-8000-000000000010" "{}" 1700000100000)
    by (vm_compute; reflexivity).
  assert (Ha : authenticate (Demo.env true true) Demo.bob_reads_new
                 (fst (snd (post_analysis (Demo.env true true)
                              Demo.png_submission (analysisStore Demo.server)
                              Demo.world)))
               = Next Demo.bob) by (vm_compute; reflexivity).
  split; [exact Hs|].
  destruct (created_submission_is_readable (Demo.env true true)
              Demo.png_submission (analysisStore Demo.server) Demo.world Hs)
    as (user & a & A & _ & _ & _ & Ow & _ & R & H).
  injection A as <-.
  rewrite R in Hr. injection Hr as Hid _ _.
  exists a. split; [|exact Ow].
  rewrite (H Demo.bob_reads_new Demo.bob Ha eq_refl).
  - reflexivity.
  - rewrite Hid. reflexivity.
  - rewrite Hid. intros b [<-|[]]. discriminate.
Defined.

(** ** Checkout *)

(** [authenticate] reads nothing but the accounts. *)
Lemma authenticate_users env req w w' :
  users w' = users w -> authenticate env req w' = authenticate env req w.
Proof. unfold authenticate. now intros ->. Qed.

Lemma createCheckoutSession_run env customerId priceId userId w :
  exists w' res,
    createCheckoutSession env customerId priceId userId w = (w', res)
    /\ same_tables w w'
    /\ calls w' = calls w ++ [StripeCheckoutSessionsCreate customerId].
Proof.
  unfold createCheckoutSession, try_catch, external, bind at 1, issue, modify.
  destruct (stripe_checkout_sessions_create env customerId priceId userId);
    cbn; do 2 eexists; (split; [reflexivity|]); unfold same_tables; cbn; auto.
Qed.

(** The checkout route for an account that already has a customer
    reference: one session is requested for it and no table changes. *)
Lemma checkout_with_customer env req w user c :
  authenticate env req w = Next user ->
  User.stripeCustomerId user = Some c ->
  c <> EmptyString ->
  same_tables w (fst (run env (post_subscription_create_checkout env req) w))
  /\ calls (fst (run env (post_subscription_create_checkout env req) w))
     = calls w ++ [StripeCheckoutSessionsCreate c].
Proof.
  intros A S Hc.
  assert (Hf : falsy (Some c) = false).
  { cbn. destruct (c =? "")%string eqn:E; [|reflexivity].
    apply String.eqb_eq in E. contradiction. }
  destruct (createCheckoutSession_run env c
              (STRIPE_PREMIUM_PRICE_ID (processEnv env)) (User.id user) w)
    as (w' & res & R & T & C).
  assert (E : exists r l,
             run env (post_subscription_create_checkout env req) w
             = (logged l w', r)).
  { unfold run, post_subscription_create_checkout, authenticated. rewrite A.
    unfold try_catch. rewrite S, Hf. unfold bind at 1, ret at 1.
    cbn [User.or_else]. unfold bind at 1. rewrite R.
    destruct res as [session|e].
    - exists (res_json (BCheckout (fst session) (snd session))), [].
      unfold logged. rewrite app_nil_r. destruct w'; reflexivity.
    - eexists _, _. reflexivity. }
  destruct E as (r & l & ->). cbn [fst]. split; [|exact C].
  unfold same_tables in *. cbn. exact T.
Qed.

(** X19. A Stripe customer is created at most once per account. The
    first checkout of an account without a customer reference creates the
    customer, stores its reference in the account and asks for a session
    for it; the next checkout of the same account reuses the stored
    reference: it issues a session request for the same customer and no
    customer creation, and changes no table. This holds when Stripe
    returns a non-empty customer reference. *)
Theorem checkout_creates_customer_once (env : Env) (req req2 : Request)
  (w : World) (user : User.t) (c : string) :
  authenticate env req w = Next user ->
  falsy (User.stripeCustomerId user) = true ->
  stripe_customers_create env (User.email user) (User.id user) = Some c ->
  c <> EmptyString ->
  authenticate env req2 w = Next user ->
  let w1 := fst (run env (post_subscription_create_checkout env req) w) in
  let w2 := fst (run env (post_subscription_create_checkout env req2) w1) in
  users w1 = map (updated (User.id user) (customer_changes c)) (users w)
  /\ analyses w1 = analyses w /\ consents w1 = consents w
  /\ calls w1
     = calls w ++ [StripeCustomersCreate (User.email user) (User.id user);
                   StripeCheckoutSessionsCreate c]
  /\ (exists v, authenticate env req2 w1 = Next v
                /\ User.stripeCustomerId v = Some c)
  /\ same_tables w1 w2
  /\ calls w2 = calls w1 ++ [StripeCheckoutSessionsCreate c].
Proof.
  intros A Hf Hc Hne A2 w1 w2.
  set (w0 := with_users (map (updated (User.id user) (customer_changes c)))
               (mkWorld (users w) (analyses w) (consents w)
                  (calls w ++ [StripeCustomersCreate (User.email user)
                                 (User.id user)])
                  (log w) (uuids w))).
  destruct (createCheckoutSession_run env c
              (STRIPE_PREMIUM_PRICE_ID (processEnv env)) (User.id user) w0)
    as (w' & res & R & T & C).
  assert (E : exists r l,
             run env (post_subscription_create_checkout env req) w
             = (logged l w', r)).
  { unfold run, post_subscription_create_checkout, authenticated. rewrite A.
    unfold try_catch. rewrite Hf. unfold bind at 1, bind at 1.
    unfold createCustomer, try_catch, external, bind at 1, issue, modify.
    rewrite Hc. unfold ret at 1. unfold bind at 1.
    rewrite User_update_run by exact I. unfold ret at 1.
    unfold bind at 1.
    change (createCheckoutSession env c _ _ (with_users _ _))
      with (createCheckoutSession env c
              (STRIPE_PREMIUM_PRICE_ID (processEnv env)) (User.id user) w0).
    rewrite R.
    destruct res as [session|e].
    - exists (res_json (BCheckout (fst session) (snd session))), [].
      unfold logged. rewrite app_nil_r. destruct w'; reflexivity.
    - eexists _, _. reflexivity. }
  destruct E as (r & l & E).
  assert (A2' : authenticate env req2 w1
                = Next (User.apply (customer_changes c) user)).
  { subst w1. rewrite E. cbn [fst].
    destruct T as (Tu & _ & _).
    rewrite (authenticate_users env req2
               (with_users (map (updated (User.id user) (customer_changes c)))
                  w)
               (logged l w'))
      by (cbn; rewrite Tu; reflexivity).
    rewrite (authenticate_after_update env req2 w user _ _ A2).
    unfold updated. now rewrite String.eqb_refl. }
  destruct (checkout_with_customer env req2 w1
              (User.apply (customer_changes c) user) c A2' eq_refl Hne)
    as [T2 C2].
  destruct T as (Tu & Ta & Tc).
  assert (W1 : users w1
               = map (updated (User.id user) (customer_changes c)) (users w)
               /\ analyses w1 = analyses w /\ consents w1 = consents w
               /\ calls w1
                  = calls w ++ [StripeCustomersCreate (User.email user)
                                  (User.id user);
                                StripeCheckoutSessionsCreate c]).
  { subst w1. rewrite E. cbn [fst]. unfold logged.
    cbn [users analyses consents calls]. rewrite Tu, Ta, Tc, C.
    subst w0. cbn. rewrite <- app_assoc. auto. }
  destruct W1 as (W1u & W1a & W1c & W1k).
  repeat (split; [assumption|]).
  split; [|split; assumption].
  eexists. split; [exact A2'|reflexivity].
Qed.

Lemma checkout_creates_customer_once_witness :
  authenticate (Demo.env true true) Demo.bob_checkout Demo.world
    = Next Demo.bob
  /\ User.stripeCustomerId Demo.bob = None
  /\ calls (fst (run (Demo.env true true)
                   (post_subscription_create_checkout (Demo.env true true)
                      Demo.bob_checkout_again)
                   (fst (run (Demo.env true true)
                           (post_subscription_create_checkout
                              (Demo.env true true) Demo.bob_checkout)
                           Demo.world))))
     = [StripeCustomersCreate "bob@example.com" "b0b00000-0000-4000-8000-000000000002";
        StripeCheckoutSessionsCreate "cus_new";
        StripeCheckoutSessionsCreate "cus_new"].
Proof.
  split; [reflexivity|]. split; [reflexivity|].
  assert (Hne : "cus_new"%string <> EmptyString) by discriminate.
  pose proof (checkout_creates_customer_once (Demo.env true true)
                Demo.bob_checkout Demo.bob_checkout_again Demo.world Demo.bob
                "cus_new" eq_refl eq_refl eq_refl Hne eq_refl) as H.
  cbv zeta in H. destruct H as (_ & _ & _ & K1 & _ & _ & K2).
  rewrite K2, K1. reflexivity.
Defined.

(** ** After an account is deleted *)

Lemma find_other_users k l :
  find (fun u => (User.id u =? k)%string) (other_users k l) = None.
Proof.
  unfold other_users. induction l as [|u l IH]; [reflexivity|].
  cbn. destruct (User.id u =? k)%string eqn:E; cbn; [exact IH|].
  now rewrite E.
Qed.

Lemma NoDup_map_In_eq {A B} (f : A -> B) l x y :
  NoDup (map f l) -> In x l -> In y l -> f x = f y -> x = y.
Proof.
  induction l as [|a l IH]; cbn; [tauto|].
  intros N Hx Hy E. inversion N as [|b m Hn N']; subst.
  destruct Hx as [<-|Hx], Hy as [<-|Hy]; auto.
  - destruct Hn. rewrite E. now apply in_map.
  - destruct Hn. rewrite <- E. now apply in_map.
Qed.

(** X20. A deleted account cannot come back in. After an account
    deletion that went through (right phrase, Stripe cancellation not
    needed or successful), a request that used to authenticate as the
    account is turned away with 401 [User not found] although its token
    still verifies, and, the emails being unique, no login with the
    account's email is answered 200. *)
Theorem deleted_account_cannot_return (env : Env) {Store : Type}
  {store : RateStore Store} (req : Request) (w : World) (user : User.t) :
  authenticate env req w = Next user ->
  strict_eq_str (body req "confirmation") "DELETE" = true ->
  billing_cancellation_fails env user = false ->
  let w1 := fst (run env (post_gdpr_delete_account env req) w) in
  (forall req2 v,
     authenticate env req2 w = Next v ->
     User.id v = User.id user ->
     authenticate env req2 w1
     = Respond (res_status_json 401 (BError "User not found")))
  /\ (emails_unique w ->
      forall (req2 : Request) (st : Store),
        normalizeEmail env (toString (body req2 "email")) = User.email user ->
        status (snd (snd (post_auth_login env req2 st w1))) <> 200).
Proof.
  intros A Hp Hb w1.
  assert (U1 : users w1 = other_users (User.id user) (users w)).
  { subst w1. rewrite (delete_account_authenticated env req w user A).
    destruct (delete_account_handler_billing_ok env req w user Hp Hb)
      as (cs & l & E & _).
    unfold run. rewrite E. reflexivity. }
  split.
  - intros req2 v A2 I2. unfold authenticate in *. rewrite U1.
    destruct (or_string (split_space_1 (authorization req2)) (cookie_token req2))
      as [tok|]; [|discriminate].
    destruct (falsy (Some tok)); [discriminate|].
    destruct (jwt_verify env tok _ (now req2)) as [uid| |]; try discriminate.
    destruct (find (fun u => (User.id u =? uid)%string) (users w))
      as [u|] eqn:F; [|discriminate].
    injection A2 as ->. apply find_some in F. destruct F as [_ F].
    apply String.eqb_eq in F. rewrite <- F, I2, find_other_users. reflexivity.
  - intros N req2 st E S.
    destruct (login_requires_session env req2 st w1 S) as (u & Fu).
    unfold named_account in Fu. rewrite E, U1 in Fu.
    apply find_some in Fu. destruct Fu as [Iu Eu].
    apply String.eqb_eq in Eu.
    unfold other_users in Iu. apply filter_In in Iu. destruct Iu as [Iu Ku].
    pose proof (authenticate_row env req w user A) as Fr.
    apply find_some in Fr. destruct Fr as [Ir _].
    assert (u = user)
      by (exact (NoDup_map_In_eq User.email (users w) u user N Iu Ir Eu)).
    subst u. rewrite String.eqb_refl in Ku. discriminate.
Qed.

Lemma deleted_account_cannot_return_witness :
  authenticate (Demo.env true true) Demo.right_phrase Demo.world
    = Next Demo.alice
  /\ authenticate (Demo.env true true) Demo.schedule_second Demo.world
     = Next Demo.alice
  /\ authenticate (Demo.env true true) Demo.schedule_second
       (fst (run (Demo.env true true)
               (post_gdpr_delete_account (Demo.env true true)
                  Demo.right_phrase)
               Demo.world))
     = Respond (res_status_json 401 (BError "User not found")).
Proof.
  split; [reflexivity|]. split; [reflexivity|].
  pose proof (deleted_account_cannot_return (Demo.env true true)
                (Store := MemoryStore)
                Demo.right_phrase Demo.world Demo.alice eq_refl eq_refl
                eq_refl) as H.
  cbv zeta in H. destruct H as [H _].
  exact (H Demo.schedule_second Demo.alice eq_refl eq_refl).
Defined.

(** ** Reading one's own data *)

Lemma insert_consent_desc_In a l x :
  In x (insert_consent_desc a l) <-> x = a \/ In x l.
Proof.
  induction l as [|b l IH]; cbn.
  - intuition auto.
  - destruct (Consent.createdAt b <? Consent.createdAt a); cbn.
    + intuition auto.
    + rewrite IH. intuition auto.
Qed.

Lemma fold_insert_consent_desc_In l x :
  In x (fold_right insert_consent_desc [] l) <-> In x l.
Proof.
  induction l as [|a l IH]; cbn; [tauto|].
  rewrite insert_consent_desc_In, IH. intuition auto.
Qed.

(** X21. The data export and the consent history are complete and scoped
    to the caller. For an authenticated account, [POST /gdpr/export]
    answers 200 with the account's profile (identifier, email, language,
    country, age, sex, tier, creation time; no password), an entry for
    every stored analysis of the account and for every stored consent of
    the account, and no entry of anyone else; [GET /gdpr/consents] answers 200 with
    exactly the consent rows of the account. Neither changes the world. *)
Theorem gdpr_reads_complete_and_scoped (env : Env) (req : Request) (w : World)
  (user : User.t) :
  authenticate env req w = Next user ->
  (exists entries records,
     run env (post_gdpr_export env req) w
     = (w, res_json
             (BExport
                (User.id user, User.email user, User.language user,
                 User.country user, User.age user, User.sex user,
                 User.isPremium user, User.createdAt user)
                entries records))
     /\ (forall x, In x entries <->
                   exists a, In a (analyses w)
                             /\ Analysis.userId a = User.id user
                             /\ x = exported_analysis a)
     /\ (forall x, In x records <->
                   exists c, In c (consents w)
                             /\ Consent.userId c = User.id user
                             /\ x = exported_consent c))
  /\ (exists rows,
        run env (get_gdpr_consents env req) w = (w, res_json (BConsents rows))
        /\ forall c, In c rows <->
                     In c (consents w) /\ Consent.userId c = User.id user).
Proof.
  intros A. split.
  - do 2 eexists. split.
    + unfold run, post_gdpr_export, authenticated. rewrite A. reflexivity.
    + split; intros x; rewrite in_map_iff; split.
      * intros (a & <- & I). apply filter_In in I. destruct I as [I O].
        exists a. apply String.eqb_eq in O. auto.
      * intros (a & I & O & ->). exists a. split; [reflexivity|].
        apply filter_In. split; [exact I|]. now apply String.eqb_eq.
      * intros (c & <- & I). apply filter_In in I. destruct I as [I O].
        exists c. apply String.eqb_eq in O. auto.
      * intros (c & I & O & ->). exists c. split; [reflexivity|].
        apply filter_In. split; [exact I|]. now apply String.eqb_eq.
  - eexists. split.
    + unfold run, get_gdpr_consents, authenticated. rewrite A. reflexivity.
    + intros c. rewrite fold_insert_consent_desc_In, filter_In.
      now rewrite String.eqb_eq.
Qed.

Lemma gdpr_reads_complete_and_scoped_witness :
  authenticate (Demo.env true true) Demo.schedule_first Demo.world
    = Next Demo.alice
  /\ exists rows,
       run (Demo.env true true)
         (get_gdpr_consents (Demo.env true true) Demo.schedule_first)
         Demo.world
       = (Demo.world, res_json (BConsents rows))
       /\ In Demo.alice_consent rows.
Proof.
  split; [reflexivity|].
  destruct (gdpr_reads_complete_and_scoped (Demo.env true true)
              Demo.schedule_first Demo.world Demo.alice eq_refl)
    as [_ (rows & R & H)].
  exists rows. split; [exact R|].
  apply H. split; [now left|reflexivity].
Defined.

(** ** The limiters in front of the routes *)



(** ** The two image checks of the submission route *)

(** X23. The upload middleware and the image validator agree, up to one
    byte. An image that multer lets through is never refused by
    [validateImage] for its size (multer refuses from 10485760 bytes on,
    the validator above 10485760 bytes, so that check of the validator is
    never the one that fires in the route): the validator either accepts
    it or refuses its type. An image the validator accepts is let through
    by multer when its size is not exactly 10485760 bytes: the three
    accepted types are image types, which is all the upload filter asks.
    An image the validator accepts of exactly 10485760 bytes is refused by
    multer as too large. *)
Theorem upload_checks_consistent (req : Request) (file : File) (w : World) :
  (upload_single req = Next (Some file) ->
   validateImage file w = (w, Ok true)
   \/ validateImage file w
      = (w, Throw (newError "Invalid file type. Only JPG and PNG are allowed.")))
  /\ (image req = Some file ->
      validateImage file w = (w, Ok true) ->
      size file <> 10485760 ->
      upload_single req = Next (Some file))
  /\ (image req = Some file ->
      validateImage file w = (w, Ok true) ->
      size file = 10485760 ->
      upload_single req = NextError (mkError "MulterError" "File too large")).
Proof.
  assert (F : validateImage file w = (w, Ok true) ->
              fileFilter file = None /\ size file <= 10485760).
  { unfold validateImage.
    destruct (existsb (String.eqb (mimetype file)) allowedTypes) eqn:T;
      [|discriminate].
    cbn [negb].
    destruct (Z.ltb_spec maxSize (size file)) as [S|S]; [discriminate|].
    intros _. split; [|exact S].
    unfold fileFilter, startsWith. apply existsb_exists in T.
    destruct T as (t & Ht & Et). apply String.eqb_eq in Et. rewrite Et.
    cbn in Ht. destruct Ht as [<-|[<-|[<-|[]]]]; reflexivity. }
  split; [|split].
  - unfold upload_single. destruct (image req) as [f|]; [|discriminate].
    destruct (fileFilter f); [discriminate|].
    destruct (Z.leb_spec fileSize (size f)) as [S|S]; [discriminate|].
    intros E. injection E as ->. unfold validateImage.
    destruct (negb _); [now right|].
    destruct (Z.ltb_spec maxSize (size file)) as [S'|S'];
      [unfold maxSize, fileSize in *; lia|now left].
  - intros I V N. destruct (F V) as [Ff S]. unfold upload_single.
    rewrite I, Ff.
    destruct (Z.leb_spec fileSize (size file)) as [S'|S'];
      [unfold fileSize in S'; lia|reflexivity].
  - intros I V N. destruct (F V) as [Ff S]. unfold upload_single.
    rewrite I, Ff, N. reflexivity.
Qed.

Lemma upload_checks_consistent_witness :
  upload_single Demo.gif_submission = Next (Some Demo.gif)
  /\ validateImage Demo.gif Demo.world
     = (Demo.world,
        Throw (newError "Invalid file type. Only JPG and PNG are allowed."))
  /\ validateImage (mkFile "image/jpeg" 10485760 "JFIF") Demo.world
     = (Demo.world, Ok true)
  /\ upload_single
       (Demo.with_image (mkFile "image/jpeg" 10485760 "JFIF")
          Demo.png_submission)
     = NextError (mkError "MulterError" "File too large").
Proof.
  split; [reflexivity|].
  split.
  - destruct (upload_checks_consistent Demo.gif_submission Demo.gif Demo.world)
      as [H _].
    destruct (H eq_refl) as [E|E]; [discriminate E|exact E].
  - split; [reflexivity|].
    destruct (upload_checks_consistent
                (Demo.with_image (mkFile "image/jpeg" 10485760 "JFIF")
                   Demo.png_submission)
                (mkFile "image/jpeg" 10485760 "JFIF") Demo.world)
      as (_ & _ & H).
    apply H; reflexivity.
Defined.

(** ** A submission whose analysis fails *)

(** X24. A submission whose AI analysis fails leaves its image behind.
    For an authenticated, consenting account under its quota, with an
    image both checks accept and a well-formed questionnaire: when the
    image has been processed and uploaded and OpenAI then fails, the
    answer is 500 with the service's message, no table changes (no
    Submission is stored), and the third-party calls issued are the
    upload and the analysis request, in that order: the uploaded image is
    not removed again. *)
Theorem failed_analysis_leaves_image (env : Env) {Store : Type}
  {store : RateStore Store} (req : Request) (st : Store) (w : World)
  (user : User.t) (file : File) (processed url publicId : string)
  (questionnaire : Json) :
  authenticate env req w = Next user ->
  requireGDPRConsent user = Next tt ->
  snd (rateLimit analysisLimiter st (Some user) req) = Next tt ->
  upload_single req = Next (Some file) ->
  validateImage file w = (w, Ok true) ->
  analysis_validators env req = [] ->
  sharp env (buffer file) = Some processed ->
  cloudinary_upload env (user_folder env (User.id user)) processed
    = Some (url, publicId) ->
  JSON_parse env (toString (body req "questionnaire")) = Some questionnaire ->
  openai_completions env url questionnaire (submitted_area req)
    (User.isPremium user) (now req) = None ->
  snd (snd (post_analysis env req st w))
    = res_status_json 500
        (BError "Failed to analyze image. Please try again.")
  /\ same_tables w (fst (snd (post_analysis env req st w)))
  /\ calls (fst (snd (post_analysis env req st w)))
     = calls w ++ [CloudinaryUpload (user_folder env (User.id user));
                   OpenAIAnalyze url].
Proof.
  intros A G L U V Q S C J O.
  assert (E : exists l,
             snd (post_analysis env req st w)
             = (mkWorld (users w) (analyses w) (consents w)
                  (calls w ++ [CloudinaryUpload (user_folder env (User.id user));
                               OpenAIAnalyze url])
                  (log w ++ l) (uuids w),
                res_status_json 500
                  (BError "Failed to analyze image. Please try again."))).
  { unfold post_analysis. rewrite A, G.
    destruct (rateLimit analysisLimiter st (Some user) req) as [st' o].
    cbn [snd] in L. subst o. rewrite U. cbn [snd].
    unfold run, create_analysis_handler, try_catch. rewrite Q.
    cbn [length Nat.eqb negb].
    unfold bind at 1. rewrite V.
    unfold bind at 1, uploadImage, try_catch, bind at 1. rewrite S.
    unfold ret at 1, external, bind at 1, issue, modify. rewrite C.
    unfold ret at 1. unfold bind at 1. rewrite J. unfold ret at 1.
    unfold bind at 1, analyzeImage, try_catch, external, bind at 1, issue,
      modify.
    fold (submitted_area req). cbn [users analyses consents calls log uuids].
    rewrite O.
    unfold throw, bind, console_error, modify, ret, message_or, newError.
    cbn. eexists. rewrite <- !app_assoc. reflexivity. }
  destruct E as [l ->]. cbn [fst snd]. unfold same_tables. cbn. auto.
Qed.

Lemma failed_analysis_leaves_image_witness :
  authenticate Demo.env_openai_down Demo.png_submission Demo.world
    = Next Demo.bob
  /\ status (snd (snd (post_analysis Demo.env_openai_down Demo.png_submission
                         (analysisStore Demo.server) Demo.world)))
     = 500
  /\ calls (fst (snd (post_analysis Demo.env_openai_down Demo.png_submission
                        (analysisStore Demo.server) Demo.world)))
     = [CloudinaryUpload "ai-derma/b0b00000-0000-4000-8000-000000000002";
        OpenAIAnalyze "https://res.cloudinary.com/ai-derma/b0b00000-0000-4000-8000-000000000002"].
Proof.
  split; [reflexivity|].
  assert (L : snd (rateLimit analysisLimiter (analysisStore Demo.server)
                     (Some Demo.bob) Demo.png_submission)
              = Next tt) by (vm_compute; reflexivity).
  destruct (failed_analysis_leaves_image Demo.env_openai_down
              Demo.png_submission (analysisStore Demo.server) Demo.world
              Demo.bob Demo.png "PNG"
              "https://res.cloudinary.com/ai-derma/b0b00000-0000-4000-8000-000000000002"
              "ai-derma/b0b00000-0000-4000-8000-000000000002/img" "{}"
              eq_refl eq_refl L eq_refl eq_refl eq_refl eq_refl eq_refl
              eq_refl eq_refl) as (R & _ & K).
  rewrite R, K. split; reflexivity.
Defined.

(** ** The end of a session *)

(** [POST /auth/refresh] with a body the parsers accept never answers 2xx
    through the application. *)
Lemma refresh_never_fulfilled env {Store : Type} {store : RateStore Store}
  (route : Route) (req : Request) (s : Server Store) :
  body_error req = None ->
  route = POST_auth_refresh \/ route = Unknown_route ->
  In (status (snd (app env route req s))) [401; 404; 429]
  /\ world (fst (app env route req s)) = world s.
Proof.
  intros Hb Hr.
  rewrite app_routed by (destruct Hr as [-> | ->]; discriminate).
  rewrite Hb. unfold mounted.
  pose proof (rateLimit_outcome generalLimiter (generalStore s) None req) as L.
  destruct (rateLimit generalLimiter (generalStore s) None req) as [g o].
  cbn [snd] in L. destruct L as [L|L]; subst o.
  2:{ cbn. tauto. }
  destruct Hr as [-> | ->].
  - unfold run, post_auth_refresh, try_catch.
    destruct (negb (truthy (body req "refreshToken"))); cbn; tauto.
  - cbn. tauto.
Qed.

(** X25. An answer 401 ends the client's session: the token refresh the
    response interceptor attempts never succeeds. When a request is
    rejected with 401 and has not been retried, and the refresh request
    reaches the backend (on the refresh route, or on no route when the
    configured address doubles the prefix), the backend answers 401, 404
    or 429 without touching its world, so the interceptor clears both
    tokens from local storage, sends the browser to the login page and
    rejects; the original request is not sent again. *)
Theorem rejected_session_is_signed_out (env : Env) {Store : Type}
  {store : RateStore Store} (route : Route) (s : Server Store) (b : Browser)
  (answer : Response) (t : Z) (address : string) (agent : option string)
  (resend : string -> Settled) :
  status answer = 401 ->
  route = POST_auth_refresh \/ route = Unknown_route ->
  exists r,
    response_rejected b (Some answer) false
      (fun token =>
         settle (snd (app env route (refresh_request t address agent token) s)))
      resend
    = (signed_out, Rejected (Some r))
    /\ In (status r) [401; 404; 429]
    /\ forall token,
         world (fst (app env route (refresh_request t address agent token) s))
         = world s.
Proof.
  intros Ha Hr. unfold response_rejected. rewrite Ha.
  cbn [Z.eqb andb negb Pos.eqb].
  set (req := refresh_request t address agent
                (getItem (refreshToken (localStorage b)))).
  destruct (refresh_never_fulfilled env route req s eq_refl Hr) as [S _].
  exists (snd (app env route req s)). split; [|split; [exact S|]].
  - unfold settle.
    destruct S as [E|[E|[E|[]]]]; rewrite <- E; reflexivity.
  - intros token.
    exact (proj2 (refresh_never_fulfilled env route
                    (refresh_request t address agent token) s eq_refl Hr)).
Qed.

Lemma rejected_session_is_signed_out_witness :
  fst (response_rejected
         (mkBrowser (mkLocalStorage (Some "jwt.a11ce000-0000-4000-8000-000000000001") (Some "jwt.a11ce000-0000-4000-8000-000000000001"))
                    "/library")
         (Some (res_status_json 401 (BError "Token expired"))) false
         (fun token =>
            settle (snd (app (Demo.env true true) POST_auth_refresh
                           (refresh_request 1700000600000 "203.0.113.7" None
                              token)
                           Demo.server)))
         (fun _ => Rejected None))
  = signed_out.
Proof.
  destruct (rejected_session_is_signed_out (Demo.env true true)
              POST_auth_refresh Demo.server
              (mkBrowser (mkLocalStorage (Some "jwt.a11ce000-0000-4000-8000-000000000001")
                            (Some "jwt.a11ce000-0000-4000-8000-000000000001")) "/library")
              (res_status_json 401 (BError "Token expired"))
              1700000600000 "203.0.113.7" None
              (fun _ => Rejected None) eq_refl (or_introl eq_refl))
    as (r & E & _).
  rewrite E. reflexivity.
Defined.
